(** * napalm-arubaOS: the ArubaOS driver's text extractors and the SSH helper

    A shallow embedding of [napalm_aruba505/arubaf.py] (class
    [ArubaFDriver]) and of [arubaos/helpers.py] ([send_single_cmd]), with
    the properties of the extractors proved over it.

    Conventions of the embedding.
    - A Python [str] is a [string]; each character is read as the code
      point of the same number, so the texts covered are those of code
      points 0..255.  The character classes below ([isspace], the line
      boundaries of [splitlines], [isnumeric], [lower]) are Python 3's on
      that range.
    - A Python [int] is a [Z].  A float that comes from [float(n)] of an
      integer is a double with a whole value, and [PFloat] holds that value:
      [n] itself up to 2^53, the nearest double (ties to even) above, and
      [OverflowError] when that double would not be finite.
    - A raised exception is an outcome: functions that can raise return a
      [result].
    - A [dict] with fixed keys that is returned to the caller is a record;
      a [dict] that is filled by assignment is a [gmap]. *)

From Stdlib Require Import String Ascii List ZArith Lia Bool.
From stdpp Require Import gmap strings.

Open Scope string_scope.
Open Scope list_scope.

(** ** Exceptions and results *)

Inductive Exn : Set :=
| IndexError
| ValueError
| OverflowError
| UnicodeDecodeError
| SocketTimeout
| SocketError.

Inductive result (A : Type) : Type :=
| Ok (a : A)
| Raise (e : Exn).

Arguments Ok {A} a.
Arguments Raise {A} e.

#[global] Instance result_ret : MRet result := fun A a => Ok a.

#[global] Instance result_bind : MBind result := fun A B f m =>
  match m with
  | Ok a => f a
  | Raise e => Raise e
  end.

(** [for x in xs: st = body(st, x)], the loop stopping at the first
    exception. *)
Fixpoint for_each {S A : Type} (body : S -> A -> result S) (st : S) (xs : list A)
  : result S :=
  match xs with
  | [] => Ok st
  | x :: xs' => st' ← body st x; for_each body st' xs'
  end.

(** [[f(x) for x in xs]], evaluated left to right. *)
Fixpoint map_m {A B : Type} (f : A -> result B) (xs : list A) : result (list B) :=
  match xs with
  | [] => Ok []
  | x :: xs' => y ← f x; ys ← map_m f xs'; Ok (y :: ys)
  end.

(** ** The Python built-ins the driver calls *)

Module Py.

Definition LF : ascii := "010"%char.
Definition CR : ascii := "013"%char.

(** [c.isspace()] for a code point below 256. *)
Definition isspace (c : ascii) : bool :=
  let n := N_of_ascii c in
  ((9 <=? n) && (n <=? 13) || (28 <=? n) && (n <=? 31)
   || (n =? 32) || (n =? 133) || (n =? 160))%N.

(** The line boundaries of [str.splitlines] below 256. *)
Definition is_linebreak (c : ascii) : bool :=
  let n := N_of_ascii c in
  ((10 <=? n) && (n <=? 13) || (28 <=? n) && (n <=? 30) || (n =? 133))%N.

(** [c.isnumeric()] below 256: the digits, the superscripts 1 2 3 and the
    fractions 1/4 1/2 3/4. *)
Definition isnumeric_char (c : ascii) : bool :=
  let n := N_of_ascii c in
  ((48 <=? n) && (n <=? 57) || (n =? 178) || (n =? 179) || (n =? 185)
   || (188 <=? n) && (n <=? 190))%N.

(** [c.isdecimal()] below 256: the characters [int] accepts as digits. *)
Definition isdecimal_char (c : ascii) : bool :=
  let n := N_of_ascii c in ((48 <=? n) && (n <=? 57))%N.

Definition lower_char (c : ascii) : ascii :=
  let n := N_of_ascii c in
  if ((65 <=? n) && (n <=? 90)
      || (192 <=? n) && (n <=? 222) && negb (n =? 215))%N
  then ascii_of_N (n + 32) else c.

(** [bool(s)] of a string: it is not empty. *)
Definition truthy (s : string) : bool :=
  match s with
  | EmptyString => false
  | String _ _ => true
  end.

Fixpoint lower (s : string) : string :=
  match s with
  | EmptyString => EmptyString
  | String c s' => String (lower_char c) (lower s')
  end.

Fixpoint lstrip (s : string) : string :=
  match s with
  | EmptyString => EmptyString
  | String c s' => if isspace c then lstrip s' else s
  end.

Fixpoint rstrip (s : string) : string :=
  match s with
  | EmptyString => EmptyString
  | String c s' =>
      match rstrip s' with
      | EmptyString => if isspace c then EmptyString else String c EmptyString
      | r => String c r
      end
  end.

(** [s.strip()] *)
Definition strip (s : string) : string := rstrip (lstrip s).

(** [s.splitlines()]: [skip_lf] is set just after a carriage return, whose
    following line feed belongs to the same boundary. *)
Fixpoint splitlines_from (skip_lf : bool) (s : string) : list string :=
  match s with
  | EmptyString => []
  | String c s' =>
      if skip_lf && Ascii.eqb c LF then splitlines_from false s'
      else if is_linebreak c then EmptyString :: splitlines_from (Ascii.eqb c CR) s'
      else match splitlines_from false s' with
           | [] => [String c EmptyString]
           | x :: xs => String c x :: xs
           end
  end.

Definition splitlines (s : string) : list string := splitlines_from false s.

(** [s.split(sep)] for a separator of one character, which is what every
    call of the driver passes ([':'], [','], ["\n"]). *)
Fixpoint split (sep : ascii) (s : string) : list string :=
  match s with
  | EmptyString => [EmptyString]
  | String c s' =>
      if Ascii.eqb c sep then EmptyString :: split sep s'
      else match split sep s' with
           | [] => [String c EmptyString]
           | x :: xs => String c x :: xs
           end
  end.

(** [s.split()]: the maximal runs of non-space characters. *)
Fixpoint split_ws (s : string) : list string :=
  match s with
  | EmptyString => []
  | String c s' =>
      if isspace c then split_ws s'
      else match s' with
           | EmptyString => [String c EmptyString]
           | String c' _ =>
               if isspace c' then String c EmptyString :: split_ws s'
               else match split_ws s' with
                    | [] => [String c EmptyString]
                    | x :: xs => String c x :: xs
                    end
           end
  end.

(** [sub in s] *)
Fixpoint contains (sub s : string) : bool :=
  String.prefix sub s
  || match s with
     | EmptyString => false
     | String _ s' => contains sub s'
     end.

(** [s.startswith(p)] *)
Definition startswith (p s : string) : bool := String.prefix p s.

(** [s.replace(old, new)] for a non-empty [old]: the occurrences are
    taken from the left and do not overlap; [skip] counts the characters
    of an occurrence still to be dropped. *)
Fixpoint replace_from (skip : nat) (old new s : string) : string :=
  match s with
  | EmptyString => EmptyString
  | String c s' =>
      match skip with
      | S k => replace_from k old new s'
      | O =>
          if String.prefix old s
          then new +:+ replace_from (String.length old - 1) old new s'
          else String c (replace_from O old new s')
      end
  end.

Definition replace (old new s : string) : string := replace_from O old new s.

Fixpoint all_chars (p : ascii -> bool) (s : string) : bool :=
  match s with
  | EmptyString => true
  | String c s' => p c && all_chars p s'
  end.

(** [s.isnumeric()] *)
Definition isnumeric (s : string) : bool := truthy s && all_chars isnumeric_char s.

Fixpoint digits_value (acc : Z) (s : string) : Z :=
  match s with
  | EmptyString => acc
  | String c s' => digits_value (10 * acc + (Z.of_N (N_of_ascii c) - 48)) s'
  end.

(** The most digits [int] converts from a string,
    [sys.int_info.default_max_str_digits] of the interpreters that have the
    limit (3.11 on, and the late releases of 3.7 to 3.10). *)
Definition int_max_str_digits : nat := 4300.

(** [int(s)] for a string without spaces, sign or underscore, which is
    what the driver passes (it filters the tokens with [isnumeric]): a
    non-empty run of at most [int_max_str_digits] decimal digits, leading
    zeros counted, is read in base ten and anything else is refused with
    [ValueError]. *)
Definition int_ (s : string) : result Z :=
  if truthy s && all_chars isdecimal_char s
     && (String.length s <=? int_max_str_digits)%nat
  then Ok (digits_value 0 s)
  else Raise ValueError.

(** [xs[i]] for [i >= 0] *)
Definition index {A : Type} (xs : list A) (i : nat) : result A :=
  match nth_error xs i with
  | Some x => Ok x
  | None => Raise IndexError
  end.

(** A text given by its lines, each ended by a line feed. *)
Definition text (ls : list string) : string :=
  String.concat EmptyString (map (fun l => l +:+ String LF EmptyString) ls).

End Py.

(** ** [napalm_aruba505/arubaf.py] *)

Definition SECONDS : Z := 1.
Definition MINUTE_SECONDS : Z := 60.
Definition HOUR_SECONDS : Z := 3600.
Definition DAY_SECONDS : Z := 24 * HOUR_SECONDS.
Definition WEEK_SECONDS : Z := 7 * DAY_SECONDS.
Definition YEAR_SECONDS : Z := 365 * DAY_SECONDS.

(** The values the [uptime] local takes: the string it is initialised with,
    or the float of an integer sum, a double with the whole value [n]. *)
Inductive pyval : Set :=
| PStr (s : string)
| PFloat (n : Z).

(** The double nearest to an integer, ties to even: below 2^53 the integer
    itself, above it the 53 leading bits rounded on the bits dropped. *)
Definition round_to_double (n : Z) : Z :=
  let a := Z.abs n in
  let e := Z.log2 a in
  if (e <? 53)%Z then n
  else
    let shift := (e - 52)%Z in
    let q := Z.shiftr a shift in
    let r := (a mod 2 ^ shift)%Z in
    let half := (2 ^ (shift - 1))%Z in
    let q' := if (half <? r)%Z || (r =? half)%Z && Z.odd q then (q + 1)%Z else q in
    (Z.sgn n * (q' * 2 ^ shift))%Z.

(** [float(n)]: [OverflowError] when the nearest double is 2^1024 or more
    in size. *)
Definition py_float (n : Z) : result pyval :=
  if (Z.abs (round_to_double n) <? 2 ^ 1024)%Z then Ok (PFloat (round_to_double n))
  else Raise OverflowError.

(** [sum(xs)] *)
Definition py_sum (xs : list Z) : Z := fold_left Z.add xs 0%Z.

(** The sum inside the expression assigned to [uptime] in
    [show_version_sanitizer]:
    [sum([(years * YEAR_SECONDS), (weeks * WEEK_SECONDS), ...])] ... *)
Definition uptime_sum (years weeks days hours minutes seconds : Z) : Z :=
  py_sum [ years * YEAR_SECONDS; weeks * WEEK_SECONDS; days * DAY_SECONDS;
           hours * HOUR_SECONDS; minutes * MINUTE_SECONDS; seconds * SECONDS ]%Z.

(** ... and the expression itself, [float(sum([...]))], written twice there
    with the same text. *)
Definition uptime_seconds (years weeks days hours minutes seconds : Z) : result pyval :=
  py_float (uptime_sum years weeks days hours minutes seconds).

(** The local variables of [show_summary_sanitizer]. *)
Module Summary.
Record locals : Set := mk
  { hostname_ : string; fqdn : string; serial_number : string }.

Definition init : locals :=
  {| hostname_ := ""; fqdn := ""; serial_number := "" |}.
End Summary.

(** The loop of [show_summary_sanitizer] has three [if]s in a row, each
    reading the locals left by the one before.
    [if "Name" in l and not hostname_: hostname_ = l.split(':')[1].lower()] *)
Definition name_rule (st : Summary.locals) (l : string) : result Summary.locals :=
  if Py.contains "Name" l && negb (Py.truthy (Summary.hostname_ st)) then
    v ← Py.index (Py.split ":" l) 1;
    Ok (Summary.mk (Py.lower v) (Summary.fqdn st) (Summary.serial_number st))
  else Ok st.

(** [if "DNSDomain" in l and hostname_: fqdn = hostname_ + "." + l.split(':')[1]] *)
Definition domain_rule (st : Summary.locals) (l : string) : result Summary.locals :=
  if Py.contains "DNSDomain" l && Py.truthy (Summary.hostname_ st) then
    v ← Py.index (Py.split ":" l) 1;
    Ok (Summary.mk (Summary.hostname_ st) (Summary.hostname_ st +:+ "." +:+ v)
                   (Summary.serial_number st))
  else Ok st.

(** [if "Serial Number" in l: serial_number = l.split(':')[1]] *)
Definition serial_rule (st : Summary.locals) (l : string) : result Summary.locals :=
  if Py.contains "Serial Number" l then
    v ← Py.index (Py.split ":" l) 1;
    Ok (Summary.mk (Summary.hostname_ st) (Summary.fqdn st) v)
  else Ok st.

Definition summary_body (st : Summary.locals) (l : string) : result Summary.locals :=
  st1 ← name_rule st l;
  st2 ← domain_rule st1 l;
  serial_rule st2 l.

(** The lines a sanitizer loops over: [data.strip().splitlines()] under
    [if data:], and no line at all for an empty [data]. *)
Definition data_lines (data : string) : list string :=
  if Py.truthy data then Py.splitlines (Py.strip data) else [].

Definition show_summary_sanitizer (data : string)
  : result (string * string * string) :=
  st ← for_each summary_body Summary.init (data_lines data);
  Ok (Summary.hostname_ st, Summary.fqdn st, Summary.serial_number st).

(** The local variables of [show_version_sanitizer]. *)
Module Version.
Record locals : Set := mk
  { years : Z; weeks : Z; days : Z; hours : Z; minutes : Z; seconds : Z;
    vendor : string; model : string; os_version : string; uptime : pyval }.

Definition init : locals :=
  {| years := 0; weeks := 0; days := 0; hours := 0; minutes := 0; seconds := 0;
     vendor := "Hewlett Packard"; model := ""; os_version := "";
     uptime := PStr "" |}.
End Version.

(** [[int(i) for i in tmp_uptime if i.isnumeric()]] for the line [l]. *)
Definition numeric_tokens (l : string) : list string :=
  List.filter Py.isnumeric (Py.split_ws (Py.replace "AP uptime is" "" l)).

Definition uptimes_records (l : string) : result (list Z) :=
  map_m Py.int_ (numeric_tokens l).

(** The loop of [show_version_sanitizer] has two [if]s in a row.
    [if "MODEL" in l: model, os_version = l.split(',')]: an unpacking whose
    target count differs from the length of the list raises [ValueError]. *)
Definition model_rule (st : Version.locals) (l : string) : result Version.locals :=
  if Py.contains "MODEL" l then
    match Py.split "," l with
    | [m; o] =>
        Ok (Version.mk (Version.years st) (Version.weeks st) (Version.days st)
              (Version.hours st) (Version.minutes st) (Version.seconds st)
              (Version.vendor st) m o (Version.uptime st))
    | _ => Raise ValueError
    end
  else Ok st.

(** [if "AP uptime is" in l:] with its two inner [if]s, the second reading
    the locals the first may have assigned.  In each, the unpacking comes
    first and the float of the sum, which may overflow, after it. *)
Definition uptime_rule (st : Version.locals) (l : string) : result Version.locals :=
  if Py.contains "AP uptime is" l then
    records ← uptimes_records l;
    st1 ← (if negb (length records =? 0)%nat && (5 <=? length records)%nat then
             match records with
             | [w; d; h; m; s] =>
                 uptime ← uptime_seconds (Version.years st) w d h m s;
                 Ok (Version.mk (Version.years st) w d h m s
                       (Version.vendor st) (Version.model st) (Version.os_version st)
                       uptime)
             | _ => Raise ValueError
             end
           else Ok st);
    if negb (length records =? 0)%nat && (length records =? 4)%nat then
      match records with
      | [w; d; h; m] =>
          uptime ← uptime_seconds (Version.years st1) w d h m (Version.seconds st1);
          Ok (Version.mk (Version.years st1) w d h m (Version.seconds st1)
                (Version.vendor st1) (Version.model st1) (Version.os_version st1)
                uptime)
      | _ => Raise ValueError
      end
    else Ok st1
  else Ok st.

Definition version_body (st : Version.locals) (l : string) : result Version.locals :=
  st1 ← model_rule st l;
  uptime_rule st1 l.

Definition show_version_sanitizer (data : string)
  : result (string * string * string * pyval) :=
  st ← for_each version_body Version.init (data_lines data);
  Ok (Version.vendor st, Version.model st, Version.os_version st, Version.uptime st).

(** The connection object of the transport library, [self.device]: the one
    method the driver calls on it returns the output of a command and leaves
    the connection in a new state.  The exceptions of the transport itself
    are not modelled. *)
Class ConnectHandler (D : Type) : Type :=
  { send_command : string -> D -> string * D }.

(** The attributes of an opened [ArubaFDriver] that the methods below read
    or write; [destination] exists once [get_ping] has run. *)
Record ArubaFDriver (D : Type) : Type := mkDriver
  { hostname : string; device : D; destination : option string }.

Arguments mkDriver {D} _ _ _.
Arguments hostname {D} _.
Arguments device {D} _.
Arguments destination {D} _.

(** The dictionary [get_facts] returns. *)
Module Facts.
Record t : Set := mk
  { hostname : string; fqdn : string; vendor : string; model : string;
    serial_number : string; os_version : string; uptime : pyval }.
End Facts.

(** The blank-line filter [get_facts] applies to each output before it is
    parsed: [split("\n")], keep the lines with [line.strip() != ""], and
    append each with a line feed. *)
Definition non_empty_lines (output : string) : list string :=
  List.filter (fun line => negb (String.eqb (Py.strip line) ""))
              (Py.split Py.LF output).

Definition join_lines (ls : list string) : string :=
  fold_left (fun acc line => acc +:+ line +:+ String Py.LF "") ls "".

Definition get_facts {D : Type} `{ConnectHandler D} (self : ArubaFDriver D)
  : result Facts.t * ArubaFDriver D :=
  let '(show_version_output, dev1) := send_command "show version" (device self) in
  let '(show_summary_output, dev2) := send_command "show summary" dev1 in
  let self' := mkDriver (hostname self) dev2 (destination self) in
  let show_version_string_ := join_lines (non_empty_lines show_version_output) in
  let show_summary_string_ := join_lines (non_empty_lines show_summary_output) in
  ('(vendor, model, os_version, uptime) ← show_version_sanitizer show_version_string_;
   '(hostname_, fqdn_, serial_number_) ← show_summary_sanitizer show_summary_string_;
   Ok (Facts.mk hostname_ fqdn_ vendor model serial_number_ (Py.strip os_version) uptime),
   self').

Definition bad_responses : list string :=
  [ "not known"; "Name or service not known"; "Error"; "error";
    "fail"; "Fail"; "Destination Host Unreachable"; "Destination";
    "Unreachable"; "estination"; "reachable"; "connect" ].

(** [for i in bad_responses: if i in output: ping_dict["error"] = ...; break] *)
Fixpoint ping_scan (output : string) (ping_dict : gmap string string)
    (responses : list string) : gmap string string :=
  match responses with
  | [] => ping_dict
  | i :: rest =>
      if Py.contains i output then <["error" := "disconnected"]> ping_dict
      else ping_scan output ping_dict rest
  end.

(** [get_ping] up to its [return]: the locals [ping_dict] and [output], and
    the driver with [destination] set.  The [elif] follows [if output:], so
    its branch is only tried for an empty output. *)
Definition get_ping_locals {D : Type} `{ConnectHandler D} (self : ArubaFDriver D)
  : gmap string string * string * ArubaFDriver D :=
  let destination := hostname self in
  let command := "ping " +:+ destination in
  let '(output, dev1) := send_command command (device self) in
  let ping_dict : gmap string string := ∅ in
  let ping_dict :=
    if Py.truthy output then ping_scan output ping_dict bad_responses
    else if Py.truthy output && (10 <? String.length output)%nat
         then <["success" := "connected"]> ping_dict
         else ping_dict in
  (ping_dict, output, mkDriver (hostname self) dev1 (Some destination)).

(** [return output]: the line [return ping_dict] is commented out. *)
Definition get_ping {D : Type} `{ConnectHandler D} (self : ArubaFDriver D)
  : string * ArubaFDriver D :=
  let '(ping_dict, output, self') := get_ping_locals self in (output, self').

(** One entry of the list under ["eth0"]. *)
Module Neighbor.
Record t : Set := mk { hostname : string; port : string }.
End Neighbor.

(** The local variables of the two neighbor methods; [vendor] is unbound
    until its assignment runs. *)
Module Lldp.
Record locals : Set := mk
  { system_name : string; interface_description : string; vendor : option string }.

Definition init : locals :=
  {| system_name := ""; interface_description := ""; vendor := None |}.
End Lldp.

(** The loop of [get_lldp_neighbors], under [if line:]:
    [if "System name:" in line: system_name = line.split()[2]] *)
Definition system_name_rule (st : Lldp.locals) (line : string) : result Lldp.locals :=
  if Py.contains "System name:" line then
    v ← Py.index (Py.split_ws line) 2;
    Ok (Lldp.mk v (Lldp.interface_description st) (Lldp.vendor st))
  else Ok st.

(** [if "Interface description:" in line:
       interface_description = line.split()[2].replace(",", "")] *)
Definition interface_description_rule (st : Lldp.locals) (line : string)
  : result Lldp.locals :=
  if Py.contains "Interface description:" line then
    v ← Py.index (Py.split_ws line) 2;
    Ok (Lldp.mk (Lldp.system_name st) (Py.replace "," "" v) (Lldp.vendor st))
  else Ok st.

(** [if line.startswith("HP"):
       if "Switch" in line and "revision" in line and "ROM" in line: vendor = "HP"] *)
Definition vendor_rule (st : Lldp.locals) (line : string) : Lldp.locals :=
  if Py.startswith "HP" line then
    if Py.contains "Switch" line && Py.contains "revision" line && Py.contains "ROM" line
    then Lldp.mk (Lldp.system_name st) (Lldp.interface_description st) (Some "HP")
    else st
  else st.

Definition lldp_body (st : Lldp.locals) (line : string) : result Lldp.locals :=
  if Py.truthy line then
    st1 ← system_name_rule st line;
    st2 ← interface_description_rule st1 line;
    Ok (vendor_rule st2 line)
  else Ok st.

Definition get_lldp_neighbors {D : Type} `{ConnectHandler D} (self : ArubaFDriver D)
  : result (gmap string (list Neighbor.t)) * ArubaFDriver D :=
  let command := "show ap debug lldp neighbor interface eth0" in
  let '(result, dev1) := send_command command (device self) in
  let data := map Py.strip (Py.splitlines result) in
  (st ← for_each lldp_body Lldp.init data;
   Ok (<["eth0" := [Neighbor.mk (Lldp.system_name st) (Lldp.interface_description st)]]>
         (∅ : gmap string (list Neighbor.t))),
   mkDriver (hostname self) dev1 (destination self)).

(** [get_lldp_neighbors_detail] repeats the text of [get_lldp_neighbors]
    under another signature; its loop is written out here as it stands in
    the source. *)
Definition get_lldp_neighbors_detail {D : Type} `{ConnectHandler D}
    (self : ArubaFDriver D) (interface : string)
  : result (gmap string (list Neighbor.t)) * ArubaFDriver D :=
  let command := "show ap debug lldp neighbor interface eth0" in
  let '(result, dev1) := send_command command (device self) in
  let data := map Py.strip (Py.splitlines result) in
  (st ← for_each (fun st line =>
         if Py.truthy line then
           st1 ← (if Py.contains "System name:" line then
                    v ← Py.index (Py.split_ws line) 2;
                    Ok (Lldp.mk v (Lldp.interface_description st) (Lldp.vendor st))
                  else Ok st);
           st2 ← (if Py.contains "Interface description:" line then
                    v ← Py.index (Py.split_ws line) 2;
                    Ok (Lldp.mk (Lldp.system_name st1) (Py.replace "," "" v)
                                (Lldp.vendor st1))
                  else Ok st1);
           Ok (if Py.startswith "HP" line then
                 if Py.contains "Switch" line && Py.contains "revision" line
                    && Py.contains "ROM" line
                 then Lldp.mk (Lldp.system_name st2) (Lldp.interface_description st2)
                              (Some "HP")
                 else st2
               else st2)
         else Ok st) Lldp.init data;
   Ok (<["eth0" := [Neighbor.mk (Lldp.system_name st) (Lldp.interface_description st)]]>
         (∅ : gmap string (list Neighbor.t))),
   mkDriver (hostname self) dev1 (destination self)).

(** ** [arubaos/helpers.py] *)

(** What [send_single_cmd] does besides using the channel: it prints and it
    sleeps.  [Print s] is [print(s)], [Sleep n] is a [time.sleep(n)] that
    was carried out. *)
Inductive Event : Set :=
| Print (s : string)
| Sleep (seconds : Z).

(** The shell channel of the SSH library, as [send_single_cmd] uses it: a
    bounded read, a write, and the decoding of what was read.  [B] is the
    type of the byte strings read, [decode b] is [b.decode("utf-8")].  A read
    or a write may raise (a time-out, a closed socket) and so may the
    decoding. *)
Class Channel (C B : Type) : Type :=
  { recv : Z -> C -> result B * C;
    send : string -> C -> result Z * C;
    decode : B -> result string }.

(** Computations over a world [W] that may raise: the world is kept as it
    was when the exception left. *)
Definition io (W A : Type) : Type := W -> result A * W.

#[global] Instance io_ret {W : Type} : MRet (io W) := fun A a w => (Ok a, w).

#[global] Instance io_bind {W : Type} : MBind (io W) := fun A B f m w =>
  match m w with
  | (Ok a, w') => f a w'
  | (Raise e, w') => (Raise e, w')
  end.

(** The longest sleep, in seconds, whose nanoseconds fit in 64 bits:
    (2^63 - 1) / 10^9. *)
Definition sleep_max : Z := 9223372036.

Section Helpers.
Context {C B : Type} `{Channel C B}.

(** The world of one call: the channel and what was printed or slept. *)
Definition world : Type := C * list Event.

Definition io_recv (nbytes : Z) : io world B := fun w =>
  let '(r, ch) := recv nbytes (fst w) in (r, (ch, snd w)).

Definition io_send (s : string) : io world Z := fun w =>
  let '(r, ch) := send s (fst w) in (r, (ch, snd w)).

Definition io_event (e : Event) : io world unit := fun w =>
  (Ok tt, (fst w, snd w ++ [e])).

Definition io_lift {A : Type} (r : result A) : io world A := fun w => (r, w).

(** [time.sleep(seconds)] of an integer: the length is first converted to
    nanoseconds on 64 bits, with [OverflowError] when it does not fit; a
    negative length is then refused with [ValueError]. *)
Definition io_sleep (seconds : Z) : io world unit := fun w =>
  if (seconds <? - sleep_max)%Z || (sleep_max <? seconds)%Z
  then (Raise OverflowError, w)
  else if (seconds <? 0)%Z then (Raise ValueError, w)
  else (Ok tt, (fst w, snd w ++ [Sleep seconds])).

(** The part of [send_single_cmd] after its two guards. *)
Definition exchange (cmd : string) (incoming_sleep_time out_going_sleep_time : Z)
  : io world string :=
  raw ← io_recv 99999;
  banner ← io_lift (decode raw);
  io_sleep 1;;
  io_event (Print (banner +:+ String Py.LF (String Py.LF "")));;
  io_sleep 1;;
  io_send (cmd +:+ String Py.LF "");;
  io_sleep out_going_sleep_time;;
  raw' ← io_recv 99999;
  output ← io_lift (decode raw');
  io_sleep incoming_sleep_time;;
  mret output.

(** [send_single_cmd(cmd, channel, incoming_sleep_time, out_going_sleep_time)];
    [None] for the channel is Python's [None], and so is [None] in the
    result.  [events] is what was printed and slept before the call. *)
Definition send_single_cmd (cmd : string) (channel : option C)
    (incoming_sleep_time out_going_sleep_time : Z) (events : list Event)
  : result (option string) * option C * list Event :=
  if negb (Py.truthy cmd) then
    (Ok None, channel, events ++ [Print ("Not command to send" +:+ String Py.LF "")])
  else
    match channel with
    | None =>
        (Ok None, None, events ++ [Print ("No channel available" +:+ String Py.LF "")])
    | Some ch =>
        match exchange cmd incoming_sleep_time out_going_sleep_time (ch, events) with
        | (Ok output, (ch', events')) => (Ok (Some output), Some ch', events')
        | (Raise e, (ch', events')) => (Raise e, Some ch', events')
        end
    end.

End Helpers.

(** ** Scripted collaborators, to run the methods on concrete outputs *)

(** A device that answers each command from a table and keeps the list of
    the commands it was sent. *)
Module Scripted.
Record device : Type := mk { replies : string -> string; sent : list string }.

#[global] Instance connect_handler : ConnectHandler device :=
  {| send_command cmd d := (replies d cmd, mk (replies d) (sent d ++ [cmd])) |}.

(** A device that gives the same output to every command. *)
Definition always (output : string) : device := mk (fun _ => output) [].

(** A channel with the chunks still to be read, each a byte string of
    7-bit characters, and the strings written so far.  A read returns at
    most [nbytes] bytes of the first chunk and times out when none is
    left. *)
Record channel : Type := mkChannel { pending : list string; written : list string }.

Definition channel_recv (nbytes : Z) (ch : channel) : result string * channel :=
  match pending ch with
  | [] => (Raise SocketTimeout, ch)
  | b :: rest =>
      let n := Z.to_nat nbytes in
      let tail := String.substring n (String.length b - n) b in
      (Ok (String.substring 0 n b),
       mkChannel (if Py.truthy tail then tail :: rest else rest) (written ch))
  end.

Definition channel_send (s : string) (ch : channel) : result Z * channel :=
  (Ok (Z.of_nat (String.length s)), mkChannel (pending ch) (written ch ++ [s])).

(** Utf-8 decoding on 7-bit input, where it changes nothing; the chunks of
    the examples are of that kind.  Any other byte is refused here. *)
Definition decode_7bit (b : string) : result string :=
  if Py.all_chars (fun c => (N_of_ascii c <? 128)%N) b then Ok b
  else Raise UnicodeDecodeError.

#[global] Instance ssh_channel : Channel channel string :=
  {| recv := channel_recv; send := channel_send; decode := decode_7bit |}.
End Scripted.

(** ** Vocabulary of the statements *)

(** The number of occurrences of a character. *)
Fixpoint count_char (c : ascii) (s : string) : nat :=
  match s with
  | EmptyString => O
  | String c' s' => (if Ascii.eqb c' c then 1 else 0) + count_char c s'
  end.

(** The [i]-th part of a line cut at a separator, counted from 0, and the
    empty string when the line has no such part. *)
Definition field (sep : ascii) (i : nat) (l : string) : string :=
  nth i (Py.split sep l) "".

(** The third of the tokens of a line that white space separates. *)
Definition third_token (l : string) : string := nth 2 (Py.split_ws l) "".

(** The last element of a list that satisfies [p]. *)
Fixpoint last_match {A : Type} (p : A -> bool) (xs : list A) : option A :=
  match xs with
  | [] => None
  | x :: xs' =>
      match last_match p xs' with
      | Some y => Some y
      | None => if p x then Some x else None
      end
  end.

(** A line on which the summary scan cannot raise, whatever the locals: it
    matches none of the three patterns or it has a colon. *)
Definition summary_well_formed (l : string) : bool :=
  negb (Py.contains "Name" l || Py.contains "DNSDomain" l
        || Py.contains "Serial Number" l)
  || (1 <=? count_char ":" l)%nat.

(** A numeric token of decimal digits, at most 300 of them: [int] accepts
    it, and a sum of five such tokens times their multipliers stays far below
    the largest double. *)
Definition small_decimal (token : string) : bool :=
  Py.all_chars Py.isdecimal_char token && (String.length token <=? 300)%nat.

(** A line on which the version scan does not raise, whatever the locals: a
    [MODEL] line has one comma, and an uptime line has at most five numeric
    tokens, each of at most 300 decimal digits. *)
Definition version_well_formed (l : string) : bool :=
  (negb (Py.contains "MODEL" l) || (count_char "," l =? 1)%nat)
  && (negb (Py.contains "AP uptime is" l)
      || (length (numeric_tokens l) <=? 5)%nat
         && forallb small_decimal (numeric_tokens l)).

(** A token that [int] converts: decimal digits, no more than the limit. *)
Definition int_accepts (token : string) : bool :=
  Py.all_chars Py.isdecimal_char token
  && (String.length token <=? Py.int_max_str_digits)%nat.

(** An integer whose float is finite. *)
Definition float_accepts (n : Z) : bool :=
  (Z.abs (round_to_double n) <? 2 ^ 1024)%Z.

(** A line on which the version scan does not raise, given the [seconds]
    local when the line is reached: a [MODEL] line has one comma; the numeric
    tokens of an uptime line are accepted by [int], they are five at most, and
    with five or four of them the sum has a finite float. *)
Definition version_line_ok (seconds : Z) (l : string) : bool :=
  (negb (Py.contains "MODEL" l) || (count_char "," l =? 1)%nat)
  && (negb (Py.contains "AP uptime is" l)
      || forallb int_accepts (numeric_tokens l)
         && match map (Py.digits_value 0) (numeric_tokens l) with
            | [w; d; h; m; s] => float_accepts (uptime_sum 0 w d h m s)
            | [w; d; h; m] => float_accepts (uptime_sum 0 w d h m seconds)
            | records => (length records <? 5)%nat
            end).

(** The [seconds] local after a line that did not raise. *)
Definition seconds_after (seconds : Z) (l : string) : Z :=
  if Py.contains "AP uptime is" l then
    match map (Py.digits_value 0) (numeric_tokens l) with
    | [_; _; _; _; s] => s
    | _ => seconds
    end
  else seconds.

(** The lines on which the version scan does not raise, one after the other,
    the [seconds] local being carried from each line to the next. *)
Fixpoint version_lines_ok (seconds : Z) (ls : list string) : bool :=
  match ls with
  | [] => true
  | l :: ls' =>
      version_line_ok seconds l && version_lines_ok (seconds_after seconds l) ls'
  end.

(** A line on which the neighbor scan does not raise: it matches neither
    pattern or it has a third token. *)
Definition lldp_well_formed (l : string) : bool :=
  negb (Py.contains "System name:" l || Py.contains "Interface description:" l)
  || (3 <=? length (Py.split_ws l))%nat.

(** An uptime line that assigns [uptime]: it has four or five numeric
    tokens. *)
Definition sets_uptime (l : string) : bool :=
  Py.contains "AP uptime is" l
  && ((length (numeric_tokens l) =? 4)%nat || (length (numeric_tokens l) =? 5)%nat).

(** An uptime line that assigns [seconds]: it has five numeric tokens. *)
Definition sets_seconds (l : string) : bool :=
  Py.contains "AP uptime is" l && (length (numeric_tokens l) =? 5)%nat.

(** A line that sets an unset [hostname_]: it contains [Name] and the part
    after its first colon is not empty. *)
Definition sets_hostname (l : string) : bool :=
  Py.contains "Name" l && Py.truthy (field ":" 1 l).

(** What a line does to the locals of the summary scan when nothing
    raises. *)
Definition summary_next (st : Summary.locals) (l : string) : Summary.locals :=
  let h := if Py.contains "Name" l && negb (Py.truthy (Summary.hostname_ st))
           then Py.lower (field ":" 1 l) else Summary.hostname_ st in
  let f := if Py.contains "DNSDomain" l && Py.truthy h
           then h +:+ "." +:+ field ":" 1 l else Summary.fqdn st in
  let s := if Py.contains "Serial Number" l
           then field ":" 1 l else Summary.serial_number st in
  Summary.mk h f s.

(** What a line does to the locals of the neighbor scan when nothing
    raises. *)
Definition lldp_next (st : Lldp.locals) (line : string) : Lldp.locals :=
  vendor_rule
    (Lldp.mk
       (if Py.contains "System name:" line
        then third_token line else Lldp.system_name st)
       (if Py.contains "Interface description:" line
        then Py.replace "," "" (third_token line) else Lldp.interface_description st)
       (Lldp.vendor st))
    line.

(** The claims' wording, for comparison with what the code computes: all the
    text after the first occurrence of a character ... *)
Fixpoint text_after (c : ascii) (s : string) : string :=
  match s with
  | EmptyString => EmptyString
  | String c' s' => if Ascii.eqb c' c then s' else text_after c s'
  end.

(** ... and a token without its trailing comma, if it ends with one. *)
Fixpoint strip_trailing_comma (s : string) : string :=
  match s with
  | EmptyString => EmptyString
  | String c EmptyString => if Ascii.eqb c "," then EmptyString else s
  | String c s' => String c (strip_trailing_comma s')
  end.

(** ** The rest of [napalm_aruba505/arubaf.py] *)

(** [get_config(retrieve, full, sanitized)]: the dictionary starts from its
    three literal entries; [running] is assigned twice when the device
    answers, first the raw output and then its non-blank lines.  The second
    [if], on [startup] and [all], only holds [pass]. *)
Definition get_config {D : Type} `{ConnectHandler D} (self : ArubaFDriver D)
    (retrieve : string) (full sanitized : bool)
  : gmap string string * ArubaFDriver D :=
  let configs : gmap string string :=
    <["candidate" := "No Candidate"]>
      (<["startup" := "No Startup"]> (<["running" := ""]> ∅)) in
  if String.eqb (Py.lower retrieve) "running" || String.eqb (Py.lower retrieve) "all"
  then
    let command := "show running-config" in
    let '(output, dev1) := send_command command (device self) in
    let self1 := mkDriver (hostname self) dev1 (destination self) in
    if Py.truthy output then
      let configs := <["running" := output]> configs in
      let data := Py.split Py.LF (default "" (configs !! "running")) in
      let non_empty_lines :=
        List.filter (fun line => negb (String.eqb (Py.strip line) "")) data in
      let string_without_empty_lines :=
        fold_left (fun acc line => acc +:+ line +:+ String Py.LF "") non_empty_lines "" in
      (<["running" := string_without_empty_lines]> configs, self1)
    else (configs, self1)
  else (configs, self).

(** The values of the optional arguments of the driver: [None], a boolean,
    an integer or a string. *)
Inductive pyarg : Set :=
| ANone
| ABool (b : bool)
| AInt (n : Z)
| AStr (s : string).

Definition pyarg_eqb (a b : pyarg) : bool :=
  match a, b with
  | ANone, ANone => true
  | ABool x, ABool y => Bool.eqb x y
  | AInt x, AInt y => Z.eqb x y
  | AStr x, AStr y => String.eqb x y
  | _, _ => false
  end.

(** The attributes [__init__] sets; [device] is [None] and [interface_map]
    is empty at that point. *)
Module Attrs.
Record t : Type := mk
  { hostname : string; username : string; password : string; timeout : Z;
    transport : pyarg; netmiko_optional_args : gmap string pyarg; port : pyarg;
    config_replace : bool; profile : list string }.
End Attrs.

(** What [__init__] ends with: the object, or the [KeyError] of a lookup,
    with the key that was missing. *)
Inductive init_outcome : Type :=
| Built (self : Attrs.t)
| KeyError (key : pyarg).

(** The literal [netmiko_argument_map], in the order of the source. *)
Definition netmiko_argument_map : list (string * pyarg) :=
  [ ("port", ANone); ("secret", AStr ""); ("verbose", ABool false);
    ("keepalive", AInt 30); ("global_delay_factor", AInt 1);
    ("use_keys", ABool false); ("key_file", ANone); ("ssh_strict", ABool false);
    ("system_host_keys", ABool false); ("alt_host_keys", ABool false);
    ("alt_key_file", AStr ""); ("ssh_config_file", ANone);
    ("allow_agent", ABool false) ].

Definition default_port : gmap string Z :=
  <["telnet" := 23%Z]> (<["ssh" := 22%Z]> ∅).

(** [for k, v in netmiko_argument_map.items():
       try: self.netmiko_optional_args[k] = optional_args[k]
       except KeyError: pass] *)
Definition build_netmiko_optional_args (optional_args : gmap string pyarg)
  : gmap string pyarg :=
  fold_left
    (fun acc kv =>
       match optional_args !! fst kv with
       | Some x => <[fst kv := x]> acc
       | None => acc
       end)
    netmiko_argument_map ∅.

(** [__init__(hostname, username, password, timeout, optional_args)];
    [optional_args] is [None] or a dictionary with string keys.  The default
    of [optional_args.get('port', default_port[self.transport])] is looked up
    before [get] is called. *)
Definition init (hostname username password : string) (timeout : Z)
    (optional_args : option (gmap string pyarg)) : init_outcome :=
  let optional_args := default ∅ optional_args in
  let transport := default (AStr "ssh") (optional_args !! "transport") in
  let netmiko_optional_args := build_netmiko_optional_args optional_args in
  match match transport with
        | AStr t => default_port !! t
        | _ => None
        end with
  | None => KeyError transport
  | Some p =>
      Built (Attrs.mk hostname username password timeout transport
               netmiko_optional_args
               (default (AInt p) (optional_args !! "port"))
               false ["ArubaOS"])
  end.

(** The constructor of the transport library, [ConnectHandler(device_type=...,
    host=..., username=..., password=..., **kwargs)]. *)
Class Netmiko (D : Type) : Type :=
  { ConnectHandler_ : string -> string -> string -> string -> gmap string pyarg
                       -> result D }.

(** [open()]: what becomes [self.device]. *)
Definition open {D : Type} `{Netmiko D} (self : Attrs.t) : result D :=
  let device_type := "aruba_os" in
  let device_type :=
    if pyarg_eqb (Attrs.transport self) (AStr "ssh") then "aruba_os" else device_type in
  ConnectHandler_ device_type (Attrs.hostname self) (Attrs.username self)
    (Attrs.password self) (Attrs.netmiko_optional_args self).

(** ** The rest of [arubaos/helpers.py] *)

(** The SSH client of the library as [ssh_connector] uses it; each call may
    raise. *)
Class SSHClient (S C : Type) : Type :=
  { set_missing_host_key_policy : S -> result unit * S;
    connect : string -> Z -> string -> string -> bool -> Z -> S -> result unit * S;
    close : S -> S;
    invoke_shell : S -> result C * S }.

(** [ssh_connector(hostname, username, password, key, timeout, port)], on
    the fresh client [ssh]: the [try] holds the policy, the connection and a
    [print]; the bare [except] catches whatever they raise; the [else]
    branch, outside the [try], opens the shell. *)
Definition ssh_connector {S C : Type} `{SSHClient S C}
    (hostname username password : string) (key : bool) (timeout port : Z)
    (ssh : S) (events : list Event)
  : result (option C) * S * list Event :=
  let failed (ssh' : S) :=
    (Ok None, close ssh', events ++ [Print ("Could not connect to " +:+ hostname)]) in
  match set_missing_host_key_policy ssh with
  | (Raise _, ssh1) => failed ssh1
  | (Ok _, ssh1) =>
      match connect hostname port username password key timeout ssh1 with
      | (Raise _, ssh2) => failed ssh2
      | (Ok _, ssh2) =>
          let events' :=
            events ++ [Print ("Connected to " +:+ hostname +:+ String Py.LF "")] in
          match invoke_shell ssh2 with
          | (Ok channel, ssh3) => (Ok (Some channel), ssh3, events')
          | (Raise e, ssh3) => (Raise e, ssh3, events')
          end
      end
  end.

(** ** More vocabulary *)

(** The lines of a text joined, each with its line feed. *)
Fixpoint joined (ls : list string) : string :=
  match ls with
  | [] => ""
  | l :: ls' => (l +:+ String Py.LF "") +:+ joined ls'
  end.

(** The blank-line filter of [get_facts] and [get_config] as one function. *)
Definition without_blank_lines (output : string) : string :=
  join_lines (non_empty_lines output).

(** A line on which the summary scan does not raise, given whether the host
    name is set when the line is reached: it has a colon, or none of the
    three rules reads it. *)
Definition summary_line_ok (hostname_set : bool) (l : string) : bool :=
  (1 <=? count_char ":" l)%nat
  || negb (Py.contains "Name" l && negb hostname_set
           || Py.contains "DNSDomain" l && hostname_set
           || Py.contains "Serial Number" l).

(** The lines on which the summary scan does not raise, the host name
    becoming set at the first line that sets it. *)
Fixpoint summary_lines_ok (hostname_set : bool) (ls : list string) : bool :=
  match ls with
  | [] => true
  | l :: ls' =>
      summary_line_ok hostname_set l
      && summary_lines_ok (hostname_set || sets_hostname l) ls'
  end.

(** The known option names. *)
Definition netmiko_keys : list string := map fst netmiko_argument_map.

(** ** More scripted collaborators *)

Module Recorded.

(** A transport library that only records the call it received. *)
Record call : Type := mkCall
  { device_type : string; host : string; user : string; pass : string;
    kwargs : gmap string pyarg }.

#[global] Instance netmiko : Netmiko call :=
  {| ConnectHandler_ dt h u p kw := Ok (mkCall dt h u p kw) |}.

(** An SSH client that refuses the connection to the hosts of a list, and
    whose shell is a scripted channel. *)
Record client : Type := mkClient
  { unreachable : list string; connected_to : option string; closed : bool;
    shell : Scripted.channel }.

#[global] Instance ssh_client : SSHClient client Scripted.channel :=
  {| set_missing_host_key_policy c := (Ok tt, c);
     connect h port u p key timeout c :=
       if existsb (String.eqb h) (unreachable c)
       then (Raise SocketError, c)
       else (Ok tt, mkClient (unreachable c) (Some h) (closed c) (shell c));
     close c := mkClient (unreachable c) (connected_to c) true (shell c);
     invoke_shell c := (Ok (shell c), c) |}.

End Recorded.

(** * Properties *)

(** ** The built-ins on examples *)

Example splitlines_ex :
  Py.splitlines (Py.text ["a" +:+ String Py.CR ""; ""; "c"]) = ["a"; ""; "c"].
Proof. reflexivity. Qed.

Example split_ex : Py.split ":" "a:b:" = ["a"; "b"; ""] /\ Py.split "," "" = [""].
Proof. split; reflexivity. Qed.

Example split_ws_ex : Py.split_ws "  ab  c d " = ["ab"; "c"; "d"].
Proof. reflexivity. Qed.

Example replace_ex :
  Py.replace "aa" "b" "aaa" = "ba" /\ Py.replace "," "" "a,b," = "ab".
Proof. split; reflexivity. Qed.

Example strip_ex : Py.strip "  a b  " = "a b".
Proof. reflexivity. Qed.

Example int_ex : Py.int_ "007" = Ok 7%Z /\ Py.int_ "x" = Raise ValueError.
Proof. split; reflexivity. Qed.

(** ** Results and loops *)

Section ResultFacts.
Context {A B : Type}.

Lemma bind_Ok (a : A) (f : A -> result B) : Ok a ≫= f = f a.
Proof. reflexivity. Qed.

Lemma bind_Raise (e : Exn) (f : A -> result B) : Raise e ≫= f = Raise e.
Proof. reflexivity. Qed.

Lemma bind_Ok_inv (m : result A) (f : A -> result B) (b : B) :
  m ≫= f = Ok b -> exists a, m = Ok a /\ f a = Ok b.
Proof. destruct m as [a|e]; [eauto | discriminate]. Qed.

Lemma bind_Raise_inv (m : result A) (f : A -> result B) (e : Exn) :
  m ≫= f = Raise e -> m = Raise e \/ exists a, m = Ok a /\ f a = Raise e.
Proof. destruct m as [a|e']; [eauto | intros [= ->]; auto]. Qed.

End ResultFacts.

Lemma for_each_app {S A : Type} (body : S -> A -> result S) (xs ys : list A) (st : S) :
  for_each body st (xs ++ ys) = for_each body st xs ≫= fun st' => for_each body st' ys.
Proof.
  revert st. induction xs as [|x xs IH]; intros st; [reflexivity|].
  simpl. destruct (body st x) as [st1|e]; [apply IH | reflexivity].
Qed.

(** A loop whose body does not raise on any of the lines is a fold. *)
Lemma for_each_fold {S A : Type} (body : S -> A -> result S) (next : S -> A -> S)
    (ok : A -> bool) (xs : list A) (st : S) :
  (forall st x, ok x = true -> body st x = Ok (next st x)) ->
  forallb ok xs = true ->
  for_each body st xs = Ok (fold_left next xs st).
Proof.
  intros Hbody. revert st.
  induction xs as [|x xs IH]; intros st Hall; [reflexivity|].
  simpl in Hall. apply andb_prop in Hall as [Hx Hxs].
  simpl. rewrite (Hbody st x Hx). apply IH, Hxs.
Qed.

(** A loop that ends without an exception is the fold of what its body
    does when it does not raise. *)
Lemma for_each_Ok_fold {S A : Type} (body : S -> A -> result S) (next : S -> A -> S)
    (xs : list A) (st st' : S) :
  (forall st x st', body st x = Ok st' -> st' = next st x) ->
  for_each body st xs = Ok st' ->
  st' = fold_left next xs st.
Proof.
  intros Hbody. revert st.
  induction xs as [|x xs IH]; intros st; simpl.
  - now intros [= ->].
  - intros Hrun. apply bind_Ok_inv in Hrun as (st1 & H1 & Hrest).
    apply Hbody in H1 as ->. now apply IH.
Qed.

(** An exception of the body on one line is an exception of the loop, when
    the body raises nothing else. *)
Lemma for_each_raises {S A : Type} (body : S -> A -> result S) (e : Exn)
    (xs : list A) (x : A) (st : S) :
  (forall st y e', body st y = Raise e' -> e' = e) ->
  (forall st, body st x = Raise e) ->
  In x xs ->
  for_each body st xs = Raise e.
Proof.
  intros Honly Hx. revert st.
  induction xs as [|y ys IH]; intros st Hin; [destruct Hin|].
  simpl. destruct Hin as [->|Hin].
  - now rewrite Hx.
  - destruct (body st y) as [st1|e'] eqn:Hy.
    + now apply IH.
    + now rewrite (Honly _ _ _ Hy).
Qed.

Lemma map_m_Ok_length {A B : Type} (f : A -> result B) (xs : list A) (ys : list B) :
  map_m f xs = Ok ys -> length ys = length xs.
Proof.
  revert ys. induction xs as [|x xs IH]; intros ys; simpl.
  - now intros [= <-].
  - intros Hm. apply bind_Ok_inv in Hm as (y & _ & Hm).
    apply bind_Ok_inv in Hm as (ys' & Hys & [= <-]).
    simpl. f_equal. now apply IH.
Qed.

Lemma map_m_total {A B : Type} (f : A -> result B) (g : A -> B) (ok : A -> bool)
    (xs : list A) :
  (forall x, ok x = true -> f x = Ok (g x)) ->
  forallb ok xs = true ->
  map_m f xs = Ok (map g xs).
Proof.
  intros Hf. induction xs as [|x xs IH]; intros Hall; [reflexivity|].
  simpl in Hall. apply andb_prop in Hall as [Hx Hxs].
  simpl. now rewrite (Hf x Hx), (IH Hxs).
Qed.

Lemma map_m_raises_only {A B : Type} (f : A -> result B) (e : Exn) (xs : list A) (e' : Exn) :
  (forall x e', f x = Raise e' -> e' = e) ->
  map_m f xs = Raise e' -> e' = e.
Proof.
  intros Hf. induction xs as [|x xs IH]; simpl; [discriminate|].
  destruct (f x) as [y|e1] eqn:Hx; simpl.
  - destruct (map_m f xs) as [ys|e2]; simpl; [discriminate|].
    intros [= <-]. now apply IH.
  - intros [= <-]. now apply (Hf x).
Qed.

(** ** Lists and strings *)

Lemma index_lt {A : Type} (xs : list A) (i : nat) (d : A) :
  i < length xs -> Py.index xs i = Ok (nth i xs d).
Proof.
  intros Hi. unfold Py.index.
  destruct (nth_error xs i) as [x|] eqn:Hnth.
  - f_equal. symmetry. now apply nth_error_nth.
  - apply nth_error_None in Hnth. lia.
Qed.

Lemma index_ge {A : Type} (xs : list A) (i : nat) :
  length xs <= i -> Py.index xs i = Raise IndexError.
Proof.
  intros Hi. unfold Py.index.
  now apply nth_error_None in Hi as ->.
Qed.

Lemma index_Ok_nth {A : Type} (xs : list A) (i : nat) (d x : A) :
  Py.index xs i = Ok x -> x = nth i xs d.
Proof.
  unfold Py.index. destruct (nth_error xs i) as [y|] eqn:Hnth; [|discriminate].
  intros [= <-]. symmetry. now apply nth_error_nth.
Qed.

Lemma index_raises_IndexError {A : Type} (xs : list A) (i : nat) (e : Exn) :
  Py.index xs i = Raise e -> e = IndexError.
Proof. unfold Py.index. destruct (nth_error xs i); [discriminate | now intros [= <-]]. Qed.

Lemma split_length (sep : ascii) (s : string) :
  length (Py.split sep s) = S (count_char sep s).
Proof.
  induction s as [|c s IH]; [reflexivity|].
  simpl. destruct (Ascii.eqb c sep); simpl.
  - now rewrite IH.
  - destruct (Py.split sep s) as [|x xs]; simpl in *; lia.
Qed.

Lemma split_no_sep (sep : ascii) (s : string) :
  count_char sep s = 0 -> Py.split sep s = [s].
Proof.
  induction s as [|c s IH]; [reflexivity|].
  simpl. destruct (Ascii.eqb c sep); [discriminate|].
  intros Hc. now rewrite (IH Hc).
Qed.

Lemma split_one_sep (sep : ascii) (s : string) :
  count_char sep s = 1 ->
  exists a b, Py.split sep s = [a; b] /\ s = a +:+ String sep b.
Proof.
  induction s as [|c s IH]; [discriminate|].
  simpl. destruct (Ascii.eqb c sep) eqn:Hc; simpl.
  - intros [= H0]. apply Ascii.eqb_eq in Hc as ->.
    exists "", s. now rewrite (split_no_sep _ _ H0).
  - intros H1. destruct (IH H1) as (a & b & -> & ->).
    now exists (String c a), b.
Qed.

Lemma split_two_parts (sep : ascii) (s a b : string) :
  Py.split sep s = [a; b] -> count_char sep s = 1.
Proof.
  intros Hs. pose proof (split_length sep s) as Hl.
  rewrite Hs in Hl. simpl in Hl. lia.
Qed.

Lemma index_field_Ok (sep : ascii) (l : string) :
  1 <= count_char sep l -> Py.index (Py.split sep l) 1 = Ok (field sep 1 l).
Proof. intros Hc. apply index_lt. rewrite split_length. lia. Qed.

Lemma index_field_inv (sep : ascii) (l v : string) :
  Py.index (Py.split sep l) 1 = Ok v -> v = field sep 1 l.
Proof. apply index_Ok_nth. Qed.

Lemma truthy_lower (s : string) : Py.truthy (Py.lower s) = Py.truthy s.
Proof. now destruct s. Qed.

Lemma truthy_false (s : string) : Py.truthy s = false -> s = "".
Proof. now destruct s. Qed.

Lemma truthy_true (s : string) : Py.truthy s = true <-> s <> "".
Proof. destruct s; simpl; split; congruence. Qed.

Lemma last_match_app {A : Type} (p : A -> bool) (xs ys : list A) :
  last_match p (xs ++ ys) =
  match last_match p ys with
  | Some y => Some y
  | None => last_match p xs
  end.
Proof.
  induction xs as [|x xs IH]; simpl.
  - now destruct (last_match p ys).
  - rewrite IH. now destruct (last_match p ys).
Qed.

Lemma last_match_none {A : Type} (p : A -> bool) (xs : list A) :
  existsb p xs = false -> last_match p xs = None.
Proof.
  induction xs as [|x xs IH]; [reflexivity|].
  simpl. intros Hex. apply orb_false_elim in Hex as [Hx Hxs].
  now rewrite (IH Hxs), Hx.
Qed.

(** ** The uptime sum and its float *)

Lemma py_sum_six (a b c d e f : Z) :
  py_sum [a; b; c; d; e; f] = (a + b + c + d + e + f)%Z.
Proof. unfold py_sum. simpl. lia. Qed.

Lemma uptime_sum_linear (years weeks days hours minutes seconds : Z) :
  uptime_sum years weeks days hours minutes seconds =
  (years * 31536000 + weeks * 604800 + days * 86400
   + hours * 3600 + minutes * 60 + seconds * 1)%Z.
Proof. unfold uptime_sum. rewrite py_sum_six. reflexivity. Qed.

Lemma round_to_double_exact (n : Z) :
  (0 <= n <= 2 ^ 53)%Z -> round_to_double n = n.
Proof.
  intros [Hlow Hhigh].
  destruct (Z.eq_dec n (2 ^ 53)%Z) as [->|Hne]; [vm_compute; reflexivity|].
  unfold round_to_double. rewrite (Z.abs_eq n Hlow).
  assert (Hlog : (Z.log2 n < 53)%Z).
  { destruct (Z.eq_dec n 0%Z) as [->|Hpos]; [reflexivity|].
    apply Z.log2_lt_pow2; lia. }
  apply Z.ltb_lt in Hlog. now rewrite Hlog.
Qed.

Lemma round_to_double_nonneg (n : Z) : (0 <= n)%Z -> (0 <= round_to_double n)%Z.
Proof.
  intros Hn. unfold round_to_double. rewrite (Z.abs_eq n Hn).
  destruct (Z.log2 n <? 53)%Z; [exact Hn|].
  apply Z.mul_nonneg_nonneg; [now apply Z.sgn_nonneg|].
  apply Z.mul_nonneg_nonneg; [|apply Z.pow_nonneg; lia].
  pose proof (proj2 (Z.shiftr_nonneg n (Z.log2 n - 52)) Hn) as Hq.
  destruct (_ || _); lia.
Qed.

(** Rounding does not pass the next power of two. *)
Lemma round_to_double_bound (n k : Z) :
  (53 <= k)%Z -> (0 <= n < 2 ^ k)%Z -> (round_to_double n <= 2 ^ k)%Z.
Proof.
  intros Hk [Hlow Hhigh]. unfold round_to_double. rewrite (Z.abs_eq n Hlow).
  destruct (Z.log2 n <? 53)%Z eqn:Hlog; [lia|].
  apply Z.ltb_ge in Hlog.
  assert (Hpos : (0 < n)%Z).
  { destruct (Z.eq_dec n 0%Z) as [->|]; [cbn in Hlog; lia | lia]. }
  pose proof (Z.log2_spec n Hpos) as [Hfloor Hceil].
  assert (He : (Z.log2 n < k)%Z) by (apply Z.log2_lt_pow2; lia).
  set (e := Z.log2 n) in *. set (shift := (e - 52)%Z).
  assert (Hshift : (1 <= shift)%Z) by (subst shift; lia).
  rewrite (Z.sgn_pos n Hpos), Z.mul_1_l.
  rewrite Z.shiftr_div_pow2 by lia.
  assert (Hpow : (0 < 2 ^ shift)%Z) by (apply Z.pow_pos_nonneg; lia).
  assert (Hsplit : (2 ^ Z.succ e = 2 ^ shift * 2 ^ 53)%Z).
  { rewrite <- Z.pow_add_r by lia. f_equal. subst shift. lia. }
  assert (Hq : (n / 2 ^ shift < 2 ^ 53)%Z).
  { apply Z.div_lt_upper_bound; [exact Hpow|]. now rewrite <- Hsplit. }
  assert (Hq' : ((if (2 ^ (shift - 1) <? n mod 2 ^ shift)%Z
                     || (n mod 2 ^ shift =? 2 ^ (shift - 1))%Z
                        && Z.odd (n / 2 ^ shift)
                  then n / 2 ^ shift + 1 else n / 2 ^ shift) <= 2 ^ 53)%Z)
    by (destruct (_ || _); lia).
  assert (Hle : (2 ^ Z.succ e <= 2 ^ k)%Z) by (apply Z.pow_le_mono_r; lia).
  rewrite Hsplit in Hle.
  eapply Z.le_trans; [|exact Hle].
  rewrite (Z.mul_comm (2 ^ shift)).
  apply Z.mul_le_mono_nonneg_r; [lia | exact Hq'].
Qed.

Lemma pow_1023_lt_1024 : (2 ^ 1023 < 2 ^ 1024)%Z.
Proof. reflexivity. Qed.

Lemma pow_53_lt_1024 : (2 ^ 53 < 2 ^ 1024)%Z.
Proof. reflexivity. Qed.

Lemma py_float_exact (n : Z) :
  (0 <= n <= 2 ^ 53)%Z -> py_float n = Ok (PFloat n).
Proof.
  intros Hn. unfold py_float. rewrite (round_to_double_exact n Hn).
  assert (Hlt : (Z.abs n <? 2 ^ 1024)%Z = true).
  { apply Z.ltb_lt. rewrite Z.abs_eq by lia.
    eapply Z.le_lt_trans; [apply Hn | exact pow_53_lt_1024]. }
  now rewrite Hlt.
Qed.

Lemma py_float_finite (n : Z) :
  (0 <= n < 2 ^ 1023)%Z ->
  exists r, py_float n = Ok (PFloat r) /\ (0 <= r)%Z.
Proof.
  intros Hn. unfold py_float.
  pose proof (round_to_double_nonneg n (proj1 Hn)) as Hpos.
  pose proof (round_to_double_bound n 1023 ltac:(lia) Hn) as Hle.
  assert (Hlt : (Z.abs (round_to_double n) <? 2 ^ 1024)%Z = true).
  { apply Z.ltb_lt. rewrite Z.abs_eq by exact Hpos.
    eapply Z.le_lt_trans; [exact Hle | exact pow_1023_lt_1024]. }
  rewrite Hlt. eauto.
Qed.

Lemma py_float_inv (n : Z) (v : pyval) :
  py_float n = Ok v -> v = PFloat (round_to_double n).
Proof. unfold py_float. destruct (_ <? _)%Z; [now intros [= <-] | discriminate]. Qed.

Lemma py_float_raises (n : Z) (e : Exn) : py_float n = Raise e -> e = OverflowError.
Proof. unfold py_float. destruct (_ <? _)%Z; [discriminate | now intros [= <-]]. Qed.

(** C7, as amended. The multipliers are 1, 60, 3600, 86400, 604800 and
    31536000 seconds for a second, a minute, an hour, a day, a week and a
    year; the sum that is converted is the linear sum of the components
    under them, for all arguments; and for non-negative arguments whose sum
    is at most 2^53 the uptime is the float of exactly that sum.  One week
    alone gives 604800 seconds, also through the version scan. *)
Theorem uptime_seconds_linear :
  (SECONDS = 1 /\ MINUTE_SECONDS = 60 /\ HOUR_SECONDS = 3600
   /\ DAY_SECONDS = 86400 /\ WEEK_SECONDS = 604800 /\ YEAR_SECONDS = 31536000)%Z
  /\ (forall years weeks days hours minutes seconds : Z,
        uptime_sum years weeks days hours minutes seconds =
        (years * 31536000 + weeks * 604800 + days * 86400
         + hours * 3600 + minutes * 60 + seconds * 1)%Z)
  /\ (forall years weeks days hours minutes seconds : Z,
        (0 <= years)%Z -> (0 <= weeks)%Z -> (0 <= days)%Z -> (0 <= hours)%Z ->
        (0 <= minutes)%Z -> (0 <= seconds)%Z ->
        (years * 31536000 + weeks * 604800 + days * 86400
         + hours * 3600 + minutes * 60 + seconds * 1 <= 2 ^ 53)%Z ->
        uptime_seconds years weeks days hours minutes seconds =
        Ok (PFloat (years * 31536000 + weeks * 604800 + days * 86400
                    + hours * 3600 + minutes * 60 + seconds * 1)%Z))
  /\ uptime_seconds 0 1 0 0 0 0 = Ok (PFloat 604800)
  /\ show_version_sanitizer (Py.text ["AP uptime is 1 0 0 0 0"]) =
     Ok ("Hewlett Packard", "", "", PFloat 604800).
Proof.
  split; [repeat split; reflexivity|].
  split; [exact uptime_sum_linear|].
  split; [|split; reflexivity].
  intros years weeks days hours minutes seconds Hy Hw Hd Hh Hm Hs Hsum.
  unfold uptime_seconds. rewrite uptime_sum_linear.
  apply py_float_exact. lia.
Qed.

Lemma uptime_seconds_linear_witness :
  uptime_seconds 0 2 3 4 5 6 = Ok (PFloat 1483506).
Proof.
  apply (proj1 (proj2 (proj2 uptime_seconds_linear)) 0 2 3 4 5 6)%Z;
    first [lia | discriminate].
Defined.

(** C7, as stated, fails: above 2^53 the float of the sum is not the sum,
    and from 2^1024 on there is no float at all. *)
Lemma uptime_float_is_not_the_sum :
  uptime_sum 0 0 0 0 0 9007199254740993 = 9007199254740993%Z
  /\ uptime_seconds 0 0 0 0 0 9007199254740993 = Ok (PFloat 9007199254740992)
  /\ uptime_seconds 0 0 0 0 0 (2 ^ 1024) = Raise OverflowError.
Proof. split; [reflexivity | split; reflexivity]. Qed.

(** ** The two neighbor methods *)

(** C10. Whatever the device answers and whatever interface is asked for,
    [get_lldp_neighbors_detail] gives what [get_lldp_neighbors] gives: the
    same result and the same device state, reached by sending the one
    command for eth0; and a result that is returned has the single key
    eth0. *)
Theorem get_lldp_neighbors_detail_ignores_interface :
  forall (D : Type) (H : ConnectHandler D) (self : ArubaFDriver D) (interface : string),
    get_lldp_neighbors_detail self interface = get_lldp_neighbors self
    /\ device (snd (get_lldp_neighbors_detail self interface)) =
       snd (send_command "show ap debug lldp neighbor interface eth0" (device self))
    /\ match fst (get_lldp_neighbors_detail self interface) with
       | Ok lldp => dom lldp = ({["eth0"]} : gset string)
       | Raise _ => True
       end.
Proof.
  intros D H self interface. split; [reflexivity|].
  unfold get_lldp_neighbors_detail.
  destruct (send_command _ (device self)) as [output dev1]. simpl.
  split; [reflexivity|].
  match goal with |- context [for_each ?b ?i ?d] => destruct (for_each b i d) as [st|e] end;
    simpl; [|exact I].
  rewrite insert_empty. apply dom_singleton_L.
Qed.

(** ** The ping check *)

Lemma ping_scan_error (output : string) (responses : list string) :
  ping_scan output ∅ responses !! "error" = Some "disconnected"
  <-> existsb (fun i => Py.contains i output) responses = true.
Proof.
  induction responses as [|i rest IH]; simpl.
  - rewrite lookup_empty. split; discriminate.
  - destruct (Py.contains i output); simpl; [|exact IH].
    rewrite lookup_insert_eq. tauto.
Qed.

Lemma bad_responses_not_in_empty :
  existsb (fun i => Py.contains i "") bad_responses = false.
Proof. reflexivity. Qed.

(** C4, as amended. [get_ping] sends [ping] followed by the host name and
    returns the output as it is, whether or not a failure substring occurs
    in it; the failure marker is only recorded in the local dictionary,
    exactly when one of the failure substrings occurs in the output, and
    is not part of what is returned. *)
Theorem get_ping_returns_raw_output :
  forall (D : Type) (H : ConnectHandler D) (self : ArubaFDriver D),
    let sent := send_command ("ping " +:+ hostname self) (device self) in
    get_ping self = (fst sent, mkDriver (hostname self) (snd sent) (Some (hostname self)))
    /\ snd (fst (get_ping_locals self)) = fst sent
    /\ (fst (fst (get_ping_locals self)) !! "error" = Some "disconnected"
        <-> existsb (fun i => Py.contains i (fst sent)) bad_responses = true).
Proof.
  intros D H self sent. unfold get_ping, get_ping_locals. subst sent.
  destruct (send_command _ (device self)) as [output dev1]. cbn [fst snd].
  split; [reflexivity|]. split; [reflexivity|].
  destruct (Py.truthy output) eqn:Hout; cbn [andb].
  - apply ping_scan_error.
  - apply truthy_false in Hout as ->.
    rewrite lookup_empty, bad_responses_not_in_empty. split; discriminate.
Qed.

(** C4, as stated, fails: on an output that contains several of the failure
    substrings, what [get_ping] returns is that output, not a marker. *)
Lemma get_ping_failure_is_not_reported :
  let self := mkDriver "10.0.0.9" (Scripted.always "Destination Host Unreachable") None in
  existsb (fun i => Py.contains i "Destination Host Unreachable") bad_responses = true
  /\ fst (get_ping self) = "Destination Host Unreachable"
  /\ fst (get_ping self) <> "disconnected".
Proof. split; [reflexivity | split; [reflexivity | discriminate]]. Qed.

(** ** [send_single_cmd] *)

Section HelpersFacts.
Context {C B : Type} `{Channel C B}.

Lemma io_sleep_run (seconds : Z) (w : C * list Event) :
  (0 <= seconds <= sleep_max)%Z ->
  io_sleep seconds w = (Ok tt, (fst w, snd w ++ [Sleep seconds])).
Proof.
  intros [Hlow Hhigh]. unfold io_sleep.
  rewrite (proj2 (Z.ltb_ge seconds (- sleep_max))) by (unfold sleep_max in *; lia).
  rewrite (proj2 (Z.ltb_ge sleep_max seconds) Hhigh).
  now rewrite (proj2 (Z.ltb_ge seconds 0) Hlow).
Qed.

Lemma exchange_run (cmd : string) (incoming out_going : Z) (ch ch1 ch2 ch3 : C)
    (events : list Event) (b1 b2 : B) (banner output : string) (n : Z) :
  (0 <= incoming <= sleep_max)%Z ->
  (0 <= out_going <= sleep_max)%Z ->
  recv 99999 ch = (Ok b1, ch1) ->
  decode b1 = Ok banner ->
  send (cmd +:+ String Py.LF "") ch1 = (Ok n, ch2) ->
  recv 99999 ch2 = (Ok b2, ch3) ->
  decode b2 = Ok output ->
  exchange cmd incoming out_going (ch, events) =
  (Ok output,
   (ch3, events ++ [Sleep 1; Print (banner +:+ String Py.LF (String Py.LF ""));
                    Sleep 1; Sleep out_going; Sleep incoming])).
Proof.
  intros Hin Hout Hr1 Hd1 Hs Hr2 Hd2.
  unfold exchange, mbind, io_bind, io_recv, io_send, io_event, io_lift, mret, io_ret.
  cbn [fst snd]. rewrite Hr1, Hd1.
  rewrite io_sleep_run by (unfold sleep_max; lia). cbn [fst snd].
  rewrite io_sleep_run by (unfold sleep_max; lia). cbn [fst snd]. rewrite Hs.
  rewrite (io_sleep_run out_going) by exact Hout. cbn [fst snd]. rewrite Hr2, Hd2.
  rewrite (io_sleep_run incoming) by exact Hin. cbn [fst snd].
  repeat rewrite <- app_assoc. reflexivity.
Qed.

End HelpersFacts.

(** C8, as amended. [send_single_cmd] returns [None] exactly when the
    command is empty or the channel is absent.  With a command, sleep times
    that [time.sleep] accepts (whole numbers of seconds from 0 to
    9223372036) and a channel on which the two reads, the write and the two
    decodings succeed, it returns the decoded text of the second read, which
    is made on the channel as the first read and then the write of the
    command and a line feed left it. *)
Theorem send_single_cmd_contract :
  forall (C B : Type) (H : Channel C B) (cmd : string) (channel : option C)
         (incoming_sleep_time out_going_sleep_time : Z) (events : list Event),
    (fst (fst (send_single_cmd cmd channel incoming_sleep_time out_going_sleep_time events))
     = Ok None <-> cmd = "" \/ channel = None)
    /\ (forall (ch ch1 ch2 ch3 : C) (b1 b2 : B) (banner output : string) (n : Z),
          cmd <> "" ->
          channel = Some ch ->
          (0 <= incoming_sleep_time <= sleep_max)%Z ->
          (0 <= out_going_sleep_time <= sleep_max)%Z ->
          recv 99999 ch = (Ok b1, ch1) ->
          decode b1 = Ok banner ->
          send (cmd +:+ String Py.LF "") ch1 = (Ok n, ch2) ->
          recv 99999 ch2 = (Ok b2, ch3) ->
          decode b2 = Ok output ->
          send_single_cmd cmd channel incoming_sleep_time out_going_sleep_time events =
          (Ok (Some output), Some ch3,
           events ++ [Sleep 1; Print (banner +:+ String Py.LF (String Py.LF ""));
                      Sleep 1; Sleep out_going_sleep_time; Sleep incoming_sleep_time])).
Proof.
  intros C B H cmd channel incoming out_going events. split.
  - unfold send_single_cmd. destruct cmd as [|c cmd]; cbn [Py.truthy negb fst].
    + split; auto.
    + destruct channel as [ch|]; cbn [fst].
      * destruct (exchange _ _ _ _) as [[output|e] [ch' events']]; cbn [fst];
          split; try discriminate; intros [|]; discriminate.
      * split; auto.
  - intros ch ch1 ch2 ch3 b1 b2 banner output n Hcmd -> Hin Hout Hr1 Hd1 Hs Hr2 Hd2.
    unfold send_single_cmd.
    destruct cmd as [|c cmd]; [congruence|]. cbn [Py.truthy negb].
    now rewrite (exchange_run _ _ _ _ _ _ _ _ _ _ _ _ _ Hin Hout Hr1 Hd1 Hs Hr2 Hd2).
Qed.

Lemma send_single_cmd_contract_witness :
  let channel := Some (Scripted.mkChannel ["banner> "; "Aruba OS"] []) in
  "show version" <> ""
  /\ send_single_cmd "show version" channel 2 2 [] =
     (Ok (Some "Aruba OS"),
      Some (Scripted.mkChannel [] ["show version" +:+ String Py.LF ""]),
      [Sleep 1; Print ("banner> " +:+ String Py.LF (String Py.LF ""));
       Sleep 1; Sleep 2; Sleep 2]).
Proof.
  split; [discriminate|].
  refine (proj2 (send_single_cmd_contract _ _ _ "show version" _ 2 2 [])
            (Scripted.mkChannel ["banner> "; "Aruba OS"] [])
            (Scripted.mkChannel ["Aruba OS"] [])
            (Scripted.mkChannel ["Aruba OS"] ["show version" +:+ String Py.LF ""])
            (Scripted.mkChannel [] ["show version" +:+ String Py.LF ""])
            "banner> " "Aruba OS" "banner> " "Aruba OS" 13%Z _ _ _ _ _ _ _ _ _);
    first [discriminate | reflexivity | unfold sleep_max; lia].
Defined.

(** C8, as stated, fails: with a channel and a command, a sleep time that
    [time.sleep] refuses makes the call raise; a negative
    [out_going_sleep_time] stops it after the write and before the second
    read, a negative [incoming_sleep_time] after the second read, and so
    does one too long for the clock. *)
Lemma send_single_cmd_negative_sleep_raises :
  send_single_cmd (B := string) "show version"
    (Some (Scripted.mkChannel ["banner> "; "Aruba OS"] [])) 2 (-1) [] =
  (Raise ValueError,
   Some (Scripted.mkChannel ["Aruba OS"] ["show version" +:+ String Py.LF ""]),
   [Sleep 1; Print ("banner> " +:+ String Py.LF (String Py.LF "")); Sleep 1])
  /\ send_single_cmd (B := string) "show version"
       (Some (Scripted.mkChannel ["banner> "; "Aruba OS"] [])) (-1) 2 [] =
     (Raise ValueError,
      Some (Scripted.mkChannel [] ["show version" +:+ String Py.LF ""]),
      [Sleep 1; Print ("banner> " +:+ String Py.LF (String Py.LF "")); Sleep 1; Sleep 2])
  /\ send_single_cmd (B := string) "show version"
       (Some (Scripted.mkChannel ["banner> "; "Aruba OS"] [])) 9223372037 2 [] =
     (Raise OverflowError,
      Some (Scripted.mkChannel [] ["show version" +:+ String Py.LF ""]),
      [Sleep 1; Print ("banner> " +:+ String Py.LF (String Py.LF "")); Sleep 1; Sleep 2]).
Proof. split; [reflexivity | split; reflexivity]. Qed.

(** ** The summary scan *)

Lemma index_cases {A : Type} (xs : list A) (i : nat) (d : A) :
  Py.index xs i =
  if (S i <=? length xs)%nat then Ok (nth i xs d) else Raise IndexError.
Proof.
  destruct (S i <=? length xs)%nat eqn:Hi.
  - apply index_lt. apply Nat.leb_le in Hi. lia.
  - apply index_ge. apply Nat.leb_gt in Hi. lia.
Qed.

Lemma colon_field_cases (l : string) :
  Py.index (Py.split ":" l) 1 =
  if (1 <=? count_char ":" l)%nat then Ok (field ":" 1 l) else Raise IndexError.
Proof. rewrite (index_cases _ _ ""), split_length. reflexivity. Qed.

Lemma summary_body_inv (st : Summary.locals) (l : string) (st' : Summary.locals) :
  summary_body st l = Ok st' -> st' = summary_next st l.
Proof.
  unfold summary_body, name_rule, domain_rule, serial_rule, summary_next.
  rewrite colon_field_cases. destruct st as [h0 f0 s0].
  cbn [Summary.hostname_ Summary.fqdn Summary.serial_number].
  destruct (Py.contains "Name" l), (Py.truthy h0) eqn:Hh,
    (1 <=? count_char ":" l)%nat, (Py.contains "DNSDomain" l),
    (Py.contains "Serial Number" l);
    cbn -[Py.truthy Py.lower field String.append]; rewrite ?Hh;
    try discriminate; try (now intros [= <-]);
    destruct (Py.truthy (Py.lower (field ":" 1 l)));
    cbn -[Py.truthy Py.lower field String.append];
    try discriminate; now intros [= <-].
Qed.

Lemma summary_body_ok (st : Summary.locals) (l : string) :
  summary_well_formed l = true -> summary_body st l = Ok (summary_next st l).
Proof.
  unfold summary_well_formed, summary_body, name_rule, domain_rule, serial_rule,
    summary_next.
  rewrite colon_field_cases. destruct st as [h0 f0 s0].
  cbn [Summary.hostname_ Summary.fqdn Summary.serial_number].
  destruct (Py.contains "Name" l), (Py.truthy h0) eqn:Hh,
    (1 <=? count_char ":" l)%nat, (Py.contains "DNSDomain" l),
    (Py.contains "Serial Number" l);
    cbn -[Py.truthy Py.lower field String.append]; rewrite ?Hh;
    try discriminate; try reflexivity;
    destruct (Py.truthy (Py.lower (field ":" 1 l)));
    cbn -[Py.truthy Py.lower field String.append];
    try discriminate; reflexivity.
Qed.

Lemma summary_scan_ok (data : string) :
  forallb summary_well_formed (data_lines data) = true ->
  show_summary_sanitizer data =
  let st := fold_left summary_next (data_lines data) Summary.init in
  Ok (Summary.hostname_ st, Summary.fqdn st, Summary.serial_number st).
Proof.
  intros Hwf. unfold show_summary_sanitizer.
  now rewrite (for_each_fold _ summary_next summary_well_formed _ _
                 (fun st x => summary_body_ok st x) Hwf).
Qed.

Lemma summary_scan_inv (data h f s : string) :
  show_summary_sanitizer data = Ok (h, f, s) ->
  let st := fold_left summary_next (data_lines data) Summary.init in
  h = Summary.hostname_ st /\ f = Summary.fqdn st /\ s = Summary.serial_number st.
Proof.
  unfold show_summary_sanitizer. intros Hrun.
  apply bind_Ok_inv in Hrun as (st & Hloop & [= <- <- <-]).
  now rewrite (for_each_Ok_fold _ summary_next _ _ _ summary_body_inv Hloop).
Qed.

(** *** The host name: the first line that sets it wins *)

Lemma next_hostname_set (st : Summary.locals) (l : string) :
  Py.truthy (Summary.hostname_ st) = true ->
  Summary.hostname_ (summary_next st l) = Summary.hostname_ st.
Proof.
  intros Hh. unfold summary_next. cbn [Summary.hostname_].
  now rewrite Hh, andb_false_r.
Qed.

Lemma fold_hostname_set (ls : list string) (st : Summary.locals) :
  Py.truthy (Summary.hostname_ st) = true ->
  Summary.hostname_ (fold_left summary_next ls st) = Summary.hostname_ st.
Proof.
  revert st. induction ls as [|l ls IH]; intros st Hh; [reflexivity|].
  cbn [fold_left]. rewrite IH; rewrite next_hostname_set; auto.
Qed.

Lemma next_hostname_unset (st : Summary.locals) (l : string) :
  Py.truthy (Summary.hostname_ st) = false ->
  Summary.hostname_ (summary_next st l) =
  if Py.contains "Name" l then Py.lower (field ":" 1 l) else "".
Proof.
  intros Hh. unfold summary_next. cbn [Summary.hostname_].
  rewrite Hh. apply truthy_false in Hh as ->.
  now destruct (Py.contains "Name" l).
Qed.

Lemma next_hostname_skip (st : Summary.locals) (l : string) :
  Py.truthy (Summary.hostname_ st) = false ->
  sets_hostname l = false ->
  Py.truthy (Summary.hostname_ (summary_next st l)) = false.
Proof.
  intros Hh Hl. rewrite (next_hostname_unset _ _ Hh).
  unfold sets_hostname in Hl.
  destruct (Py.contains "Name" l); [|reflexivity].
  now rewrite truthy_lower.
Qed.

Lemma fold_hostname_unset (ls : list string) (st : Summary.locals) :
  Py.truthy (Summary.hostname_ st) = false ->
  existsb sets_hostname ls = false ->
  Py.truthy (Summary.hostname_ (fold_left summary_next ls st)) = false.
Proof.
  revert st. induction ls as [|l ls IH]; intros st Hh Hex; [exact Hh|].
  cbn [existsb] in Hex. apply orb_false_elim in Hex as [Hl Hls].
  cbn [fold_left]. apply IH; [now apply next_hostname_skip | exact Hls].
Qed.

Lemma fold_hostname_first (pre post : list string) (l : string) (st : Summary.locals) :
  Py.truthy (Summary.hostname_ st) = false ->
  existsb sets_hostname pre = false ->
  sets_hostname l = true ->
  Summary.hostname_ (fold_left summary_next (pre ++ l :: post) st) =
  Py.lower (field ":" 1 l)
  /\ Py.truthy (Summary.hostname_ (fold_left summary_next (pre ++ [l]) st)) = true.
Proof.
  intros Hh Hpre Hl.
  pose proof (fold_hostname_unset pre st Hh Hpre) as Hunset.
  apply andb_prop in Hl as [Hname Hfield].
  assert (Hstep : Summary.hostname_
                    (summary_next (fold_left summary_next pre st) l) =
                  Py.lower (field ":" 1 l))
    by now rewrite (next_hostname_unset _ _ Hunset), Hname.
  rewrite !fold_left_app. cbn [fold_left]. split.
  - rewrite fold_hostname_set; [exact Hstep|].
    now rewrite Hstep, truthy_lower.
  - now rewrite Hstep, truthy_lower.
Qed.

Lemma fold_hostname_some (ls : list string) (st : Summary.locals) :
  existsb sets_hostname ls = true ->
  Py.truthy (Summary.hostname_ (fold_left summary_next ls st)) = true.
Proof.
  revert st. induction ls as [|l ls IH]; intros st Hex; [discriminate|].
  cbn [fold_left].
  destruct (Py.truthy (Summary.hostname_ st)) eqn:Hh.
  - rewrite fold_hostname_set; now rewrite next_hostname_set.
  - cbn [existsb] in Hex. destruct (sets_hostname l) eqn:Hl.
    + rewrite fold_hostname_set;
        rewrite (next_hostname_unset _ _ Hh);
        apply andb_prop in Hl as [-> Hfield]; now rewrite truthy_lower.
    + now apply IH.
Qed.

Lemma contains_name_sets_hostname (ls : list string) :
  existsb (Py.contains "Name") ls = false -> existsb sets_hostname ls = false.
Proof.
  induction ls as [|l ls IH]; [reflexivity|].
  cbn [existsb]. intros Hex. apply orb_false_elim in Hex as [Hl Hls].
  unfold sets_hostname at 1. now rewrite Hl, (IH Hls).
Qed.

(** *** The serial number and the domain: the last matching line wins *)

Lemma fold_serial_skip (ls : list string) (st : Summary.locals) :
  existsb (Py.contains "Serial Number") ls = false ->
  Summary.serial_number (fold_left summary_next ls st) = Summary.serial_number st.
Proof.
  revert st. induction ls as [|l ls IH]; intros st Hex; [reflexivity|].
  cbn [existsb] in Hex. apply orb_false_elim in Hex as [Hl Hls].
  cbn [fold_left]. rewrite (IH _ Hls).
  unfold summary_next. cbn [Summary.serial_number]. now rewrite Hl.
Qed.

Lemma fold_serial_last (pre post : list string) (l : string) (st : Summary.locals) :
  Py.contains "Serial Number" l = true ->
  existsb (Py.contains "Serial Number") post = false ->
  Summary.serial_number (fold_left summary_next (pre ++ l :: post) st) = field ":" 1 l.
Proof.
  intros Hl Hpost. rewrite fold_left_app. cbn [fold_left].
  rewrite (fold_serial_skip _ _ Hpost).
  unfold summary_next. cbn [Summary.serial_number]. now rewrite Hl.
Qed.

Lemma fold_fqdn_skip (ls : list string) (st : Summary.locals) :
  existsb (Py.contains "DNSDomain") ls = false ->
  Summary.fqdn (fold_left summary_next ls st) = Summary.fqdn st.
Proof.
  revert st. induction ls as [|l ls IH]; intros st Hex; [reflexivity|].
  cbn [existsb] in Hex. apply orb_false_elim in Hex as [Hl Hls].
  cbn [fold_left]. rewrite (IH _ Hls).
  unfold summary_next. cbn [Summary.fqdn]. now rewrite Hl.
Qed.

Lemma next_fqdn (st : Summary.locals) (l : string) :
  Py.contains "DNSDomain" l = true ->
  Py.truthy (Summary.hostname_ (summary_next st l)) = true ->
  Summary.fqdn (summary_next st l) =
  Summary.hostname_ (summary_next st l) +:+ "." +:+ field ":" 1 l.
Proof.
  unfold summary_next. cbn [Summary.fqdn Summary.hostname_].
  now intros -> ->.
Qed.

Lemma fold_fqdn_last (pre post : list string) (l : string) (st : Summary.locals) :
  Py.contains "DNSDomain" l = true ->
  existsb (Py.contains "DNSDomain") post = false ->
  Py.truthy (Summary.hostname_ (fold_left summary_next (pre ++ [l]) st)) = true ->
  Summary.fqdn (fold_left summary_next (pre ++ l :: post) st) =
  Summary.hostname_ (fold_left summary_next (pre ++ l :: post) st)
  +:+ "." +:+ field ":" 1 l.
Proof.
  intros Hl Hpost. rewrite !fold_left_app. cbn [fold_left]. intros Hset.
  rewrite (fold_fqdn_skip _ _ Hpost), (fold_hostname_set _ _ Hset).
  now apply next_fqdn.
Qed.


Lemma summary_total_on_well_formed (data : string) :
  forallb summary_well_formed (data_lines data) = true ->
  exists h f s,
    show_summary_sanitizer data = Ok (h, f, s)
    /\ (existsb (Py.contains "Name") (data_lines data) = false -> h = "")
    /\ (existsb (Py.contains "DNSDomain") (data_lines data) = false -> f = "")
    /\ (existsb (Py.contains "Serial Number") (data_lines data) = false -> s = "").
Proof.
  intros Hwf. rewrite (summary_scan_ok _ Hwf). cbv zeta.
  eexists _, _, _. split; [reflexivity|]. repeat split.
  - intros Hno. apply truthy_false, fold_hostname_unset; [reflexivity|].
    now apply contains_name_sets_hostname.
  - intros Hno. now rewrite fold_fqdn_skip.
  - intros Hno. now rewrite fold_serial_skip.
Qed.




(** C6, as amended. Take a summary text in which every line that contains
    [Name], [DNSDomain] or [Serial Number] has a colon.  If its first line
    containing [Name] has a non-empty value and comes before its last line
    containing [DNSDomain], the scan returns: as host name that value in
    lower case; as fqdn the host name, a dot and the value of the last
    [DNSDomain] line; as serial number the value of the last
    [Serial Number] line.  The value of a line is its part between the
    first colon and the second (all the text after the first colon when
    there is no second).  The three lines of the example give (router1,
    router1.example.com, SN123). *)
Theorem summary_fields_of_lines :
  (forall (data : string) (pre mid post a b : list string) (n d s : string),
      forallb summary_well_formed (data_lines data) = true ->
      data_lines data = pre ++ n :: mid ++ d :: post ->
      existsb (Py.contains "Name") pre = false ->
      Py.contains "Name" n = true ->
      field ":" 1 n <> "" ->
      Py.contains "DNSDomain" d = true ->
      existsb (Py.contains "DNSDomain") post = false ->
      data_lines data = a ++ s :: b ->
      Py.contains "Serial Number" s = true ->
      existsb (Py.contains "Serial Number") b = false ->
      show_summary_sanitizer data =
      Ok (Py.lower (field ":" 1 n),
          Py.lower (field ":" 1 n) +:+ "." +:+ field ":" 1 d,
          field ":" 1 s))
  /\ show_summary_sanitizer
       (Py.text ["Name:ROUTER1"; "DNSDomain:example.com"; "Serial Number:SN123"]) =
     Ok ("router1", "router1.example.com", "SN123").
Proof.
  split; [|reflexivity].
  intros data pre mid post a b n d s Hwf Hnd Hpre Hn Hv Hd Hpost Hs Hser Hb.
  rewrite (summary_scan_ok _ Hwf). cbv zeta.
  assert (Hsets : sets_hostname n = true).
  { unfold sets_hostname. rewrite Hn. now apply truthy_true. }
  assert (Hhost : Summary.hostname_ (fold_left summary_next (data_lines data) Summary.init)
                  = Py.lower (field ":" 1 n)).
  { rewrite Hnd. apply fold_hostname_first; auto using contains_name_sets_hostname. }
  assert (Hfq : Summary.fqdn (fold_left summary_next (data_lines data) Summary.init)
                = Py.lower (field ":" 1 n) +:+ "." +:+ field ":" 1 d).
  { rewrite <- Hhost, Hnd.
    change (pre ++ n :: mid ++ d :: post) with (pre ++ (n :: mid) ++ d :: post).
    rewrite app_assoc. apply fold_fqdn_last; auto.
    apply fold_hostname_some.
    rewrite <- !app_assoc, !existsb_app. cbn [app existsb].
    rewrite Hsets. now rewrite orb_true_r. }
  rewrite Hhost, Hfq, Hs. now rewrite fold_serial_last.
Qed.

Lemma summary_fields_of_lines_witness :
  show_summary_sanitizer
    (Py.text ["VC Name:AP-Lobby"; "DNSDomain:old.net"; "Serial Number:CN0";
              "DNSDomain:corp.net"; "Serial Number:CN1:rev2"]) =
  Ok ("ap-lobby", "ap-lobby.corp.net", "CN1").
Proof.
  apply (proj1 summary_fields_of_lines
           (Py.text ["VC Name:AP-Lobby"; "DNSDomain:old.net"; "Serial Number:CN0";
                     "DNSDomain:corp.net"; "Serial Number:CN1:rev2"])
           [] ["DNSDomain:old.net"; "Serial Number:CN0"] ["Serial Number:CN1:rev2"]
           ["VC Name:AP-Lobby"; "DNSDomain:old.net"; "Serial Number:CN0";
            "DNSDomain:corp.net"] []
           "VC Name:AP-Lobby" "DNSDomain:corp.net" "Serial Number:CN1:rev2");
    first [reflexivity | discriminate].
Defined.

(** C6, as stated, fails: of a line with two colons the scan keeps the part
    between them, not all the text after the first. *)
Lemma summary_value_stops_at_second_colon :
  show_summary_sanitizer
    (Py.text ["Name:R1:x"; "DNSDomain:example.com"; "Serial Number:SN:123"]) =
  Ok ("r1", "r1.example.com", "SN")
  /\ "r1" <> Py.lower (text_after ":" "Name:R1:x")
  /\ "SN" <> text_after ":" "Serial Number:SN:123".
Proof. split; [reflexivity | split; discriminate]. Qed.

(** ** The version scan *)

(** *** Loops that raise *)

Lemma for_each_raise_inv {S A : Type} (body : S -> A -> result S)
    (xs : list A) (st : S) (e : Exn) :
  for_each body st xs = Raise e ->
  exists st' x, In x xs /\ body st' x = Raise e.
Proof.
  revert st. induction xs as [|x xs IH]; intros st; cbn [for_each]; [discriminate|].
  intros Hrun. apply bind_Raise_inv in Hrun as [Hx|(st1 & _ & Hrest)].
  - exists st, x. split; [now left | exact Hx].
  - destruct (IH _ Hrest) as (st' & y & Hin & Hy).
    exists st', y. split; [now right | exact Hy].
Qed.

Lemma for_each_raises_some {S A : Type} (body : S -> A -> result S)
    (xs : list A) (x : A) (st : S) :
  (forall st, exists e, body st x = Raise e) ->
  In x xs ->
  exists e, for_each body st xs = Raise e.
Proof.
  intros Hx. revert st.
  induction xs as [|y ys IH]; intros st Hin; [destruct Hin|].
  cbn [for_each]. destruct Hin as [->|Hin].
  - destruct (Hx st) as (e & ->). now exists e.
  - destruct (body st y) as [st1|e]; [now apply IH | now exists e].
Qed.

(** *** The tokens of an uptime line *)

Lemma int_raises_ValueError (s : string) (e : Exn) :
  Py.int_ s = Raise e -> e = ValueError.
Proof.
  unfold Py.int_. destruct (_ && _); [discriminate | now intros [= <-]].
Qed.

Lemma int_cases (s : string) :
  Py.isnumeric s = true ->
  Py.int_ s = if int_accepts s then Ok (Py.digits_value 0 s) else Raise ValueError.
Proof.
  unfold Py.isnumeric, Py.int_, int_accepts. intros Hnum.
  apply andb_prop in Hnum as [-> _]. reflexivity.
Qed.

Lemma map_int_cases (xs : list string) :
  forallb Py.isnumeric xs = true ->
  map_m Py.int_ xs =
  if forallb int_accepts xs then Ok (map (Py.digits_value 0) xs) else Raise ValueError.
Proof.
  induction xs as [|x xs IH]; [reflexivity|].
  cbn [forallb map_m map]. intros Hnum. apply andb_prop in Hnum as [Hx Hxs].
  rewrite (int_cases _ Hx), (IH Hxs).
  destruct (int_accepts x); [|reflexivity].
  now destruct (forallb int_accepts xs).
Qed.

Lemma forallb_filter {A : Type} (p : A -> bool) (xs : list A) :
  forallb p (List.filter p xs) = true.
Proof.
  induction xs as [|x xs IH]; [reflexivity|].
  simpl. destruct (p x) eqn:Hx; [|exact IH].
  simpl. now rewrite Hx.
Qed.

Lemma records_cases (l : string) :
  uptimes_records l =
  if forallb int_accepts (numeric_tokens l)
  then Ok (map (Py.digits_value 0) (numeric_tokens l))
  else Raise ValueError.
Proof. apply map_int_cases, forallb_filter. Qed.

Lemma records_Ok_inv (l : string) (records : list Z) :
  uptimes_records l = Ok records ->
  forallb int_accepts (numeric_tokens l) = true
  /\ records = map (Py.digits_value 0) (numeric_tokens l).
Proof.
  rewrite records_cases.
  destruct (forallb int_accepts (numeric_tokens l)); [|discriminate].
  now intros [= <-].
Qed.

Lemma digit_range (c : ascii) :
  Py.isdecimal_char c = true -> (0 <= Z.of_N (N_of_ascii c) - 48 <= 9)%Z.
Proof.
  unfold Py.isdecimal_char. intros Hc. apply andb_prop in Hc as [Hlow Hhigh].
  apply N.leb_le in Hlow, Hhigh. lia.
Qed.

Lemma digits_value_range (s : string) (acc : Z) :
  Py.all_chars Py.isdecimal_char s = true ->
  (0 <= acc)%Z ->
  (0 <= Py.digits_value acc s < (acc + 1) * 10 ^ Z.of_nat (String.length s))%Z.
Proof.
  revert acc. induction s as [|c s IH]; intros acc Hdec Hacc.
  - cbn. lia.
  - cbn [Py.all_chars] in Hdec. apply andb_prop in Hdec as [Hc Hs].
    apply digit_range in Hc.
    cbn [Py.digits_value String.length].
    destruct (IH (10 * acc + (Z.of_N (N_of_ascii c) - 48))%Z Hs ltac:(lia))
      as [Hlow Hhigh].
    split; [exact Hlow|].
    rewrite Nat2Z.inj_succ, Z.pow_succ_r by lia.
    eapply Z.lt_le_trans; [exact Hhigh|].
    assert (Hpow : (0 <= 10 ^ Z.of_nat (String.length s))%Z)
      by (apply Z.pow_nonneg; lia).
    nia.
Qed.

Lemma small_decimal_range (token : string) :
  small_decimal token = true ->
  (0 <= Py.digits_value 0 token < 10 ^ 300)%Z.
Proof.
  unfold small_decimal. intros Hsmall. apply andb_prop in Hsmall as [Hdec Hlen].
  apply Nat.leb_le in Hlen.
  destruct (digits_value_range token 0 Hdec ltac:(lia)) as [Hlow Hhigh].
  split; [exact Hlow|].
  eapply Z.lt_le_trans; [exact Hhigh|].
  rewrite Z.mul_1_l. apply Z.pow_le_mono_r; lia.
Qed.

Lemma small_decimal_accepted (token : string) :
  small_decimal token = true -> int_accepts token = true.
Proof.
  unfold small_decimal, int_accepts. intros Hsmall.
  apply andb_prop in Hsmall as [-> Hlen]. cbn [andb].
  apply Nat.leb_le in Hlen. apply Nat.leb_le.
  eapply Nat.le_trans; [exact Hlen|].
  unfold Py.int_max_str_digits. apply Nat.leb_le. vm_compute. reflexivity.
Qed.

Lemma forallb_impl {A : Type} (p q : A -> bool) (xs : list A) :
  (forall x, p x = true -> q x = true) ->
  forallb p xs = true -> forallb q xs = true.
Proof.
  intros Hpq. induction xs as [|x xs IH]; [reflexivity|].
  cbn [forallb]. intros Hall. apply andb_prop in Hall as [Hx Hxs].
  now rewrite (Hpq x Hx), (IH Hxs).
Qed.

Lemma sum_bound : (694861 * 10 ^ 300 < 2 ^ 1023)%Z.
Proof. vm_compute. reflexivity. Qed.

Lemma small_sum_float (w d h m s : Z) :
  (0 <= w < 10 ^ 300)%Z -> (0 <= d < 10 ^ 300)%Z -> (0 <= h < 10 ^ 300)%Z ->
  (0 <= m < 10 ^ 300)%Z -> (0 <= s < 10 ^ 300)%Z ->
  float_accepts (uptime_sum 0 w d h m s) = true.
Proof.
  intros Hw Hd Hh Hm Hs. unfold float_accepts.
  assert (Hsum : (0 <= uptime_sum 0 w d h m s < 2 ^ 1023)%Z).
  { rewrite uptime_sum_linear. pose proof sum_bound as Hb.
    set (B := (10 ^ 300)%Z) in *. set (T := (2 ^ 1023)%Z) in *. lia. }
  apply Z.ltb_lt.
  rewrite Z.abs_eq by (apply round_to_double_nonneg, Hsum).
  eapply Z.le_lt_trans; [|exact pow_1023_lt_1024].
  apply round_to_double_bound; [lia | exact Hsum].
Qed.

Lemma uptime_seconds_cases (y w d h m s : Z) :
  uptime_seconds y w d h m s =
  if float_accepts (uptime_sum y w d h m s)
  then Ok (PFloat (round_to_double (uptime_sum y w d h m s)))
  else Raise OverflowError.
Proof. reflexivity. Qed.

(** *** The two rules *)

Lemma model_rule_raises (st : Version.locals) (l : string) (e : Exn) :
  model_rule st l = Raise e -> e = ValueError.
Proof.
  unfold model_rule. destruct (Py.contains "MODEL" l); [|discriminate].
  destruct (Py.split "," l) as [|m [|o [|x xs]]]; try discriminate; now intros [= <-].
Qed.

(** A [MODEL] line without exactly one comma stops the scan. *)
Lemma model_rule_bad_commas (st : Version.locals) (l : string) :
  Py.contains "MODEL" l = true ->
  count_char "," l <> 1 ->
  model_rule st l = Raise ValueError.
Proof.
  intros Hc Hn. unfold model_rule. rewrite Hc.
  destruct (Py.split "," l) as [|m [|o [|x xs]]] eqn:Hs; try reflexivity.
  now apply split_two_parts in Hs.
Qed.

Lemma model_rule_two_parts (st : Version.locals) (l m o : string) :
  Py.contains "MODEL" l = true ->
  Py.split "," l = [m; o] ->
  model_rule st l =
  Ok (Version.mk (Version.years st) (Version.weeks st) (Version.days st)
        (Version.hours st) (Version.minutes st) (Version.seconds st)
        (Version.vendor st) m o (Version.uptime st)).
Proof. intros Hc Hs. unfold model_rule. now rewrite Hc, Hs. Qed.

Lemma model_rule_skip (st : Version.locals) (l : string) :
  Py.contains "MODEL" l = false -> model_rule st l = Ok st.
Proof. intros Hc. unfold model_rule. now rewrite Hc. Qed.

(** The [MODEL] rule leaves the uptime locals alone. *)
Lemma model_rule_keeps (st st' : Version.locals) (l : string) :
  model_rule st l = Ok st' ->
  Version.uptime st' = Version.uptime st
  /\ Version.seconds st' = Version.seconds st
  /\ Version.years st' = Version.years st
  /\ Version.vendor st' = Version.vendor st.
Proof.
  unfold model_rule. destruct (Py.contains "MODEL" l).
  - destruct (Py.split "," l) as [|m [|o [|x xs]]]; try discriminate.
    now intros [= <-].
  - now intros [= <-].
Qed.

Lemma model_rule_cases (st : Version.locals) (l : string) :
  (exists st1, model_rule st l = Ok st1)
  /\ (negb (Py.contains "MODEL" l) || (count_char "," l =? 1)%nat) = true
  \/ model_rule st l = Raise ValueError
     /\ (negb (Py.contains "MODEL" l) || (count_char "," l =? 1)%nat) = false.
Proof.
  destruct (Py.contains "MODEL" l) eqn:Hc; cbn [negb orb].
  - destruct (count_char "," l =? 1)%nat eqn:Hn.
    + left. split; [|reflexivity]. apply Nat.eqb_eq in Hn.
      destruct (split_one_sep _ _ Hn) as (m & o & Hs & _).
      eexists. apply (model_rule_two_parts _ _ _ _ Hc Hs).
    + right. split; [|reflexivity]. apply Nat.eqb_neq in Hn.
      now apply model_rule_bad_commas.
  - left. split; [|reflexivity]. eexists. now apply model_rule_skip.
Qed.

Lemma uptime_rule_skip (st : Version.locals) (l : string) :
  Py.contains "AP uptime is" l = false -> uptime_rule st l = Ok st.
Proof. intros Hc. unfold uptime_rule. now rewrite Hc. Qed.

(** The uptime rule by the number of numeric tokens. *)
Lemma uptime_rule_cases (st : Version.locals) (l : string) :
  Py.contains "AP uptime is" l = true ->
  uptime_rule st l =
  if forallb int_accepts (numeric_tokens l) then
    match map (Py.digits_value 0) (numeric_tokens l) with
    | [w; d; h; m; s] =>
        uptime ← uptime_seconds (Version.years st) w d h m s;
        Ok (Version.mk (Version.years st) w d h m s
              (Version.vendor st) (Version.model st) (Version.os_version st) uptime)
    | [w; d; h; m] =>
        uptime ← uptime_seconds (Version.years st) w d h m (Version.seconds st);
        Ok (Version.mk (Version.years st) w d h m (Version.seconds st)
              (Version.vendor st) (Version.model st) (Version.os_version st) uptime)
    | records => if (length records <? 5)%nat then Ok st else Raise ValueError
    end
  else Raise ValueError.
Proof.
  intros Hc. unfold uptime_rule. rewrite Hc, records_cases.
  destruct (forallb int_accepts (numeric_tokens l)); [|reflexivity].
  rewrite bind_Ok.
  destruct (map (Py.digits_value 0) (numeric_tokens l))
    as [|a [|b [|c [|d [|f [|g rest]]]]]]; try reflexivity.
  cbn [length Nat.eqb Nat.leb negb andb].
  now destruct (uptime_seconds (Version.years st) a b c d f).
Qed.

Lemma uptime_rule_raises (st : Version.locals) (l : string) (e : Exn) :
  uptime_rule st l = Raise e -> e = ValueError \/ e = OverflowError.
Proof.
  destruct (Py.contains "AP uptime is" l) eqn:Hc;
    [|now rewrite (uptime_rule_skip _ _ Hc)].
  rewrite (uptime_rule_cases _ _ Hc).
  destruct (forallb int_accepts (numeric_tokens l)); [|intros [= <-]; now left].
  destruct (map (Py.digits_value 0) (numeric_tokens l))
    as [|a [|b [|c [|d [|f [|g rest]]]]]]; cbn [length Nat.ltb Nat.leb];
    try discriminate; try (intros [= <-]; now left);
    rewrite uptime_seconds_cases; destruct (float_accepts _); cbn;
    try discriminate; intros [= <-]; now right.
Qed.

Lemma version_body_raises (st : Version.locals) (l : string) (e : Exn) :
  version_body st l = Raise e -> e = ValueError \/ e = OverflowError.
Proof.
  unfold version_body. intros Hrun.
  apply bind_Raise_inv in Hrun as [Hm|(st1 & _ & Hu)].
  - left. now apply model_rule_raises in Hm.
  - now apply uptime_rule_raises in Hu.
Qed.

Lemma uptime_rule_five (st : Version.locals) (l : string) (w d h m s : Z) (u : pyval) :
  Py.contains "AP uptime is" l = true ->
  uptimes_records l = Ok [w; d; h; m; s] ->
  uptime_seconds (Version.years st) w d h m s = Ok u ->
  uptime_rule st l =
  Ok (Version.mk (Version.years st) w d h m s
        (Version.vendor st) (Version.model st) (Version.os_version st) u).
Proof.
  intros Hc Hrec Hu. apply records_Ok_inv in Hrec as [Hall Hrec].
  now rewrite (uptime_rule_cases _ _ Hc), Hall, <- Hrec, Hu.
Qed.

Lemma uptime_rule_four (st : Version.locals) (l : string) (w d h m : Z) (u : pyval) :
  Py.contains "AP uptime is" l = true ->
  uptimes_records l = Ok [w; d; h; m] ->
  uptime_seconds (Version.years st) w d h m (Version.seconds st) = Ok u ->
  uptime_rule st l =
  Ok (Version.mk (Version.years st) w d h m (Version.seconds st)
        (Version.vendor st) (Version.model st) (Version.os_version st) u).
Proof.
  intros Hc Hrec Hu. apply records_Ok_inv in Hrec as [Hall Hrec].
  now rewrite (uptime_rule_cases _ _ Hc), Hall, <- Hrec, Hu.
Qed.

(** What an uptime line that does not raise did, by its number of numeric
    tokens. *)
Lemma uptime_rule_inv (st st' : Version.locals) (l : string) :
  uptime_rule st l = Ok st' ->
  Version.years st' = Version.years st
  /\ Version.vendor st' = Version.vendor st
  /\ Version.model st' = Version.model st
  /\ Version.os_version st' = Version.os_version st
  /\ (sets_uptime l = false -> Version.uptime st' = Version.uptime st)
  /\ (sets_seconds l = false -> Version.seconds st' = Version.seconds st).
Proof.
  unfold sets_uptime, sets_seconds.
  destruct (Py.contains "AP uptime is" l) eqn:Hc;
    [|rewrite (uptime_rule_skip _ _ Hc); now intros [= <-]].
  rewrite (uptime_rule_cases _ _ Hc).
  destruct (forallb int_accepts (numeric_tokens l)); [|discriminate].
  rewrite <- (length_map (Py.digits_value 0) (numeric_tokens l)).
  destruct (map (Py.digits_value 0) (numeric_tokens l))
    as [|a [|b [|c [|d [|f [|g rest]]]]]]; cbn [length Nat.ltb Nat.leb];
    try discriminate; try (intros [= <-]; cbn; repeat split; discriminate);
    destruct (uptime_seconds _ _ _ _ _ _); cbn; try discriminate;
    intros [= <-]; cbn; repeat split; discriminate.
Qed.

Lemma version_body_inv (st st' : Version.locals) (l : string) :
  version_body st l = Ok st' ->
  Version.years st' = Version.years st
  /\ Version.vendor st' = Version.vendor st
  /\ (sets_uptime l = false -> Version.uptime st' = Version.uptime st)
  /\ (sets_seconds l = false -> Version.seconds st' = Version.seconds st)
  /\ (Py.contains "MODEL" l = false ->
      Version.model st' = Version.model st
      /\ Version.os_version st' = Version.os_version st).
Proof.
  unfold version_body. intros Hrun.
  apply bind_Ok_inv in Hrun as (st1 & Hm & Hu).
  apply uptime_rule_inv in Hu as (Hy & Hv & Hmo & Hos & Hup & Hsec).
  pose proof (model_rule_keeps _ _ _ Hm) as (Hup1 & Hsec1 & Hy1 & Hv1).
  split; [congruence|]. split; [congruence|]. split; [|split].
  - intros Hq. rewrite (Hup Hq). exact Hup1.
  - intros Hq. rewrite (Hsec Hq). exact Hsec1.
  - intros Hc. rewrite (model_rule_skip _ _ Hc) in Hm. split; congruence.
Qed.

Lemma version_body_five (st st' : Version.locals) (l : string) (w d h m s : Z) :
  Py.contains "AP uptime is" l = true ->
  uptimes_records l = Ok [w; d; h; m; s] ->
  version_body st l = Ok st' ->
  uptime_seconds (Version.years st) w d h m s = Ok (Version.uptime st')
  /\ Version.seconds st' = s.
Proof.
  intros Hc Hrec. unfold version_body. intros Hrun.
  apply bind_Ok_inv in Hrun as (st1 & Hm & Hu).
  apply records_Ok_inv in Hrec as [Hall Hrec].
  rewrite (uptime_rule_cases _ _ Hc), Hall, <- Hrec in Hu.
  apply model_rule_keeps in Hm as (_ & _ & Hy & _). rewrite Hy in Hu.
  destruct (uptime_seconds (Version.years st) w d h m s) as [u|e]; [|discriminate].
  injection Hu as <-. split; reflexivity.
Qed.

Lemma version_body_four (st st' : Version.locals) (l : string) (w d h m : Z) :
  Py.contains "AP uptime is" l = true ->
  uptimes_records l = Ok [w; d; h; m] ->
  version_body st l = Ok st' ->
  uptime_seconds (Version.years st) w d h m (Version.seconds st) =
  Ok (Version.uptime st')
  /\ Version.seconds st' = Version.seconds st.
Proof.
  intros Hc Hrec. unfold version_body. intros Hrun.
  apply bind_Ok_inv in Hrun as (st1 & Hm & Hu).
  apply records_Ok_inv in Hrec as [Hall Hrec].
  rewrite (uptime_rule_cases _ _ Hc), Hall, <- Hrec in Hu.
  apply model_rule_keeps in Hm as (_ & Hs & Hy & _). rewrite Hy, Hs in Hu.
  destruct (uptime_seconds (Version.years st) w d h m (Version.seconds st))
    as [u|e]; [|discriminate].
  injection Hu as <-. split; [reflexivity | now cbn].
Qed.

(** The loop keeps what no line of it assigns. *)
Lemma version_loop_inv (ls : list string) (st st' : Version.locals) :
  for_each version_body st ls = Ok st' ->
  Version.years st' = Version.years st
  /\ Version.vendor st' = Version.vendor st
  /\ (existsb sets_uptime ls = false -> Version.uptime st' = Version.uptime st)
  /\ (existsb sets_seconds ls = false -> Version.seconds st' = Version.seconds st)
  /\ (existsb (Py.contains "MODEL") ls = false ->
      Version.model st' = Version.model st
      /\ Version.os_version st' = Version.os_version st).
Proof.
  revert st. induction ls as [|l ls IH]; intros st; simpl.
  - intros [= <-]. tauto.
  - intros Hrun. apply bind_Ok_inv in Hrun as (st1 & Hl & Hls).
    apply version_body_inv in Hl as (Hy & Hv & Hup & Hsec & Hmo).
    apply IH in Hls as (Hy' & Hv' & Hup' & Hsec' & Hmo').
    split; [congruence|]. split; [congruence|]. split; [|split].
    + intros Hex. apply orb_false_elim in Hex as [Hq Hqs].
      rewrite (Hup' Hqs). auto.
    + intros Hex. apply orb_false_elim in Hex as [Hq Hqs].
      rewrite (Hsec' Hqs). auto.
    + intros Hex. apply orb_false_elim in Hex as [Hq Hqs].
      destruct (Hmo' Hqs) as [-> ->]. now apply Hmo.
Qed.

Lemma version_scan_inv (data v m o : string) (u : pyval) :
  show_version_sanitizer data = Ok (v, m, o, u) ->
  exists st,
    for_each version_body Version.init (data_lines data) = Ok st
    /\ v = Version.vendor st /\ m = Version.model st
    /\ o = Version.os_version st /\ u = Version.uptime st.
Proof.
  unfold show_version_sanitizer. intros Hrun.
  apply bind_Ok_inv in Hrun as (st & Hloop & [= <- <- <- <-]).
  now exists st.
Qed.

Lemma for_each_split {S A : Type} (body : S -> A -> result S)
    (pre post : list A) (x : A) (st st' : S) :
  for_each body st (pre ++ x :: post) = Ok st' ->
  exists st1 st2,
    for_each body st pre = Ok st1 /\ body st1 x = Ok st2
    /\ for_each body st2 post = Ok st'.
Proof.
  rewrite for_each_app. intros Hrun.
  apply bind_Ok_inv in Hrun as (st1 & Hpre & Hrest).
  simpl in Hrest. apply bind_Ok_inv in Hrest as (st2 & Hx & Hpost).
  now exists st1, st2.
Qed.

(** *** The lines on which the scan returns *)

(** One line: it returns or raises as [version_line_ok] says, the years
    staying 0 and the seconds becoming [seconds_after]. *)
Lemma version_body_line (st : Version.locals) (l : string) :
  Version.years st = 0%Z ->
  if version_line_ok (Version.seconds st) l
  then exists st', version_body st l = Ok st'
                   /\ Version.years st' = 0%Z
                   /\ Version.seconds st' = seconds_after (Version.seconds st) l
  else exists e, version_body st l = Raise e /\ (e = ValueError \/ e = OverflowError).
Proof.
  intros Hy. unfold version_line_ok, version_body.
  destruct (model_rule_cases st l) as [[(st1 & Hm) ->]|[Hm ->]];
    [|cbn [andb]; exists ValueError; rewrite Hm; split; [reflexivity | now left]].
  rewrite Hm, bind_Ok. cbn [andb].
  pose proof (model_rule_keeps _ _ _ Hm) as (_ & Hs1 & Hy1 & _).
  unfold seconds_after.
  destruct (Py.contains "AP uptime is" l) eqn:Hc; cbn [negb orb].
  2: { rewrite (uptime_rule_skip _ _ Hc). exists st1. repeat split; congruence. }
  rewrite (uptime_rule_cases _ _ Hc).
  destruct (forallb int_accepts (numeric_tokens l)); cbn [andb];
    [|exists ValueError; split; [reflexivity | now left]].
  rewrite Hy1, Hy, Hs1.
  destruct (map (Py.digits_value 0) (numeric_tokens l))
    as [|a [|b [|c [|d [|f [|g rest]]]]]]; cbn [length Nat.ltb Nat.leb].
  all: try (exists st1; repeat split; congruence).
  all: try (exists ValueError; split; [reflexivity | now left]).
  all: rewrite uptime_seconds_cases; destruct (float_accepts _); cbn.
  all: try (exists OverflowError; split; [reflexivity | now right]).
  all: eexists; split; [reflexivity | split; reflexivity].
Qed.

Lemma version_loop_lines (ls : list string) (st : Version.locals) :
  Version.years st = 0%Z ->
  if version_lines_ok (Version.seconds st) ls
  then exists st', for_each version_body st ls = Ok st'
  else exists e, for_each version_body st ls = Raise e
                 /\ (e = ValueError \/ e = OverflowError).
Proof.
  revert st. induction ls as [|l ls IH]; intros st Hy; [now exists st|].
  cbn [version_lines_ok for_each].
  pose proof (version_body_line st l Hy) as Hline.
  destruct (version_line_ok (Version.seconds st) l); cbn [andb].
  - destruct Hline as (st1 & -> & Hy1 & Hs1). rewrite bind_Ok, <- Hs1.
    now apply IH.
  - destruct Hline as (e & -> & He). now exists e.
Qed.

Lemma well_formed_line_ok (seconds : Z) (l : string) :
  version_well_formed l = true ->
  (0 <= seconds < 10 ^ 300)%Z ->
  version_line_ok seconds l = true
  /\ (0 <= seconds_after seconds l < 10 ^ 300)%Z.
Proof.
  unfold version_well_formed, version_line_ok, seconds_after.
  intros Hwf Hsec. apply andb_prop in Hwf as [-> Huptime]. cbn [andb].
  destruct (Py.contains "AP uptime is" l); [|now split].
  cbn [negb orb] in *. apply andb_prop in Huptime as [Hlen Hsmall].
  rewrite (forallb_impl _ _ _ small_decimal_accepted Hsmall). cbn [andb].
  apply Nat.leb_le in Hlen.
  assert (Hrange : Forall (fun z => 0 <= z < 10 ^ 300)%Z
                     (map (Py.digits_value 0) (numeric_tokens l))).
  { apply List.Forall_map. rewrite forallb_forall in Hsmall.
    apply List.Forall_forall. intros t Ht. now apply small_decimal_range, Hsmall. }
  rewrite <- (length_map (Py.digits_value 0)) in Hlen.
  destruct (map (Py.digits_value 0) (numeric_tokens l))
    as [|a [|b [|c [|d [|f [|g rest]]]]]]; cbn [length] in Hlen; try lia;
    try (split; [reflexivity | exact Hsec]);
    repeat match goal with
           | Hf : Forall _ (_ :: _) |- _ => inversion Hf; subst; clear Hf
           end.
  - split; [now apply small_sum_float | exact Hsec].
  - split; [now apply small_sum_float | assumption].
Qed.

Lemma well_formed_lines_ok (ls : list string) (seconds : Z) :
  forallb version_well_formed ls = true ->
  (0 <= seconds < 10 ^ 300)%Z ->
  version_lines_ok seconds ls = true.
Proof.
  revert seconds. induction ls as [|l ls IH]; intros seconds Hwf Hsec; [reflexivity|].
  cbn [forallb] in Hwf. apply andb_prop in Hwf as [Hl Hls].
  destruct (well_formed_line_ok seconds l Hl Hsec) as [Hok Hnext].
  cbn [version_lines_ok]. rewrite Hok. now apply IH.
Qed.

Lemma pow_300_pos : (0 <= 0 < 10 ^ 300)%Z.
Proof. split; [lia | reflexivity]. Qed.

Lemma no_uptime_line_sets_nothing (ls : list string) :
  existsb (Py.contains "AP uptime is") ls = false ->
  existsb sets_uptime ls = false.
Proof.
  induction ls as [|l ls IH]; [reflexivity|].
  cbn [existsb]. intros Hex. apply orb_false_elim in Hex as [Hl Hls].
  unfold sets_uptime at 1. now rewrite Hl, (IH Hls).
Qed.

Lemma version_total_on_well_formed (data : string) :
  forallb version_well_formed (data_lines data) = true ->
  exists (m o : string) (u : pyval),
    show_version_sanitizer data = Ok ("Hewlett Packard", m, o, u)
    /\ (existsb (Py.contains "MODEL") (data_lines data) = false -> m = "" /\ o = "")
    /\ (existsb (Py.contains "AP uptime is") (data_lines data) = false -> u = PStr "").
Proof.
  intros Hwf.
  pose proof (version_loop_lines (data_lines data) Version.init eq_refl) as Hloop.
  change (Version.seconds Version.init) with 0%Z in Hloop.
  rewrite (well_formed_lines_ok _ 0 Hwf pow_300_pos) in Hloop.
  destruct Hloop as (st & Hloop).
  pose proof (version_loop_inv _ _ _ Hloop) as (_ & Hv & Hup & _ & Hmo).
  exists (Version.model st), (Version.os_version st), (Version.uptime st).
  split; [|split].
  - unfold show_version_sanitizer. rewrite Hloop, bind_Ok. now rewrite Hv.
  - exact Hmo.
  - intros Hno. now apply Hup, no_uptime_line_sets_nothing.
Qed.

Lemma version_scan_raises (data : string) (e : Exn) :
  show_version_sanitizer data = Raise e -> e = ValueError \/ e = OverflowError.
Proof.
  unfold show_version_sanitizer. intros Hrun.
  apply bind_Raise_inv in Hrun as [Hloop|(st & _ & Habs)]; [|discriminate].
  apply for_each_raise_inv in Hloop as (st' & x & _ & Hx).
  exact (version_body_raises _ _ _ Hx).
Qed.

(** A line that raises whatever the locals stops the scan, wherever it
    stands. *)
Lemma version_scan_raises_at (data l : string) :
  In l (data_lines data) ->
  (forall st : Version.locals, version_body st l = Raise ValueError) ->
  exists e, show_version_sanitizer data = Raise e
            /\ (e = ValueError \/ e = OverflowError).
Proof.
  intros Hin Hline.
  destruct (for_each_raises_some version_body (data_lines data) l Version.init)
    as (e & Hloop); [intros st; exists ValueError; apply Hline | exact Hin |].
  assert (Hrun : show_version_sanitizer data = Raise e)
    by (unfold show_version_sanitizer; now rewrite Hloop).
  exists e. split; [exact Hrun | exact (version_scan_raises _ _ Hrun)].
Qed.

Lemma version_scan_raises_after (data : string) (pre post : list string)
    (l : string) (st : Version.locals) (e : Exn) :
  data_lines data = pre ++ l :: post ->
  for_each version_body Version.init pre = Ok st ->
  version_body st l = Raise e ->
  show_version_sanitizer data = Raise e.
Proof.
  intros Hlines Hpre Hline. unfold show_version_sanitizer.
  rewrite Hlines, for_each_app, Hpre, bind_Ok. cbn [for_each].
  now rewrite Hline.
Qed.

(** C5. A line of the version text that contains [MODEL] and does not have
    exactly one comma makes the scan fail with an error instead of
    returning: the line itself raises [ValueError] whatever the locals, and
    this is what the scan raises when the lines before it raise nothing (an
    earlier line may raise first, [ValueError] or [OverflowError]).  A
    line that contains [MODEL] and has exactly one comma is cut at it in two
    parts, and the [MODEL] rule assigns them to the model and the OS version
    in that order without raising, whatever the locals; they are the ones
    returned when no later line contains [MODEL], and the scan does return
    them when every line of the text is well formed.  The line
    [MODEL,IAP-505] gives the model [MODEL] and the OS version [IAP-505]. *)
Theorem model_line_two_parts_or_error :
  (forall (data : string) (pre post : list string) (l : string),
      data_lines data = pre ++ l :: post ->
      Py.contains "MODEL" l = true ->
      (count_char "," l <> 1 ->
       (forall st : Version.locals, version_body st l = Raise ValueError)
       /\ (exists e, show_version_sanitizer data = Raise e
                     /\ (e = ValueError \/ e = OverflowError))
       /\ (forall st : Version.locals,
              for_each version_body Version.init pre = Ok st ->
              show_version_sanitizer data = Raise ValueError))
      /\ (count_char "," l = 1 ->
          exists m o : string,
            Py.split "," l = [m; o]
            /\ l = m +:+ String "," o
            /\ (forall st : Version.locals,
                   model_rule st l =
                   Ok (Version.mk (Version.years st) (Version.weeks st)
                         (Version.days st) (Version.hours st) (Version.minutes st)
                         (Version.seconds st) (Version.vendor st) m o
                         (Version.uptime st)))
            /\ (forall st st' : Version.locals,
                   version_body st l = Ok st' ->
                   Version.model st' = m /\ Version.os_version st' = o)
            /\ (existsb (Py.contains "MODEL") post = false ->
                forall (v m' o' : string) (u : pyval),
                  show_version_sanitizer data = Ok (v, m', o', u) ->
                  m' = m /\ o' = o)
            /\ (existsb (Py.contains "MODEL") post = false ->
                forallb version_well_formed (data_lines data) = true ->
                exists u : pyval,
                  show_version_sanitizer data = Ok ("Hewlett Packard", m, o, u))))
  /\ show_version_sanitizer (Py.text ["MODEL,IAP-505"]) =
     Ok ("Hewlett Packard", "MODEL", "IAP-505", PStr "").
Proof.
  split; [|reflexivity].
  intros data pre post l Hlines Hc. split.
  - intros Hn.
    assert (Hline : forall st : Version.locals, version_body st l = Raise ValueError).
    { intros st. unfold version_body. now rewrite (model_rule_bad_commas _ _ Hc Hn). }
    split; [exact Hline|]. split.
    + apply (version_scan_raises_at data l); [|exact Hline].
      rewrite Hlines. apply in_or_app. right. now left.
    + intros st Hpre.
      exact (version_scan_raises_after _ _ _ _ _ _ Hlines Hpre (Hline st)).
  - intros H1. destruct (split_one_sep _ _ H1) as (m & o & Hs & Hl).
    exists m, o. split; [exact Hs|]. split; [exact Hl|].
    split; [intros st; apply (model_rule_two_parts _ _ _ _ Hc Hs)|].
    assert (Hbody : forall st st' : Version.locals,
               version_body st l = Ok st' ->
               Version.model st' = m /\ Version.os_version st' = o).
    { intros st st'. unfold version_body.
      rewrite (model_rule_two_parts _ _ _ _ Hc Hs), bind_Ok.
      intros Hu. apply uptime_rule_inv in Hu as (_ & _ & Hmo & Hos & _).
      now rewrite Hmo, Hos. }
    split; [exact Hbody|].
    assert (Hlast : existsb (Py.contains "MODEL") post = false ->
              forall (v m' o' : string) (u : pyval),
                show_version_sanitizer data = Ok (v, m', o', u) -> m' = m /\ o' = o).
    { intros Hpost v m' o' u Hrun.
      apply version_scan_inv in Hrun as (st & Hloop & _ & -> & -> & _).
      rewrite Hlines in Hloop.
      apply for_each_split in Hloop as (st1 & st2 & _ & Hline & Hrest).
      apply Hbody in Hline as [<- <-].
      apply version_loop_inv in Hrest as (_ & _ & _ & _ & Hkeep).
      now apply Hkeep. }
    split; [exact Hlast|].
    intros Hpost Hwf.
    destruct (version_total_on_well_formed data Hwf) as (m' & o' & u & Hrun & _).
    destruct (Hlast Hpost _ _ _ _ Hrun) as [-> ->]. now exists u.
Qed.

Lemma model_line_two_parts_or_error_witness :
  show_version_sanitizer
    (Py.text ["Aruba Operating System"; "MODEL,IAP-505,8.6.0.1"]) = Raise ValueError
  /\ exists u : pyval,
       show_version_sanitizer
         (Py.text ["MODEL: 505, Version 8.6"; "AP uptime is 3 minutes"]) =
       Ok ("Hewlett Packard", "MODEL: 505", " Version 8.6", u).
Proof.
  split.
  - destruct (proj1 model_line_two_parts_or_error
                (Py.text ["Aruba Operating System"; "MODEL,IAP-505,8.6.0.1"])
                ["Aruba Operating System"] [] "MODEL,IAP-505,8.6.0.1"
                eq_refl eq_refl) as [Hbad _].
    destruct (Hbad ltac:(discriminate)) as (_ & _ & Hscan).
    apply (Hscan Version.init). reflexivity.
  - destruct (proj1 model_line_two_parts_or_error
                (Py.text ["MODEL: 505, Version 8.6"; "AP uptime is 3 minutes"])
                [] ["AP uptime is 3 minutes"] "MODEL: 505, Version 8.6"
                eq_refl eq_refl) as [_ Hone].
    destruct (Hone eq_refl) as (m & o & Hs & _ & _ & _ & _ & Hreturns).
    injection Hs as <- <-. apply Hreturns; reflexivity.
Defined.

Lemma get_facts_inv {D : Type} `{ConnectHandler D} (self self' : ArubaFDriver D)
    (facts : Facts.t) :
  get_facts self = (Ok facts, self') ->
  exists v m o : string,
    show_version_sanitizer
      (join_lines (non_empty_lines (fst (send_command "show version" (device self))))) =
    Ok (v, m, o, Facts.uptime facts).
Proof.
  unfold get_facts.
  destruct (send_command "show version" (device self)) as [version_output dev1].
  destruct (send_command "show summary" dev1) as [summary_output dev2].
  cbn [fst]. intros [= Hfacts _].
  apply bind_Ok_inv in Hfacts as ([[[v m] o] u] & Hversion & Hrest).
  apply bind_Ok_inv in Hrest as ([[h f] s] & _ & [= <-]).
  now exists v, m, o.
Qed.

(** C2, as amended. When the version scan returns, the uptime is the empty
    string the local starts with (not the number 0) unless a line of the
    text contains [AP uptime is] and has exactly four or exactly five
    numeric tokens.  The last such line decides: with five tokens they are
    read as weeks, days, hours, minutes and seconds; with four as weeks,
    days, hours and minutes, the seconds being those of the last five-token
    uptime line before it, and 0 when there is none; the uptime is the float
    of their sum in seconds.  Uptime lines with fewer than four numeric
    tokens change nothing.  [get_facts] returns as its [uptime] the uptime of
    the version scan of the filtered output of [show version]. *)
Theorem uptime_of_version_scan :
  (forall (data v m o : string) (u : pyval),
      show_version_sanitizer data = Ok (v, m, o, u) ->
      (existsb sets_uptime (data_lines data) = false -> u = PStr "")
      /\ (forall (pre post : list string) (l : string) (w d h mi s : Z),
            data_lines data = pre ++ l :: post ->
            Py.contains "AP uptime is" l = true ->
            uptimes_records l = Ok [w; d; h; mi; s] ->
            existsb sets_uptime post = false ->
            uptime_seconds 0 w d h mi s = Ok u)
      /\ (forall (pre post : list string) (l : string) (w d h mi : Z),
            data_lines data = pre ++ l :: post ->
            Py.contains "AP uptime is" l = true ->
            uptimes_records l = Ok [w; d; h; mi] ->
            existsb sets_uptime post = false ->
            existsb sets_seconds pre = false ->
            uptime_seconds 0 w d h mi 0 = Ok u)
      /\ (forall (pre mid post : list string) (l5 l : string)
                 (w5 d5 h5 m5 s w d h mi : Z),
            data_lines data = pre ++ l5 :: mid ++ l :: post ->
            Py.contains "AP uptime is" l5 = true ->
            uptimes_records l5 = Ok [w5; d5; h5; m5; s] ->
            existsb sets_seconds mid = false ->
            Py.contains "AP uptime is" l = true ->
            uptimes_records l = Ok [w; d; h; mi] ->
            existsb sets_uptime post = false ->
            uptime_seconds 0 w d h mi s = Ok u))
  /\ (forall (D : Type) (H : ConnectHandler D) (self self' : ArubaFDriver D)
             (facts : Facts.t),
        get_facts self = (Ok facts, self') ->
        exists v m o : string,
          show_version_sanitizer
            (join_lines
               (non_empty_lines (fst (send_command "show version" (device self))))) =
          Ok (v, m, o, Facts.uptime facts)).
Proof.
  split; [|intros D H self self' facts; apply get_facts_inv].
  intros data v m o u Hrun.
  apply version_scan_inv in Hrun as (st & Hloop & _ & _ & _ & ->).
  split; [|split; [|split]].
  - intros Hquiet.
    apply version_loop_inv in Hloop as (_ & _ & Hup & _). now apply Hup.
  - intros pre post l w d h mi s Hlines Hc Hrec Hpost.
    rewrite Hlines in Hloop.
    apply for_each_split in Hloop as (st1 & st2 & Hpre & Hline & Hrest).
    apply version_loop_inv in Hpre as (Hy & _).
    apply (version_body_five _ _ _ _ _ _ _ _ Hc Hrec) in Hline as (Hup & _).
    apply version_loop_inv in Hrest as (_ & _ & Hkeep & _).
    now rewrite (Hkeep Hpost), <- Hup, Hy.
  - intros pre post l w d h mi Hlines Hc Hrec Hpost Hpre0.
    rewrite Hlines in Hloop.
    apply for_each_split in Hloop as (st1 & st2 & Hpre & Hline & Hrest).
    apply version_loop_inv in Hpre as (Hy & _ & _ & Hsec & _).
    apply (version_body_four _ _ _ _ _ _ _ Hc Hrec) in Hline as (Hup & _).
    apply version_loop_inv in Hrest as (_ & _ & Hkeep & _).
    now rewrite (Hkeep Hpost), <- Hup, Hy, (Hsec Hpre0).
  - intros pre mid post l5 l w5 d5 h5 m5 s w d h mi Hlines Hc5 Hrec5 Hmid Hc Hrec Hpost.
    rewrite Hlines in Hloop.
    apply for_each_split in Hloop as (st1 & st2 & Hpre & Hline5 & Hrest).
    apply for_each_split in Hrest as (st3 & st4 & Hmid' & Hline & Hrest).
    apply version_loop_inv in Hpre as (Hy1 & _).
    pose proof (version_body_inv _ _ _ Hline5) as (Hy2 & _).
    apply (version_body_five _ _ _ _ _ _ _ _ Hc5 Hrec5) in Hline5 as (_ & Hs2).
    apply version_loop_inv in Hmid' as (Hy3 & _ & _ & Hsec3 & _).
    apply (version_body_four _ _ _ _ _ _ _ Hc Hrec) in Hline as (Hup & _).
    apply version_loop_inv in Hrest as (_ & _ & Hkeep & _).
    now rewrite (Hkeep Hpost), <- Hup, Hy3, Hy2, Hy1, (Hsec3 Hmid), Hs2.
Qed.

Lemma uptime_of_version_scan_witness :
  let data := Py.text [ "AP uptime is 1 week 2 days 3 hours 4 minutes 5 seconds";
                        "MODEL: 505, Version 8.6";
                        "AP uptime is 0 days 3 hours 15 minutes 0 seconds" ] in
  show_version_sanitizer data =
  Ok ("Hewlett Packard", "MODEL: 505", " Version 8.6", PFloat 313205)
  /\ uptime_seconds 0 0 3 15 0 5 = Ok (PFloat 313205)
  /\ exists v m o : string,
       show_version_sanitizer
         (join_lines
            (non_empty_lines
               (fst (send_command "show version"
                       (Scripted.always "AP uptime is 1 0 0 0 0"))))) =
       Ok (v, m, o, PFloat 604800).
Proof.
  intros data. split; [reflexivity|]. split.
  - destruct (proj1 uptime_of_version_scan data _ _ _ _ eq_refl) as (_ & _ & _ & Hcarry).
    apply (Hcarry [] ["MODEL: 505, Version 8.6"] []
             "AP uptime is 1 week 2 days 3 hours 4 minutes 5 seconds"
             "AP uptime is 0 days 3 hours 15 minutes 0 seconds"
             1 2 3 4 5 0 3 15 0)%Z; reflexivity.
  - apply (proj2 uptime_of_version_scan Scripted.device _
             (mkDriver "ap" (Scripted.always "AP uptime is 1 0 0 0 0") None)
             (snd (get_facts (mkDriver "ap" (Scripted.always "AP uptime is 1 0 0 0 0") None)))
             (Facts.mk "" "" "Hewlett Packard" "" "" "" (PFloat 604800))).
    reflexivity.
Defined.

(** C2, as stated, fails: an uptime that no line sets is the empty string,
    which is not the number 0; and a four-token line after a five-token one
    keeps the seconds of the latter instead of 0. *)
Lemma uptime_unset_is_not_zero :
  show_version_sanitizer (Py.text ["AP uptime is 1 2 3"]) =
  Ok ("Hewlett Packard", "", "", PStr "")
  /\ PStr "" <> PFloat 0
  /\ show_version_sanitizer (Py.text ["AP uptime is 0 0 0 0 7"; "AP uptime is 0 0 0 1"]) =
     Ok ("Hewlett Packard", "", "", PFloat 67)
  /\ uptime_seconds 0 0 0 0 1 0 <> Ok (PFloat 67).
Proof. split; [reflexivity | split; [discriminate | split; [reflexivity | discriminate]]]. Qed.

(** ** The neighbor scan *)

Lemma third_token_cases (line : string) :
  Py.index (Py.split_ws line) 2 =
  if (3 <=? length (Py.split_ws line))%nat then Ok (third_token line)
  else Raise IndexError.
Proof. apply index_cases. Qed.

Lemma lldp_next_empty (st : Lldp.locals) : lldp_next st "" = st.
Proof. now destruct st. Qed.

Lemma lldp_body_inv (st : Lldp.locals) (line : string) (st' : Lldp.locals) :
  lldp_body st line = Ok st' -> st' = lldp_next st line.
Proof.
  unfold lldp_body. destruct (Py.truthy line) eqn:Hline.
  - unfold system_name_rule, interface_description_rule, lldp_next.
    rewrite third_token_cases. destruct st as [n p v].
    cbn [Lldp.system_name Lldp.interface_description Lldp.vendor].
    destruct (Py.contains "System name:" line),
      (Py.contains "Interface description:" line),
      (3 <=? length (Py.split_ws line))%nat;
      cbn -[vendor_rule third_token Py.replace];
      try discriminate; now intros [= <-].
  - apply truthy_false in Hline as ->. intros [= <-].
    now rewrite lldp_next_empty.
Qed.

Lemma lldp_body_ok (st : Lldp.locals) (line : string) :
  lldp_well_formed line = true -> lldp_body st line = Ok (lldp_next st line).
Proof.
  unfold lldp_well_formed, lldp_body. destruct (Py.truthy line) eqn:Hline.
  - unfold system_name_rule, interface_description_rule, lldp_next.
    rewrite third_token_cases. destruct st as [n p v].
    cbn [Lldp.system_name Lldp.interface_description Lldp.vendor].
    destruct (Py.contains "System name:" line),
      (Py.contains "Interface description:" line),
      (3 <=? length (Py.split_ws line))%nat;
      cbn -[vendor_rule third_token Py.replace];
      try discriminate; reflexivity.
  - apply truthy_false in Hline as ->. now rewrite lldp_next_empty.
Qed.

Lemma vendor_rule_keeps (st : Lldp.locals) (line : string) :
  Lldp.system_name (vendor_rule st line) = Lldp.system_name st
  /\ Lldp.interface_description (vendor_rule st line) = Lldp.interface_description st.
Proof.
  unfold vendor_rule.
  destruct (Py.startswith "HP" line); [|tauto].
  destruct (_ && _); simpl; tauto.
Qed.

Lemma lldp_next_fields (st : Lldp.locals) (l : string) :
  Lldp.system_name (lldp_next st l) =
  (if Py.contains "System name:" l then third_token l else Lldp.system_name st)
  /\ Lldp.interface_description (lldp_next st l) =
     (if Py.contains "Interface description:" l
      then Py.replace "," "" (third_token l) else Lldp.interface_description st).
Proof. unfold lldp_next. apply vendor_rule_keeps. Qed.

(** Each of the two fields is the one of the last line that matches. *)
Lemma fold_lldp_last (ls : list string) (st : Lldp.locals) :
  Lldp.system_name (fold_left lldp_next ls st) =
  match last_match (Py.contains "System name:") ls with
  | Some l => third_token l
  | None => Lldp.system_name st
  end
  /\ Lldp.interface_description (fold_left lldp_next ls st) =
     match last_match (Py.contains "Interface description:") ls with
     | Some l => Py.replace "," "" (third_token l)
     | None => Lldp.interface_description st
     end.
Proof.
  revert st. induction ls as [|l ls IH]; intros st; [split; reflexivity|].
  cbn [fold_left last_match].
  destruct (IH (lldp_next st l)) as [Hn Hp]. rewrite Hn, Hp.
  destruct (lldp_next_fields st l) as [-> ->].
  split.
  - destruct (last_match (Py.contains "System name:") ls); [reflexivity|].
    now destruct (Py.contains "System name:" l).
  - destruct (last_match (Py.contains "Interface description:") ls); [reflexivity|].
    now destruct (Py.contains "Interface description:" l).
Qed.

Lemma lldp_scan_ok {D : Type} `{ConnectHandler D} (self : ArubaFDriver D) :
  let lines :=
    map Py.strip
      (Py.splitlines
         (fst (send_command "show ap debug lldp neighbor interface eth0" (device self)))) in
  forallb lldp_well_formed lines = true ->
  fst (get_lldp_neighbors self) =
  Ok {[ "eth0" :=
          [ Neighbor.mk
              match last_match (Py.contains "System name:") lines with
              | Some l => third_token l
              | None => ""
              end
              match last_match (Py.contains "Interface description:") lines with
              | Some l => Py.replace "," "" (third_token l)
              | None => ""
              end ] ]}.
Proof.
  intros lines Hwf. subst lines. unfold get_lldp_neighbors.
  destruct (send_command _ (device self)) as [output dev1]. cbn [fst] in *.
  rewrite (for_each_fold _ lldp_next lldp_well_formed _ _
             (fun st x => lldp_body_ok st x) Hwf).
  rewrite bind_Ok, insert_empty.
  now destruct (fold_lldp_last (map Py.strip (Py.splitlines output)) Lldp.init)
    as [-> ->].
Qed.

(** C9, as amended. For every dump in which each line that contains
    [System name:] or [Interface description:] has at least three tokens,
    [get_lldp_neighbors] returns a dictionary with the single key [eth0]
    and under it a list of one record, however many neighbors the dump
    lists: its host name is the third token of the last line that contains
    [System name:], its port is the third token of the last line that
    contains [Interface description:] with every comma removed, and a field
    whose line is absent is the empty string.  The lines are those of the
    dump with the surrounding white space removed. *)
Theorem lldp_single_record_last_match :
  forall (D : Type) (H : ConnectHandler D) (self : ArubaFDriver D),
    let lines :=
      map Py.strip
        (Py.splitlines
           (fst (send_command "show ap debug lldp neighbor interface eth0"
                   (device self)))) in
    forallb lldp_well_formed lines = true ->
    fst (get_lldp_neighbors self) =
    Ok {[ "eth0" :=
            [ Neighbor.mk
                match last_match (Py.contains "System name:") lines with
                | Some l => third_token l
                | None => ""
                end
                match last_match (Py.contains "Interface description:") lines with
                | Some l => Py.replace "," "" (third_token l)
                | None => ""
                end ] ]}.
Proof.
  intros D H self lines Hwf. subst lines. unfold get_lldp_neighbors.
  destruct (send_command _ (device self)) as [dump dev1]. cbn [fst] in *.
  rewrite (for_each_fold lldp_body lldp_next lldp_well_formed _ Lldp.init
             lldp_body_ok Hwf).
  rewrite bind_Ok, insert_empty.
  destruct (fold_lldp_last (map Py.strip (Py.splitlines dump)) Lldp.init) as [Hname Hport].
  now rewrite Hname, Hport.
Qed.

Lemma lldp_single_record_last_match_witness :
  fst (get_lldp_neighbors
         (mkDriver "ap"
            (Scripted.always
               (Py.text [ "  System name: core-sw1";
                          "  Interface description: 1/1/24, uplink";
                          "";
                          "  System name: core-sw2";
                          "  Interface description: 2/1/7," ]))
            None)) =
  Ok {[ "eth0" := [ Neighbor.mk "core-sw2" "2/1/7" ] ]}.
Proof.
  etransitivity.
  - apply (lldp_single_record_last_match Scripted.device _
             (mkDriver "ap"
                (Scripted.always
                   (Py.text [ "  System name: core-sw1";
                              "  Interface description: 1/1/24, uplink";
                              "";
                              "  System name: core-sw2";
                              "  Interface description: 2/1/7," ]))
                None)).
    reflexivity.
  - reflexivity.
Defined.

(** C9, as stated, fails: a matching line with fewer than three tokens makes
    the method raise instead of producing a record, and the port loses all
    its commas, not only a trailing one. *)
Lemma lldp_short_line_raises_and_all_commas_go :
  fst (get_lldp_neighbors
         (mkDriver "ap" (Scripted.always (Py.text ["System name:"])) None)) =
  Raise IndexError
  /\ fst (get_lldp_neighbors
            (mkDriver "ap"
               (Scripted.always (Py.text ["Interface description: 1/1,2,"])) None)) =
     Ok {[ "eth0" := [ Neighbor.mk "" "1/12" ] ]}
  /\ "1/12" <> strip_trailing_comma "1/1,2,".
Proof. split; [reflexivity | split; [reflexivity | discriminate]]. Qed.

(** ** The extractors on well-formed and on malformed lines *)

(** C1, as amended. Each extractor is a function of its input text and ends
    on every text.  It returns, without raising, on every text whose
    matching lines are well formed: for the summary scan, a line that
    contains [Name], [DNSDomain] or [Serial Number] has a colon; for the
    version scan, a line that contains [MODEL] has exactly one comma and a
    line that contains [AP uptime is] has at most five numeric tokens, each
    of at most 300 decimal digits (so that [int] reads each and the sum has
    a float); for the neighbor scan, a line that contains
    [System name:] or [Interface description:] has at least three tokens.
    What it then returns has the default value (the empty string) in every
    field whose source line is absent, and the vendor is always
    [Hewlett Packard]. *)
Theorem extractors_return_on_well_formed_lines :
  (forall data : string,
      forallb summary_well_formed (data_lines data) = true ->
      exists h f s : string,
        show_summary_sanitizer data = Ok (h, f, s)
        /\ (existsb (Py.contains "Name") (data_lines data) = false -> h = "")
        /\ (existsb (Py.contains "DNSDomain") (data_lines data) = false -> f = "")
        /\ (existsb (Py.contains "Serial Number") (data_lines data) = false -> s = ""))
  /\ (forall data : string,
        forallb version_well_formed (data_lines data) = true ->
        exists (m o : string) (u : pyval),
          show_version_sanitizer data = Ok ("Hewlett Packard", m, o, u)
          /\ (existsb (Py.contains "MODEL") (data_lines data) = false ->
              m = "" /\ o = "")
          /\ (existsb (Py.contains "AP uptime is") (data_lines data) = false ->
              u = PStr ""))
  /\ (forall (D : Type) (H : ConnectHandler D) (self : ArubaFDriver D),
        let lines :=
          map Py.strip
            (Py.splitlines
               (fst (send_command "show ap debug lldp neighbor interface eth0"
                       (device self)))) in
        forallb lldp_well_formed lines = true ->
        exists h p : string,
          fst (get_lldp_neighbors self) = Ok {[ "eth0" := [Neighbor.mk h p] ]}
          /\ (existsb (Py.contains "System name:") lines = false -> h = "")
          /\ (existsb (Py.contains "Interface description:") lines = false -> p = "")).
Proof.
  split; [exact summary_total_on_well_formed|].
  split; [exact version_total_on_well_formed|].
  intros D H self lines Hwf.
  exists (match last_match (Py.contains "System name:") lines with
          | Some l => third_token l
          | None => ""
          end),
         (match last_match (Py.contains "Interface description:") lines with
          | Some l => Py.replace "," "" (third_token l)
          | None => ""
          end).
  split; [apply (lldp_scan_ok self Hwf)|].
  split; intros Hno; now rewrite (last_match_none _ _ Hno).
Qed.

Lemma extractors_return_on_well_formed_lines_witness :
  (exists h f s : string,
      show_summary_sanitizer (Py.text ["Name:AP1"; "Uptime 3 days"]) = Ok (h, f, s)
      /\ f = "" /\ s = "")
  /\ (exists (m o : string) (u : pyval),
        show_version_sanitizer (Py.text ["MODEL: 505, Version 8.6"]) =
        Ok ("Hewlett Packard", m, o, u)
        /\ u = PStr "")
  /\ (exists h p : string,
        fst (get_lldp_neighbors
               (mkDriver "ap" (Scripted.always (Py.text ["System name: sw1"])) None)) =
        Ok {[ "eth0" := [Neighbor.mk h p] ]}
        /\ p = "").
Proof.
  destruct extractors_return_on_well_formed_lines as (Hsummary & Hversion & Hlldp).
  split; [|split].
  - destruct (Hsummary (Py.text ["Name:AP1"; "Uptime 3 days"]) eq_refl)
      as (h & f & s & Hrun & _ & Hf & Hs).
    exists h, f, s. split; [exact Hrun|]. split; [apply Hf | apply Hs]; reflexivity.
  - destruct (Hversion (Py.text ["MODEL: 505, Version 8.6"]) eq_refl)
      as (m & o & u & Hrun & _ & Hu).
    exists m, o, u. split; [exact Hrun|]. apply Hu. reflexivity.
  - destruct (Hlldp Scripted.device Scripted.connect_handler
                (mkDriver "ap" (Scripted.always (Py.text ["System name: sw1"])) None)
                eq_refl)
      as (h & p & Hrun & _ & Hp).
    exists h, p. split; [exact Hrun|]. apply Hp. reflexivity.
Defined.

(** C1, as stated, fails: each extractor raises on some text, as the
    summary scan on the line [Name], which has no colon, the version scan on
    the line [MODEL], which has no comma, and the neighbor scan on the line
    [System name:], which has two tokens. *)
Lemma extractors_raise_on_malformed_lines :
  show_summary_sanitizer "Name" = Raise IndexError
  /\ show_version_sanitizer "MODEL" = Raise ValueError
  /\ fst (get_lldp_neighbors (mkDriver "ap" (Scripted.always "System name:") None)) =
     Raise IndexError.
Proof. split; [reflexivity | split; reflexivity]. Qed.

(** ** The blank-line filter *)

Lemma append_cons (x : ascii) (a b : string) : String x a +:+ b = String x (a +:+ b).
Proof. reflexivity. Qed.

Lemma append_assoc (a b c : string) : (a +:+ b) +:+ c = a +:+ (b +:+ c).
Proof. induction a as [|x a IH]; [reflexivity|]. now rewrite !append_cons, IH. Qed.

Lemma append_empty_r (a : string) : a +:+ "" = a.
Proof. induction a as [|x a IH]; [reflexivity|]. now rewrite append_cons, IH. Qed.

Lemma fold_join_lines (ls : list string) (acc : string) :
  fold_left (fun acc line => acc +:+ line +:+ String Py.LF "") ls acc =
  acc +:+ joined ls.
Proof.
  revert acc. induction ls as [|l ls IH]; intros acc; cbn [fold_left joined].
  - now rewrite append_empty_r.
  - rewrite IH. apply append_assoc.
Qed.

Lemma join_lines_joined (ls : list string) : join_lines ls = joined ls.
Proof. unfold join_lines. now rewrite fold_join_lines. Qed.

Lemma split_line (l rest : string) :
  count_char Py.LF l = 0 ->
  Py.split Py.LF ((l +:+ String Py.LF "") +:+ rest) = l :: Py.split Py.LF rest.
Proof.
  induction l as [|c l IH]; [reflexivity|].
  simpl. destruct (Ascii.eqb c Py.LF); [discriminate|].
  intros Hc. now rewrite (IH Hc).
Qed.

Lemma split_parts_no_sep (sep : ascii) (s : string) :
  Forall (fun l => count_char sep l = 0) (Py.split sep s).
Proof.
  induction s as [|c s IH]; simpl.
  - now constructor.
  - destruct (Ascii.eqb c sep) eqn:Hc.
    + now constructor.
    + destruct (Py.split sep s) as [|x xs]; [repeat constructor; simpl; now rewrite Hc|].
      inversion IH as [|? ? Hx Hxs]; subst.
      constructor; [|exact Hxs]. simpl. now rewrite Hc.
Qed.

Lemma split_joined (ls : list string) :
  Forall (fun l => count_char Py.LF l = 0) ls ->
  Py.split Py.LF (joined ls) = ls ++ [""].
Proof.
  induction 1 as [|l ls Hl Hls IH]; [reflexivity|].
  simpl. now rewrite (split_line _ _ Hl), IH.
Qed.

Lemma filter_all {A : Type} (p : A -> bool) (xs : list A) :
  forallb p xs = true -> List.filter p xs = xs.
Proof.
  induction xs as [|x xs IH]; [reflexivity|].
  simpl. intros Hall. apply andb_prop in Hall as [-> Hxs]. now rewrite (IH Hxs).
Qed.

Lemma Forall_filter_keeps {A : Type} (P : A -> Prop) (p : A -> bool) (xs : list A) :
  Forall P xs -> Forall P (List.filter p xs).
Proof.
  induction 1 as [|x xs Hx Hxs IH]; simpl; [constructor|].
  destruct (p x); [now constructor | exact IH].
Qed.

Lemma non_empty_lines_joined (ls : list string) :
  Forall (fun l => count_char Py.LF l = 0) ls ->
  forallb (fun line => negb (String.eqb (Py.strip line) "")) ls = true ->
  non_empty_lines (joined ls) = ls.
Proof.
  intros Hlf Hnb. unfold non_empty_lines.
  rewrite (split_joined _ Hlf), List.filter_app, (filter_all _ _ Hnb).
  simpl. apply app_nil_r.
Qed.

Lemma non_empty_lines_facts (output : string) :
  Forall (fun l => count_char Py.LF l = 0) (non_empty_lines output)
  /\ forallb (fun line => negb (String.eqb (Py.strip line) ""))
        (non_empty_lines output) = true.
Proof.
  split; [apply Forall_filter_keeps, split_parts_no_sep | apply forallb_filter].
Qed.

Lemma non_empty_lines_of_filtered (output : string) :
  non_empty_lines (without_blank_lines output) = non_empty_lines output.
Proof.
  destruct (non_empty_lines_facts output) as [Hlf Hnb].
  unfold without_blank_lines. rewrite join_lines_joined.
  now apply non_empty_lines_joined.
Qed.

Lemma without_blank_lines_twice (output : string) :
  without_blank_lines (without_blank_lines output) = without_blank_lines output.
Proof.
  unfold without_blank_lines at 1. now rewrite non_empty_lines_of_filtered.
Qed.

(** X1. The blank-line filter that [get_facts] and [get_config] apply keeps
    its own results: filtering a filtered output changes nothing, and the
    lines kept the second time are the lines kept the first time, none of
    which is blank or holds a line feed. *)
Theorem without_blank_lines_idempotent :
  forall output : string,
    without_blank_lines (without_blank_lines output) = without_blank_lines output
    /\ non_empty_lines (without_blank_lines output) = non_empty_lines output
    /\ Forall (fun l => count_char Py.LF l = 0 /\ Py.strip l <> "")
              (non_empty_lines output).
Proof.
  intros output.
  split; [apply without_blank_lines_twice|].
  split; [apply non_empty_lines_of_filtered|].
  destruct (non_empty_lines_facts output) as [Hlf Hnb].
  rewrite forallb_forall in Hnb. rewrite List.Forall_forall in *.
  intros l Hin. split; [now apply Hlf|].
  specialize (Hnb l Hin). apply negb_true_iff, String.eqb_neq in Hnb. exact Hnb.
Qed.

(** ** [get_config] *)

Lemma lower_char_idempotent (c : ascii) :
  Py.lower_char (Py.lower_char c) = Py.lower_char c.
Proof. destruct c as [[] [] [] [] [] [] [] []]; reflexivity. Qed.

Lemma lower_idempotent (s : string) : Py.lower (Py.lower s) = Py.lower s.
Proof.
  induction s as [|c s IH]; [reflexivity|].
  simpl. now rewrite lower_char_idempotent, IH.
Qed.

(** X2. Whatever is asked for, the dictionary of [get_config] has exactly
    the keys [running], [startup] and [candidate], the last two always with
    their placeholder texts; [full] and [sanitized] are not read, and
    [retrieve] only through its lower-case form. *)
Theorem get_config_shape :
  forall (D : Type) (H : ConnectHandler D) (self : ArubaFDriver D)
         (retrieve : string) (full sanitized : bool),
    let configs := fst (get_config self retrieve full sanitized) in
    dom configs = ({["running"; "startup"; "candidate"]} : gset string)
    /\ configs !! "startup" = Some "No Startup"
    /\ configs !! "candidate" = Some "No Candidate"
    /\ get_config self retrieve full sanitized =
       get_config self (Py.lower retrieve) false false.
Proof.
  intros D H self retrieve full sanitized configs. subst configs.
  unfold get_config. rewrite lower_idempotent.
  destruct (_ || _); [|repeat split; set_solver].
  destruct (send_command _ (device self)) as [output dev1].
  destruct (Py.truthy output); cbn [fst]; repeat split;
    rewrite ?dom_insert_L, ?dom_empty_L; set_solver.
Qed.

(** X3. When [retrieve] is [running] or [all] in any letter case,
    [get_config] sends [show running-config] once and returns under
    [running] the output without its blank lines; for any other [retrieve]
    it sends nothing, leaves the driver as it was and returns the empty
    string.  In both cases the filter leaves the text returned as it is
    when applied to it again. *)
Theorem get_config_running :
  forall (D : Type) (H : ConnectHandler D) (self : ArubaFDriver D)
         (retrieve : string) (full sanitized : bool),
    let sent := send_command "show running-config" (device self) in
    let asked := String.eqb (Py.lower retrieve) "running"
                 || String.eqb (Py.lower retrieve) "all" in
    let running := if asked then without_blank_lines (fst sent) else "" in
    fst (get_config self retrieve full sanitized) !! "running" = Some running
    /\ snd (get_config self retrieve full sanitized) =
       (if asked then mkDriver (hostname self) (snd sent) (destination self) else self)
    /\ without_blank_lines running = running.
Proof.
  intros D H self retrieve full sanitized sent asked running.
  subst sent asked running. unfold get_config.
  destruct (_ || _); [|repeat split].
  destruct (send_command _ (device self)) as [output dev1]. cbn [fst snd].
  split; [|split; [now destruct (Py.truthy output)|apply without_blank_lines_twice]].
  destruct (Py.truthy output) eqn:Hout; cbn [fst].
  - rewrite lookup_insert_eq. cbn [default]. now rewrite lookup_insert_eq.
  - now apply truthy_false in Hout as ->.
Qed.

(** ** [__init__] and [open] *)

Lemma fold_optional_args (optional_args acc : gmap string pyarg)
    (kvs : list (string * pyarg)) (k : string) :
  fold_left
    (fun acc kv =>
       match optional_args !! fst kv with
       | Some x => <[fst kv := x]> acc
       | None => acc
       end) kvs acc !! k =
  if decide (k ∈ map fst kvs)
  then match optional_args !! k with
       | Some x => Some x
       | None => acc !! k
       end
  else acc !! k.
Proof.
  revert acc. induction kvs as [|[k' v] kvs IH]; intros acc.
  - reflexivity.
  - cbn [fold_left map fst]. rewrite IH.
    destruct (decide (k = k')) as [->|Hne].
    + rewrite (decide_True (P := k' ∈ k' :: map fst kvs)) by apply list_elem_of_here.
      destruct (optional_args !! k') as [x|] eqn:Hk.
      * now destruct (decide (k' ∈ map fst kvs)); rewrite ?lookup_insert_eq.
      * now destruct (decide (k' ∈ map fst kvs)).
    + assert (Hsame : (if optional_args !! k' is Some x then <[k':=x]> acc else acc) !! k
                      = acc !! k).
      { destruct (optional_args !! k'); [now apply lookup_insert_ne | reflexivity]. }
      rewrite Hsame.
      destruct (decide (k ∈ map fst kvs)) as [Hin|Hout].
      * rewrite decide_True; [reflexivity|]. now apply list_elem_of_further.
      * rewrite decide_False; [reflexivity|].
        rewrite elem_of_cons. intros [?|?]; contradiction.
Qed.

Lemma build_lookup (optional_args : gmap string pyarg) (k : string) :
  build_netmiko_optional_args optional_args !! k =
  if decide (k ∈ netmiko_keys) then optional_args !! k else None.
Proof.
  unfold build_netmiko_optional_args, netmiko_keys.
  rewrite fold_optional_args, lookup_empty.
  destruct (decide (k ∈ map fst netmiko_argument_map)); [|reflexivity].
  now destruct (optional_args !! k).
Qed.

(** X4. The options [__init__] keeps for the transport library are those
    of [optional_args] whose name is one of the thirteen of
    [netmiko_argument_map], with the values given: an option of another name
    (such as [transport]) is never passed on, and the defaults written in
    the map are never used. *)
Theorem netmiko_optional_args_are_the_known_ones :
  forall (optional_args : gmap string pyarg) (k : string),
    (k ∈ netmiko_keys ->
     build_netmiko_optional_args optional_args !! k = optional_args !! k)
    /\ (k ∉ netmiko_keys -> build_netmiko_optional_args optional_args !! k = None)
    /\ build_netmiko_optional_args optional_args !! "transport" = None.
Proof.
  intros optional_args k. rewrite !build_lookup.
  split; [|split].
  - intros Hin. now rewrite decide_True.
  - intros Hout. now rewrite decide_False.
  - rewrite decide_False; [reflexivity|].
    rewrite list_elem_of_In. vm_compute. intuition discriminate.
Qed.

Lemma netmiko_optional_args_are_the_known_ones_witness :
  let optional_args : gmap string pyarg :=
    <["transport" := AStr "telnet"]> (<["secret" := AStr "s3"]> ∅) in
  build_netmiko_optional_args optional_args !! "secret" = Some (AStr "s3")
  /\ build_netmiko_optional_args optional_args !! "banner" = None.
Proof.
  intros optional_args. split.
  - etransitivity.
    + apply (proj1 (netmiko_optional_args_are_the_known_ones optional_args "secret")).
      rewrite list_elem_of_In. vm_compute. tauto.
    + reflexivity.
  - apply (proj1 (proj2 (netmiko_optional_args_are_the_known_ones optional_args "banner"))).
    rewrite list_elem_of_In. vm_compute. intuition discriminate.
Defined.

Lemma init_cases (hostname username password : string) (timeout : Z)
    (optional_args : gmap string pyarg) (transport : pyarg) :
  transport = default (AStr "ssh") (optional_args !! "transport") ->
  init hostname username password timeout (Some optional_args) =
  if pyarg_eqb transport (AStr "ssh") || pyarg_eqb transport (AStr "telnet")
  then Built (Attrs.mk hostname username password timeout transport
                (build_netmiko_optional_args optional_args)
                (default (if pyarg_eqb transport (AStr "ssh") then AInt 22 else AInt 23)
                         (optional_args !! "port"))
                false ["ArubaOS"])
  else KeyError transport.
Proof.
  intros ->. unfold init.
  change (default ∅ (Some optional_args)) with optional_args.
  destruct (default (AStr "ssh") (optional_args !! "transport")) as [|b|n|t];
    try reflexivity.
  cbn [pyarg_eqb].
  destruct (String.eqb_spec t "ssh") as [->|Hssh]; [reflexivity|].
  destruct (String.eqb_spec t "telnet") as [->|Htelnet]; [reflexivity|].
  unfold default_port.
  now rewrite lookup_insert_ne, lookup_insert_ne, lookup_empty by congruence.
Qed.

Lemma pyarg_eqb_eq (a b : pyarg) : pyarg_eqb a b = true <-> a = b.
Proof.
  destruct a as [|x|x|x], b as [|y|y|y]; simpl; try (split; [discriminate|congruence]).
  - tauto.
  - rewrite Bool.eqb_true_iff. split; congruence.
  - rewrite Z.eqb_eq. split; congruence.
  - rewrite String.eqb_eq. split; congruence.
Qed.

(** X5. [__init__] raises [KeyError] exactly when the transport (the
    option [transport], [ssh] when absent) is neither [ssh] nor [telnet],
    whether or not a port is given; otherwise the port is the option [port]
    when given, and else 22 for [ssh] and 23 for [telnet].  No optional
    arguments and an empty dictionary give the same object. *)
Theorem init_port_and_transport :
  forall (hostname username password : string) (timeout : Z)
         (optional_args : gmap string pyarg),
    let transport := default (AStr "ssh") (optional_args !! "transport") in
    let outcome := init hostname username password timeout (Some optional_args) in
    (outcome = KeyError transport
     <-> transport <> AStr "ssh" /\ transport <> AStr "telnet")
    /\ (forall self, outcome = Built self ->
          Attrs.transport self = transport
          /\ Attrs.port self =
             match optional_args !! "port" with
             | Some p => p
             | None => if pyarg_eqb transport (AStr "ssh") then AInt 22 else AInt 23
             end)
    /\ init hostname username password timeout None =
       init hostname username password timeout (Some ∅).
Proof.
  intros hostname username password timeout optional_args transport outcome.
  subst outcome.
  rewrite (init_cases _ _ _ _ _ transport eq_refl).
  generalize dependent transport. intros transport.
  split; [|split; [|reflexivity]].
  - destruct (pyarg_eqb transport (AStr "ssh")) eqn:Hssh.
    { apply pyarg_eqb_eq in Hssh. split; [discriminate | tauto]. }
    destruct (pyarg_eqb transport (AStr "telnet")) eqn:Htelnet.
    { apply pyarg_eqb_eq in Htelnet. split; [discriminate | tauto]. }
    split; [|reflexivity]. intros _.
    split; intros Heq; apply pyarg_eqb_eq in Heq; congruence.
  - intros self. destruct (_ || _); [|discriminate].
    intros [= <-]. split; [reflexivity|].
    cbn [Attrs.port]. now destruct (optional_args !! "port").
Qed.

Lemma init_port_and_transport_witness :
  let optional_args : gmap string pyarg :=
    <["transport" := AStr "telnet"]> (<["secret" := AStr "s3"]> ∅) in
  exists self,
    init "ap1" "admin" "pw" 60 (Some optional_args) = Built self
    /\ Attrs.transport self = AStr "telnet"
    /\ Attrs.port self = AInt 23.
Proof.
  intros optional_args.
  destruct (init "ap1" "admin" "pw" 60 (Some optional_args)) as [self|key] eqn:Hinit;
    [|discriminate].
  exists self. split; [reflexivity|].
  exact (proj1 (proj2 (init_port_and_transport "ap1" "admin" "pw" 60 optional_args))
           self Hinit).
Defined.

(** X6. After [__init__], [open] calls the transport library with the
    device type [aruba_os] whatever the transport, with the host, user and
    password given, and with the known options of [optional_args] only: the
    port it passes is the one the caller gave, so the default port computed
    by [__init__] for [ssh] or [telnet] is never passed. *)
Theorem open_after_init :
  forall (D : Type) (H : Netmiko D) (hostname username password : string)
         (timeout : Z) (optional_args : gmap string pyarg) (self : Attrs.t),
    init hostname username password timeout (Some optional_args) = Built self ->
    open self =
    ConnectHandler_ "aruba_os" hostname username password
      (build_netmiko_optional_args optional_args)
    /\ build_netmiko_optional_args optional_args !! "port" = optional_args !! "port".
Proof.
  intros D H hostname username password timeout optional_args self.
  rewrite (init_cases _ _ _ _ _ _ eq_refl).
  destruct (_ || _); [|discriminate].
  intros [= <-]. unfold open.
  cbn [Attrs.transport Attrs.hostname Attrs.username Attrs.password
       Attrs.netmiko_optional_args].
  split; [now destruct (pyarg_eqb _ _)|].
  rewrite build_lookup, decide_True; [reflexivity|].
  apply list_elem_of_here.
Qed.

Lemma open_after_init_witness :
  let optional_args : gmap string pyarg :=
    <["transport" := AStr "telnet"]> (<["secret" := AStr "s3"]> ∅) in
  exists self,
    init "ap1" "admin" "pw" 60 (Some optional_args) = Built self
    /\ open self = Ok (Recorded.mkCall "aruba_os" "ap1" "admin" "pw" {["secret" := AStr "s3"]}).
Proof.
  intros optional_args.
  destruct (init "ap1" "admin" "pw" 60 (Some optional_args)) as [self|key] eqn:Hinit;
    [|discriminate].
  exists self. split; [reflexivity|].
  etransitivity.
  - exact (proj1 (open_after_init Recorded.call Recorded.netmiko
                    "ap1" "admin" "pw" 60 optional_args self Hinit)).
  - reflexivity.
Defined.

(** ** [ssh_connector] and [send_single_cmd] *)

(** X7. [ssh_connector] returns [None] exactly when setting the host-key
    policy or connecting raised, whatever the exception: it then prints that
    it could not connect, closes the client as the call that raised left it,
    returns that closed client's state and raises nothing, and
    [send_single_cmd] on that result returns [None] as well.  An exception of
    [invoke_shell] is not caught. *)
Theorem ssh_connector_failure_is_none :
  forall (S C B : Type) (HS : SSHClient S C) (HC : Channel C B)
         (hostname username password : string) (key : bool) (timeout port : Z)
         (ssh : S) (events : list Event),
    let attempt := ssh_connector hostname username password key timeout port ssh events in
    let refused :=
      match set_missing_host_key_policy ssh with
      | (Raise _, _) => true
      | (Ok _, ssh1) =>
          match connect hostname port username password key timeout ssh1 with
          | (Raise _, _) => true
          | (Ok _, _) => false
          end
      end in
    (fst (fst attempt) = Ok None <-> refused = true)
    /\ (refused = true ->
        snd attempt = events ++ [Print ("Could not connect to " +:+ hostname)]
        /\ forall (cmd : string) (incoming out_going : Z),
             fst (fst (send_single_cmd (B := B) cmd None incoming out_going (snd attempt)))
             = Ok None)
    /\ (forall (e : Exn) (ssh1 : S),
          set_missing_host_key_policy ssh = (Raise e, ssh1) ->
          attempt =
          (Ok None, close ssh1, events ++ [Print ("Could not connect to " +:+ hostname)]))
    /\ (forall (e : Exn) (ssh1 ssh2 : S),
          set_missing_host_key_policy ssh = (Ok tt, ssh1) ->
          connect hostname port username password key timeout ssh1 = (Raise e, ssh2) ->
          attempt =
          (Ok None, close ssh2, events ++ [Print ("Could not connect to " +:+ hostname)]))
    /\ (forall (e : Exn) (ssh1 ssh2 ssh3 : S),
          set_missing_host_key_policy ssh = (Ok tt, ssh1) ->
          connect hostname port username password key timeout ssh1 = (Ok tt, ssh2) ->
          invoke_shell ssh2 = (Raise e, ssh3) ->
          fst (fst attempt) = Raise e).
Proof.
  intros S C B HS HC hostname username password key timeout port ssh events attempt refused.
  subst attempt refused. unfold ssh_connector.
  destruct (set_missing_host_key_policy ssh) as [[[]|e0] ssh1] eqn:Hpolicy.
  - destruct (connect hostname port username password key timeout ssh1)
      as [[[]|e1] ssh2] eqn:Hconnect.
    + destruct (invoke_shell ssh2) as [[channel|e2] ssh3] eqn:Hshell; cbn [fst snd];
        (split; [split; discriminate|]); (split; [discriminate|]);
        (split; [discriminate|]);
        (split; [intros e s1 s2 [= <-]; rewrite Hconnect; discriminate|]);
        intros e s1 s2 s3 [= <-]; rewrite Hconnect; intros [= <-];
        rewrite Hshell; [discriminate | now intros [= <- _]].
    + cbn [fst snd]. split; [tauto|]. split.
      { intros _. split; [reflexivity|]. intros cmd incoming out_going.
        unfold send_single_cmd. now destruct (Py.truthy cmd). }
      split; [discriminate|]. split.
      * intros e s1 s2 [= <-]. rewrite Hconnect. now intros [= _ <-].
      * intros e s1 s2 s3 [= <-]. rewrite Hconnect. discriminate.
  - cbn [fst snd]. split; [tauto|]. split.
    { intros _. split; [reflexivity|]. intros cmd incoming out_going.
      unfold send_single_cmd. now destruct (Py.truthy cmd). }
    split; [now intros e s1 [= _ <-]|]. split; discriminate.
Qed.

Lemma ssh_connector_failure_is_none_witness :
  let ssh := Recorded.mkClient ["10.0.0.9"] None false (Scripted.mkChannel [] []) in
  let attempt := ssh_connector "10.0.0.9" "admin" "pw" false 10 22 ssh [] in
  attempt = (Ok None, Recorded.mkClient ["10.0.0.9"] None true (Scripted.mkChannel [] []),
             [Print "Could not connect to 10.0.0.9"])
  /\ fst (fst (send_single_cmd (B := string) "show version"
                 (None : option Scripted.channel) 2 2 (snd attempt))) = Ok None.
Proof.
  intros ssh attempt. split.
  - etransitivity;
      [apply (proj1 (proj2 (proj2 (proj2 (ssh_connector_failure_is_none
                           Recorded.client Scripted.channel string _ _
                           "10.0.0.9" "admin" "pw" false 10 22 ssh []))))
               SocketError ssh ssh); reflexivity
      | reflexivity].
  - apply (proj1 (proj2 (ssh_connector_failure_is_none
                           Recorded.client Scripted.channel string _ _
                           "10.0.0.9" "admin" "pw" false 10 22 ssh []))).
    reflexivity.
Defined.

(** X8. In [send_single_cmd] the empty-command guard comes first and
    leaves the channel untouched, even an absent one.  When the banner read
    raises, or its bytes do not decode, the exception leaves the function
    with the channel as that read left it: the command is not written and
    nothing is printed or slept. *)
Theorem send_single_cmd_stops_at_the_banner :
  forall (C B : Type) (H : Channel C B) (cmd : string) (channel : option C)
         (incoming_sleep_time out_going_sleep_time : Z) (events : list Event),
    (cmd = "" ->
     send_single_cmd cmd channel incoming_sleep_time out_going_sleep_time events =
     (Ok None, channel, events ++ [Print ("Not command to send" +:+ String Py.LF "")]))
    /\ (forall (ch ch1 : C) (e : Exn),
          cmd <> "" -> channel = Some ch ->
          recv 99999 ch = (Raise e, ch1) ->
          send_single_cmd cmd channel incoming_sleep_time out_going_sleep_time events =
          (Raise e, Some ch1, events))
    /\ (forall (ch ch1 : C) (b : B) (e : Exn),
          cmd <> "" -> channel = Some ch ->
          recv 99999 ch = (Ok b, ch1) -> decode b = Raise e ->
          send_single_cmd cmd channel incoming_sleep_time out_going_sleep_time events =
          (Raise e, Some ch1, events)).
Proof.
  intros C B H cmd channel incoming out_going events.
  split; [now intros ->|]. split.
  - intros ch ch1 e Hcmd -> Hrecv. unfold send_single_cmd.
    destruct cmd as [|c cmd]; [congruence|]. cbn [Py.truthy negb].
    unfold exchange, mbind, io_bind, io_recv. cbn [fst snd]. now rewrite Hrecv.
  - intros ch ch1 b e Hcmd -> Hrecv Hdec. unfold send_single_cmd.
    destruct cmd as [|c cmd]; [congruence|]. cbn [Py.truthy negb].
    unfold exchange, mbind, io_bind, io_recv, io_lift. cbn [fst snd].
    now rewrite Hrecv, Hdec.
Qed.

Lemma send_single_cmd_stops_at_the_banner_witness :
  send_single_cmd (B := string) "show version" (Some (Scripted.mkChannel [] ["earlier"]))
    2 2 [] =
  (Raise SocketTimeout, Some (Scripted.mkChannel [] ["earlier"]), []).
Proof.
  apply (proj1 (proj2 (send_single_cmd_stops_at_the_banner
                         Scripted.channel string _ "show version"
                         (Some (Scripted.mkChannel [] ["earlier"])) 2 2 []))
           (Scripted.mkChannel [] ["earlier"]) (Scripted.mkChannel [] ["earlier"])
           SocketTimeout);
    first [discriminate | reflexivity].
Defined.

(** ** [get_ping], once more *)

Lemma ping_scan_keys (output : string) (responses : list string) (k : string) :
  k <> "error" -> ping_scan output ∅ responses !! k = None.
Proof.
  intros Hk. induction responses as [|i rest IH]; simpl; [apply lookup_empty|].
  destruct (Py.contains i output); [|exact IH].
  rewrite lookup_insert_ne by congruence. apply lookup_empty.
Qed.

(** X9. [get_ping] sends one command, [ping] and the host name of the
    driver, and records that host name as [destination].  Its local
    dictionary never holds any key but [error]; in particular it never
    holds [success], whatever the output. *)
Theorem get_ping_never_records_success :
  forall (D : Type) (H : ConnectHandler D) (self : ArubaFDriver D),
    let locals := get_ping_locals self in
    dom (fst (fst locals)) ⊆ ({["error"]} : gset string)
    /\ fst (fst locals) !! "success" = None
    /\ destination (snd locals) = Some (hostname self)
    /\ hostname (snd locals) = hostname self
    /\ device (snd locals) =
       snd (send_command ("ping " +:+ hostname self) (device self)).
Proof.
  intros D H self locals. subst locals. unfold get_ping_locals.
  destruct (send_command _ (device self)) as [output dev1]. cbn [fst snd].
  assert (Hkeys : forall k : string, k <> "error" ->
            (if Py.truthy output then ping_scan output ∅ bad_responses
             else if Py.truthy output && (10 <? String.length output)%nat
                  then <["success":="connected"]> ∅ else ∅) !! k = None).
  { intros k Hk. destruct (Py.truthy output); [now apply ping_scan_keys|].
    cbn [andb]. apply lookup_empty. }
  split; [|split; [now apply Hkeys | repeat split]].
  intros k Hk. apply elem_of_dom in Hk as [v Hv].
  apply elem_of_singleton. destruct (decide (k = "error")) as [->|Hne]; [reflexivity|].
  rewrite (Hkeys k Hne) in Hv. discriminate.
Qed.

(** ** When the scans raise *)

Lemma for_each_stops {S A : Type} (body : S -> A -> result S) (e : Exn)
    (ok : A -> bool) (xs : list A) (st : S) :
  (forall st y e', body st y = Raise e' -> e' = e) ->
  (forall st x, ok x = false -> body st x = Raise e) ->
  forallb ok xs = false ->
  for_each body st xs = Raise e.
Proof.
  intros Honly Hbad. revert st.
  induction xs as [|x xs IH]; intros st Hall; [discriminate|].
  cbn [forallb] in Hall. cbn [for_each].
  destruct (ok x) eqn:Hx; [|now rewrite (Hbad st x Hx)].
  destruct (body st x) as [st1|e'] eqn:Hbody; [now apply IH|].
  now rewrite (Honly _ _ _ Hbody).
Qed.

(** The version scan returns on the texts whose lines [version_lines_ok]
    accepts, and raises [ValueError] or [OverflowError] on the others. *)
Lemma version_scan_cases (data : string) :
  match show_version_sanitizer data with
  | Ok (v, _, _, _) =>
      version_lines_ok 0 (data_lines data) = true /\ v = "Hewlett Packard"
  | Raise e =>
      version_lines_ok 0 (data_lines data) = false
      /\ (e = ValueError \/ e = OverflowError)
  end.
Proof.
  pose proof (version_loop_lines (data_lines data) Version.init eq_refl) as Hloop.
  change (Version.seconds Version.init) with 0%Z in Hloop.
  unfold show_version_sanitizer.
  destruct (version_lines_ok 0 (data_lines data)).
  - destruct Hloop as (st & Hloop). rewrite Hloop, bind_Ok.
    apply version_loop_inv in Hloop as (_ & Hv & _). now split.
  - destruct Hloop as (e & -> & He). now split.
Qed.

(** X10. The version scan returns exactly on the texts whose lines the
    code accepts one after the other: a [MODEL] line has one comma; the
    numeric tokens of an uptime line are made of decimal digits, at most 4300
    of them each, and are not more than five; and with four or five tokens
    the sum in seconds, the seconds being those of the last five-token line
    before, has a float.  It then returns the vendor [Hewlett Packard].  On
    every other text it raises [ValueError] or [OverflowError].  The texts
    whose lines are all well formed are among the accepted ones. *)
Theorem version_scan_returns_exactly_on_well_formed :
  forall data : string,
    match show_version_sanitizer data with
    | Ok (v, _, _, _) =>
        version_lines_ok 0 (data_lines data) = true /\ v = "Hewlett Packard"
    | Raise e =>
        version_lines_ok 0 (data_lines data) = false
        /\ (e = ValueError \/ e = OverflowError)
    end
    /\ (forallb version_well_formed (data_lines data) = true ->
        version_lines_ok 0 (data_lines data) = true).
Proof.
  intros data. split.
  - pose proof (version_loop_lines (data_lines data) Version.init eq_refl) as Hloop.
    change (Version.seconds Version.init) with 0%Z in Hloop.
    unfold show_version_sanitizer.
    destruct (version_lines_ok 0 (data_lines data)).
    + destruct Hloop as (st & Hloop). rewrite Hloop, bind_Ok.
      apply version_loop_inv in Hloop as (_ & Hv & _). now split.
    + destruct Hloop as (e & -> & He). now split.
  - intros Hwf. exact (well_formed_lines_ok _ 0 Hwf pow_300_pos).
Qed.

Lemma version_scan_returns_exactly_on_well_formed_witness :
  let data := Py.text ["MODEL: 505, Version 8.6";
                       "AP uptime is 3 days 4 hours 5 minutes 6 seconds"] in
  forallb version_well_formed (data_lines data) = true
  /\ version_lines_ok 0 (data_lines data) = true
  /\ show_version_sanitizer data =
     Ok ("Hewlett Packard", "MODEL: 505", " Version 8.6", PFloat 2178360).
Proof.
  intros data. split; [reflexivity|]. split; [|reflexivity].
  apply (proj2 (version_scan_returns_exactly_on_well_formed data)). reflexivity.
Defined.

Lemma uptime_rule_bad (st : Version.locals) (l : string) :
  Py.contains "AP uptime is" l = true ->
  (6 <= length (numeric_tokens l)
   \/ exists token, In token (numeric_tokens l)
                    /\ (Py.all_chars Py.isdecimal_char token = false
                        \/ 4300 < String.length token)) ->
  uptime_rule st l = Raise ValueError.
Proof.
  intros Hc Hbad. rewrite (uptime_rule_cases _ _ Hc).
  destruct (forallb int_accepts (numeric_tokens l)) eqn:Hall; [|reflexivity].
  destruct Hbad as [Hsix|(token & Hin & Htoken)].
  - rewrite <- (length_map (Py.digits_value 0)) in Hsix.
    destruct (map (Py.digits_value 0) (numeric_tokens l))
      as [|a [|b [|c [|d [|f [|g rest]]]]]]; cbn [length] in Hsix; try lia.
    reflexivity.
  - rewrite forallb_forall in Hall. specialize (Hall token Hin).
    unfold int_accepts in Hall. apply andb_prop in Hall as [Hdec Hlen].
    apply Nat.leb_le in Hlen. unfold Py.int_max_str_digits in Hlen.
    destruct Htoken as [Hnot|Hlong]; [congruence | lia].
Qed.

(** X11. A line with [AP uptime is] and six or more numeric tokens raises
    [ValueError], whatever the locals: the guard admits five tokens or more
    and the assignment takes exactly five.  So does a numeric token that is
    not made of decimal digits, such as a superscript two, which [isnumeric]
    admits and [int] refuses, and one of more than 4300 digits.  The version
    scan of a text with such a line raises: [ValueError] when the lines
    before it raise nothing, and [ValueError] or [OverflowError] in any
    case. *)
Theorem uptime_line_raises :
  forall (data : string) (pre post : list string) (l : string),
    data_lines data = pre ++ l :: post ->
    Py.contains "AP uptime is" l = true ->
    (6 <= length (numeric_tokens l)
     \/ exists token, In token (numeric_tokens l)
                      /\ (Py.all_chars Py.isdecimal_char token = false
                          \/ 4300 < String.length token)) ->
    (forall st : Version.locals, version_body st l = Raise ValueError)
    /\ (exists e, show_version_sanitizer data = Raise e
                  /\ (e = ValueError \/ e = OverflowError))
    /\ (forall st : Version.locals,
           for_each version_body Version.init pre = Ok st ->
           show_version_sanitizer data = Raise ValueError).
Proof.
  intros data pre post l Hlines Hc Hbad.
  assert (Hline : forall st : Version.locals, version_body st l = Raise ValueError).
  { intros st. unfold version_body.
    destruct (model_rule st l) as [st1|e] eqn:Hm.
    - rewrite bind_Ok. now apply uptime_rule_bad.
    - now rewrite (model_rule_raises _ _ _ Hm). }
  split; [exact Hline|]. split.
  - apply (version_scan_raises_at data l); [|exact Hline].
    rewrite Hlines. apply in_or_app. right. now left.
  - intros st Hpre. exact (version_scan_raises_after _ _ _ _ _ _ Hlines Hpre (Hline st)).
Qed.

Lemma uptime_line_raises_witness :
  show_version_sanitizer
    (Py.text ["MODEL: 505, Version 8.6";
              "AP uptime is 1 year 2 weeks 3 days 4 hours 5 minutes 6 seconds"]) =
  Raise ValueError
  /\ show_version_sanitizer
       (Py.text ["AP uptime is 3 days " +:+ String "178" " hours"]) = Raise ValueError.
Proof.
  split.
  - refine (proj2 (proj2 (uptime_line_raises
               (Py.text ["MODEL: 505, Version 8.6";
                         "AP uptime is 1 year 2 weeks 3 days 4 hours 5 minutes 6 seconds"])
               ["MODEL: 505, Version 8.6"] []
               "AP uptime is 1 year 2 weeks 3 days 4 hours 5 minutes 6 seconds"
               eq_refl eq_refl _)) _ eq_refl).
    left. vm_compute. lia.
  - refine (proj2 (proj2 (uptime_line_raises
               (Py.text ["AP uptime is 3 days " +:+ String "178" " hours"]) [] []
               ("AP uptime is 3 days " +:+ String "178" " hours")
               eq_refl eq_refl _)) _ eq_refl).
    right. exists (String "178" "").
    split; [right; left; reflexivity | left; reflexivity].
Defined.

(** *** The uptime is never negative *)

Lemma accepted_values_nonneg (xs : list string) :
  forallb int_accepts xs = true ->
  Forall (fun z => 0 <= z)%Z (map (Py.digits_value 0) xs).
Proof.
  intros Hall. apply List.Forall_map, List.Forall_forall. intros x Hx.
  rewrite forallb_forall in Hall. specialize (Hall x Hx).
  unfold int_accepts in Hall. apply andb_prop in Hall as [Hdec _].
  apply (digits_value_range x 0 Hdec). lia.
Qed.

Lemma uptime_seconds_nonneg (w d h m s : Z) (u : pyval) :
  uptime_seconds 0 w d h m s = Ok u ->
  (0 <= w)%Z -> (0 <= d)%Z -> (0 <= h)%Z -> (0 <= m)%Z -> (0 <= s)%Z ->
  exists n, u = PFloat n /\ (0 <= n)%Z.
Proof.
  intros Hu Hw Hd Hh Hm Hs. unfold uptime_seconds in Hu.
  apply py_float_inv in Hu as ->. eexists. split; [reflexivity|].
  apply round_to_double_nonneg. rewrite uptime_sum_linear. lia.
Qed.

Lemma uptime_rule_nonneg (st st' : Version.locals) (l : string) :
  uptime_rule st l = Ok st' ->
  Version.years st = 0%Z ->
  (0 <= Version.seconds st)%Z ->
  (Version.uptime st = PStr "" \/ exists n, Version.uptime st = PFloat n /\ (0 <= n)%Z) ->
  (0 <= Version.seconds st')%Z
  /\ (Version.uptime st' = PStr ""
      \/ exists n, Version.uptime st' = PFloat n /\ (0 <= n)%Z).
Proof.
  intros Hrun Hy Hsec Hup.
  destruct (Py.contains "AP uptime is" l) eqn:Hc;
    [|rewrite (uptime_rule_skip _ _ Hc) in Hrun; injection Hrun as <-; tauto].
  rewrite (uptime_rule_cases _ _ Hc) in Hrun.
  destruct (forallb int_accepts (numeric_tokens l)) eqn:Hall; [|discriminate].
  apply accepted_values_nonneg in Hall. rewrite Hy in Hrun.
  destruct (map (Py.digits_value 0) (numeric_tokens l))
    as [|a [|b [|c [|d [|f [|g rest]]]]]]; cbn [length Nat.ltb Nat.leb] in Hrun;
    try discriminate; try (injection Hrun as <-; tauto);
    repeat match goal with
           | Hf : Forall _ (_ :: _) |- _ => inversion Hf; subst; clear Hf
           end.
  - destruct (uptime_seconds 0 a b c d (Version.seconds st)) as [u|e] eqn:Hu;
      [|discriminate].
    injection Hrun as <-. cbn [Version.seconds Version.uptime].
    split; [exact Hsec | right; now apply (uptime_seconds_nonneg _ _ _ _ _ _ Hu)].
  - destruct (uptime_seconds 0 a b c d f) as [u|e] eqn:Hu; [|discriminate].
    injection Hrun as <-. cbn [Version.seconds Version.uptime].
    split; [assumption | right; now apply (uptime_seconds_nonneg _ _ _ _ _ _ Hu)].
Qed.

Lemma version_loop_nonneg (ls : list string) (st st' : Version.locals) :
  for_each version_body st ls = Ok st' ->
  Version.years st = 0%Z ->
  (0 <= Version.seconds st)%Z ->
  (Version.uptime st = PStr "" \/ exists n, Version.uptime st = PFloat n /\ (0 <= n)%Z) ->
  Version.uptime st' = PStr ""
  \/ exists n, Version.uptime st' = PFloat n /\ (0 <= n)%Z.
Proof.
  revert st. induction ls as [|l ls IH]; intros st; cbn [for_each].
  - now intros [= <-].
  - intros Hrun Hy Hsec Hup.
    apply bind_Ok_inv in Hrun as (st2 & Hbody & Hrest).
    unfold version_body in Hbody.
    apply bind_Ok_inv in Hbody as (st1 & Hm & Hu).
    pose proof (model_rule_keeps _ _ _ Hm) as (Hup1 & Hsec1 & Hy1 & _).
    pose proof (uptime_rule_inv _ _ _ Hu) as (Hy2 & _).
    destruct (uptime_rule_nonneg _ _ _ Hu) as [Hsec2 Hup2]; try congruence.
    { now rewrite Hup1. }
    apply (IH st2 Hrest); [congruence | exact Hsec2 | exact Hup2].
Qed.

(** X12. An uptime that the version scan returns is either the empty
    string or the float of a non-negative whole number of seconds. *)
Theorem uptime_is_never_negative :
  forall (data v m o : string) (u : pyval),
    show_version_sanitizer data = Ok (v, m, o, u) ->
    u = PStr "" \/ exists n, u = PFloat n /\ (0 <= n)%Z.
Proof.
  intros data v m o u Hrun.
  apply version_scan_inv in Hrun as (st & Hloop & _ & _ & _ & ->).
  apply (version_loop_nonneg _ _ _ Hloop); [reflexivity | reflexivity | now left].
Qed.

Lemma uptime_is_never_negative_witness :
  exists n,
    show_version_sanitizer (Py.text ["AP uptime is 0 days 3 hours 15 minutes 0 seconds"]) =
    Ok ("Hewlett Packard", "", "", PFloat n)
    /\ (0 <= n)%Z.
Proof.
  destruct (uptime_is_never_negative
              (Py.text ["AP uptime is 0 days 3 hours 15 minutes 0 seconds"])
              "Hewlett Packard" "" "" (PFloat 313200) eq_refl) as [Hstr|(n & Hn & Hpos)].
  - discriminate.
  - exists n. injection Hn as <-. split; [reflexivity | exact Hpos].
Defined.

(** *** The neighbor scan *)

Lemma lldp_body_raises (st : Lldp.locals) (line : string) (e : Exn) :
  lldp_body st line = Raise e -> e = IndexError.
Proof.
  unfold lldp_body. destruct (Py.truthy line); [|discriminate].
  unfold system_name_rule, interface_description_rule.
  rewrite third_token_cases.
  destruct (Py.contains "System name:" line),
    (Py.contains "Interface description:" line),
    (3 <=? length (Py.split_ws line))%nat;
    cbn -[vendor_rule third_token Py.replace]; try discriminate; now intros [= <-].
Qed.

Lemma lldp_body_bad (st : Lldp.locals) (line : string) :
  lldp_well_formed line = false -> lldp_body st line = Raise IndexError.
Proof.
  unfold lldp_well_formed, lldp_body. intros Hbad.
  apply orb_false_elim in Hbad as [Hmatch Hshort].
  apply negb_false_iff in Hmatch.
  destruct line as [|c line]; [discriminate|]. cbn [Py.truthy].
  unfold system_name_rule, interface_description_rule.
  rewrite third_token_cases, Hshort.
  destruct (Py.contains "System name:" (String c line)); [reflexivity|].
  cbn [orb] in Hmatch. rewrite Hmatch. reflexivity.
Qed.

(** X13. [get_lldp_neighbors] returns exactly on the dumps in which every
    line containing [System name:] or [Interface description:] has a third
    token; on every other dump it raises, and what it raises is always
    [IndexError].  The device is sent the one command in both cases. *)
Theorem lldp_returns_exactly_on_well_formed :
  forall (D : Type) (H : ConnectHandler D) (self : ArubaFDriver D),
    let sent := send_command "show ap debug lldp neighbor interface eth0" (device self) in
    let lines := map Py.strip (Py.splitlines (fst sent)) in
    device (snd (get_lldp_neighbors self)) = snd sent
    /\ match fst (get_lldp_neighbors self) with
       | Ok _ => forallb lldp_well_formed lines = true
       | Raise e => forallb lldp_well_formed lines = false /\ e = IndexError
       end.
Proof.
  intros D H self sent lines. subst sent lines. unfold get_lldp_neighbors.
  destruct (send_command _ (device self)) as [dump dev1]. cbn [fst snd device].
  split; [reflexivity|].
  destruct (forallb lldp_well_formed (map Py.strip (Py.splitlines dump))) eqn:Hwf.
  - now rewrite (for_each_fold lldp_body lldp_next lldp_well_formed _ Lldp.init
                   lldp_body_ok Hwf).
  - now rewrite (for_each_stops lldp_body IndexError lldp_well_formed _ _
                   lldp_body_raises lldp_body_bad Hwf).
Qed.

(** *** The summary scan *)

Lemma summary_body_cases (st : Summary.locals) (l : string) :
  summary_body st l =
  if summary_line_ok (Py.truthy (Summary.hostname_ st)) l
  then Ok (summary_next st l) else Raise IndexError.
Proof.
  unfold summary_line_ok, summary_body, name_rule, domain_rule, serial_rule,
    summary_next.
  rewrite colon_field_cases. destruct st as [h0 f0 s0].
  cbn [Summary.hostname_ Summary.fqdn Summary.serial_number].
  destruct (Py.contains "Name" l), (Py.truthy h0) eqn:Hh,
    (1 <=? count_char ":" l)%nat, (Py.contains "DNSDomain" l),
    (Py.contains "Serial Number" l);
    cbn -[Py.truthy Py.lower field String.append]; rewrite ?Hh;
    try reflexivity;
    destruct (Py.truthy (Py.lower (field ":" 1 l)));
    cbn -[Py.truthy Py.lower field String.append]; reflexivity.
Qed.

Lemma next_hostname_status (st : Summary.locals) (l : string) :
  Py.truthy (Summary.hostname_ (summary_next st l)) =
  Py.truthy (Summary.hostname_ st) || sets_hostname l.
Proof.
  destruct (Py.truthy (Summary.hostname_ st)) eqn:Hh.
  - now rewrite (next_hostname_set _ _ Hh), Hh.
  - rewrite (next_hostname_unset _ _ Hh). unfold sets_hostname.
    destruct (Py.contains "Name" l); [apply truthy_lower | reflexivity].
Qed.

Lemma summary_loop_cases (ls : list string) (st : Summary.locals) :
  for_each summary_body st ls =
  if summary_lines_ok (Py.truthy (Summary.hostname_ st)) ls
  then Ok (fold_left summary_next ls st) else Raise IndexError.
Proof.
  revert st. induction ls as [|l ls IH]; intros st; [reflexivity|].
  cbn [for_each summary_lines_ok fold_left]. rewrite summary_body_cases.
  destruct (summary_line_ok (Py.truthy (Summary.hostname_ st)) l); [|reflexivity].
  rewrite bind_Ok, IH, next_hostname_status. reflexivity.
Qed.

Lemma summary_scan_cases (data : string) :
  match show_summary_sanitizer data with
  | Ok _ => summary_lines_ok false (data_lines data) = true
  | Raise e => summary_lines_ok false (data_lines data) = false /\ e = IndexError
  end.
Proof.
  unfold show_summary_sanitizer. rewrite summary_loop_cases.
  change (Py.truthy (Summary.hostname_ Summary.init)) with false.
  destruct (summary_lines_ok false (data_lines data)); cbn; tauto.
Qed.

(** X14. The summary scan returns exactly on the texts in which every line
    without a colon is read by none of its rules: such a line does not
    contain [Serial Number], does not contain [DNSDomain] once the host name
    is set, and does not contain [Name] while the host name is unset (after
    that, [Name] lines are no longer read).  On every other text it raises,
    and what it raises is always [IndexError]. *)
Theorem summary_scan_returns_exactly :
  forall data : string,
    match show_summary_sanitizer data with
    | Ok _ => summary_lines_ok false (data_lines data) = true
    | Raise e => summary_lines_ok false (data_lines data) = false /\ e = IndexError
    end.
Proof.
  intros data. unfold show_summary_sanitizer. rewrite summary_loop_cases.
  change (Py.truthy (Summary.hostname_ Summary.init)) with false.
  destruct (summary_lines_ok false (data_lines data)); cbn; tauto.
Qed.

(** The fqdn, once set, is the host name, a dot and the second field of a
    [DNSDomain] line that was read, as that line has it. *)
Lemma summary_next_invariant (P : string -> Prop) (st : Summary.locals) (l : string) :
  P l ->
  Py.lower (Summary.hostname_ st) = Summary.hostname_ st ->
  (Summary.fqdn st = ""
   \/ Py.truthy (Summary.hostname_ st) = true
      /\ exists l0, P l0 /\ Py.contains "DNSDomain" l0 = true
                    /\ Summary.fqdn st = Summary.hostname_ st +:+ "." +:+ field ":" 1 l0) ->
  Py.lower (Summary.hostname_ (summary_next st l)) = Summary.hostname_ (summary_next st l)
  /\ (Summary.fqdn (summary_next st l) = ""
      \/ Py.truthy (Summary.hostname_ (summary_next st l)) = true
         /\ exists l0, P l0 /\ Py.contains "DNSDomain" l0 = true
                       /\ Summary.fqdn (summary_next st l) =
                          Summary.hostname_ (summary_next st l) +:+ "." +:+ field ":" 1 l0).
Proof.
  intros Hl Hlow Hfq. split.
  - destruct (Py.truthy (Summary.hostname_ st)) eqn:Hh.
    + now rewrite (next_hostname_set _ _ Hh).
    + rewrite (next_hostname_unset _ _ Hh).
      destruct (Py.contains "Name" l); [apply lower_idempotent | reflexivity].
  - destruct (Py.contains "DNSDomain" l
              && Py.truthy (Summary.hostname_ (summary_next st l))) eqn:Hd.
    + apply andb_prop in Hd as [Hc Ht]. right. split; [exact Ht|].
      exists l. split; [exact Hl|]. split; [exact Hc|]. now apply next_fqdn.
    + assert (Hsame : Summary.fqdn (summary_next st l) = Summary.fqdn st).
      { unfold summary_next in *. cbn [Summary.fqdn Summary.hostname_] in *.
        now rewrite Hd. }
      rewrite Hsame. destruct Hfq as [Hempty|(Ht & l0 & Hl0 & Hc0 & Hv)]; [now left|].
      right. rewrite (next_hostname_set _ _ Ht). split; [exact Ht|].
      now exists l0.
Qed.

Lemma summary_fold_invariant (P : string -> Prop) (ls : list string)
    (st : Summary.locals) :
  (forall l, In l ls -> P l) ->
  Py.lower (Summary.hostname_ st) = Summary.hostname_ st ->
  (Summary.fqdn st = ""
   \/ Py.truthy (Summary.hostname_ st) = true
      /\ exists l0, P l0 /\ Py.contains "DNSDomain" l0 = true
                    /\ Summary.fqdn st = Summary.hostname_ st +:+ "." +:+ field ":" 1 l0) ->
  let st' := fold_left summary_next ls st in
  Py.lower (Summary.hostname_ st') = Summary.hostname_ st'
  /\ (Summary.fqdn st' = ""
      \/ exists l0, P l0 /\ Py.contains "DNSDomain" l0 = true
                    /\ Summary.fqdn st' = Summary.hostname_ st' +:+ "." +:+ field ":" 1 l0).
Proof.
  revert st. induction ls as [|l ls IH]; intros st HP Hlow Hfq; cbn [fold_left].
  - split; [exact Hlow|]. destruct Hfq as [?|(_ & ?)]; tauto.
  - destruct (summary_next_invariant P st l (HP l (or_introl eq_refl)) Hlow Hfq)
      as [Hlow' Hfq'].
    apply IH; [|exact Hlow' | exact Hfq'].
    intros l0 Hl0. apply HP. now right.
Qed.

(** X15. What the summary scan returns as host name is in lower case (its
    own lower-case form), and what it returns as fqdn is either empty or the
    host name it returns, a dot and the text between the first and the second
    colon of a line of the text that contains [DNSDomain], taken from that
    line as it is: the text after the dot keeps its letter case. *)
Theorem summary_hostname_lower_and_fqdn_prefix :
  forall data h f s : string,
    show_summary_sanitizer data = Ok (h, f, s) ->
    Py.lower h = h
    /\ (f = ""
        \/ exists l, In l (data_lines data)
                     /\ Py.contains "DNSDomain" l = true
                     /\ f = h +:+ "." +:+ field ":" 1 l).
Proof.
  intros data h f s Hrun.
  apply summary_scan_inv in Hrun as (-> & -> & _).
  apply (summary_fold_invariant (fun l => In l (data_lines data)));
    [auto | reflexivity | now left].
Qed.

Lemma summary_hostname_lower_and_fqdn_prefix_witness :
  let data := Py.text ["Name:AP-Lobby"; "DNSDomain:Corp.NET"] in
  show_summary_sanitizer data = Ok ("ap-lobby", "ap-lobby.Corp.NET", "")
  /\ field ":" 1 "DNSDomain:Corp.NET" = "Corp.NET"
  /\ Py.lower "ap-lobby" = "ap-lobby"
  /\ ("ap-lobby.Corp.NET" = ""
      \/ exists l, In l (data_lines data)
                   /\ Py.contains "DNSDomain" l = true
                   /\ "ap-lobby.Corp.NET" = "ap-lobby" +:+ "." +:+ field ":" 1 l).
Proof.
  intros data. split; [reflexivity|]. split; [reflexivity|].
  exact (summary_hostname_lower_and_fqdn_prefix data
           "ap-lobby" "ap-lobby.Corp.NET" "" eq_refl).
Defined.

(** ** [get_facts] *)

Lemma rstrip_cons (c : ascii) (s : string) :
  Py.rstrip (String c s) =
  match Py.rstrip s with
  | EmptyString => if Py.isspace c then EmptyString else String c EmptyString
  | r => String c r
  end.
Proof. reflexivity. Qed.

Lemma rstrip_idempotent (s : string) : Py.rstrip (Py.rstrip s) = Py.rstrip s.
Proof.
  induction s as [|c s IH]; [reflexivity|].
  rewrite rstrip_cons. destruct (Py.rstrip s) as [|d r] eqn:Hr.
  - destruct (Py.isspace c) eqn:Hc; [reflexivity|].
    rewrite rstrip_cons. cbn [Py.rstrip]. now rewrite Hc.
  - rewrite rstrip_cons. now rewrite IH.
Qed.

Lemma lstrip_head (s : string) :
  Py.lstrip s = "" \/ exists c r, Py.lstrip s = String c r /\ Py.isspace c = false.
Proof.
  induction s as [|c s IH]; [now left|].
  cbn [Py.lstrip]. destruct (Py.isspace c) eqn:Hc; [exact IH|].
  right. now exists c, s.
Qed.

Lemma rstrip_head (c : ascii) (r : string) :
  Py.isspace c = false -> exists r', Py.rstrip (String c r) = String c r'.
Proof.
  intros Hc. rewrite rstrip_cons, Hc.
  destruct (Py.rstrip r); eauto.
Qed.

Lemma strip_idempotent (s : string) : Py.strip (Py.strip s) = Py.strip s.
Proof.
  unfold Py.strip.
  destruct (lstrip_head s) as [->|(c & r & -> & Hc)]; [reflexivity|].
  destruct (rstrip_head c r Hc) as (r' & Hr).
  pose proof (rstrip_idempotent (String c r)) as Hidem.
  rewrite Hr in *. cbn [Py.lstrip]. now rewrite Hc.
Qed.

Lemma get_facts_cases {D : Type} `{ConnectHandler D} (self : ArubaFDriver D) :
  let sent1 := send_command "show version" (device self) in
  let sent2 := send_command "show summary" (snd sent1) in
  get_facts self =
  (match show_version_sanitizer (without_blank_lines (fst sent1)) with
   | Raise e => Raise e
   | Ok (vendor, model, os_version, uptime) =>
       match show_summary_sanitizer (without_blank_lines (fst sent2)) with
       | Raise e => Raise e
       | Ok (hostname_, fqdn_, serial_number_) =>
           Ok (Facts.mk hostname_ fqdn_ vendor model serial_number_
                 (Py.strip os_version) uptime)
       end
   end,
   mkDriver (hostname self) (snd sent2) (destination self)).
Proof.
  cbv zeta. unfold get_facts, without_blank_lines.
  destruct (send_command "show version" (device self)) as [version_output dev1].
  cbn [fst snd].
  destruct (send_command "show summary" dev1) as [summary_output dev2].
  cbn [fst snd]. reflexivity.
Qed.

(** X16. [get_facts] always sends [show version] and then [show summary],
    also when it raises afterwards.  It returns exactly when the version
    scan accepts the lines of the filtered version text and the summary scan
    those of the filtered summary text; a version text that is not accepted
    raises [ValueError] or [OverflowError] whatever the summary text is, and
    a summary text that is not accepted raises [IndexError] only when the
    version text is accepted. *)
Theorem get_facts_returns_exactly :
  forall (D : Type) (H : ConnectHandler D) (self : ArubaFDriver D),
    let sent1 := send_command "show version" (device self) in
    let sent2 := send_command "show summary" (snd sent1) in
    let version_ok :=
      version_lines_ok 0 (data_lines (without_blank_lines (fst sent1))) in
    let summary_ok :=
      summary_lines_ok false (data_lines (without_blank_lines (fst sent2))) in
    snd (get_facts self) = mkDriver (hostname self) (snd sent2) (destination self)
    /\ match fst (get_facts self) with
       | Ok _ => version_ok = true /\ summary_ok = true
       | Raise e =>
           (version_ok = false /\ (e = ValueError \/ e = OverflowError))
           \/ (version_ok = true /\ summary_ok = false /\ e = IndexError)
       end.
Proof.
  intros D H self sent1 sent2 version_ok summary_ok.
  subst version_ok summary_ok. rewrite get_facts_cases. fold sent1 sent2.
  cbn [fst snd]. split; [reflexivity|].
  pose proof (version_scan_cases (without_blank_lines (fst sent1))) as Hv.
  pose proof (summary_scan_cases (without_blank_lines (fst sent2))) as Hs.
  destruct (show_version_sanitizer _) as [[[[v m] o] u]|e]; [|left; exact Hv].
  destruct Hv as [Hv _].
  destruct (show_summary_sanitizer _) as [[[h f] s]|e]; [tauto|].
  right. tauto.
Qed.

(** X17. The facts [get_facts] returns have the vendor [Hewlett Packard],
    an OS version without white space at either end, a host name in lower
    case, an fqdn that is empty or the host name, a dot and some text, and
    an uptime that is the empty string or the float of a non-negative
    number. *)
Theorem get_facts_fields :
  forall (D : Type) (H : ConnectHandler D) (self self' : ArubaFDriver D)
         (facts : Facts.t),
    get_facts self = (Ok facts, self') ->
    Facts.vendor facts = "Hewlett Packard"
    /\ Py.strip (Facts.os_version facts) = Facts.os_version facts
    /\ Py.lower (Facts.hostname facts) = Facts.hostname facts
    /\ (Facts.fqdn facts = ""
        \/ exists v, Facts.fqdn facts = Facts.hostname facts +:+ "." +:+ v)
    /\ (Facts.uptime facts = PStr ""
        \/ exists n, Facts.uptime facts = PFloat n /\ (0 <= n)%Z).
Proof.
  intros D H self self' facts. rewrite get_facts_cases. cbv zeta.
  destruct (show_version_sanitizer _) as [[[[v m] o] u]|e] eqn:Hv; [|discriminate].
  destruct (show_summary_sanitizer _) as [[[h f] s]|e] eqn:Hs; [|discriminate].
  intros [= <- _]. cbn [Facts.vendor Facts.os_version Facts.hostname Facts.fqdn Facts.uptime].
  pose proof (version_scan_cases (without_blank_lines
                (fst (send_command "show version" (device self))))) as Hvendor.
  rewrite Hv in Hvendor. destruct Hvendor as [_ ->].
  split; [reflexivity|]. split; [apply strip_idempotent|].
  apply summary_scan_inv in Hs as (-> & -> & _).
  apply version_scan_inv in Hv as (st & Hloop & _ & _ & _ & ->).
  destruct (summary_fold_invariant (fun _ => True)
              (data_lines (without_blank_lines
                 (fst (send_command "show summary"
                         (snd (send_command "show version" (device self)))))))
              Summary.init (fun _ _ => I) eq_refl (or_introl eq_refl)) as [Hlow Hfq].
  split; [exact Hlow|].
  split; [destruct Hfq as [Hempty|(l0 & _ & _ & Hfq)]; [now left | right; eauto]|].
  apply (version_loop_nonneg _ _ _ Hloop); [reflexivity | reflexivity | now left].
Qed.

Lemma get_facts_fields_witness :
  let device :=
    Scripted.mk
      (fun cmd =>
         if String.eqb cmd "show version"
         then Py.text ["MODEL: 505,  Version 8.6  "; ""; "AP uptime is 1 0 0 0 0"]
         else Py.text ["Name:AP-Lobby"; "  "; "DNSDomain:Corp.NET"; "Serial Number:CN1"])
      [] in
  fst (get_facts (mkDriver "ap" device None)) =
  Ok (Facts.mk "ap-lobby" "ap-lobby.Corp.NET" "Hewlett Packard" "MODEL: 505" "CN1"
        "Version 8.6" (PFloat 604800))
  /\ Py.strip "Version 8.6" = "Version 8.6".
Proof.
  intros device. split; [reflexivity|].
  exact (proj1 (proj2 (get_facts_fields Scripted.device _ (mkDriver "ap" device None)
                         (snd (get_facts (mkDriver "ap" device None)))
                         (Facts.mk "ap-lobby" "ap-lobby.Corp.NET" "Hewlett Packard"
                            "MODEL: 505" "CN1" "Version 8.6" (PFloat 604800))
                         eq_refl))).
Defined.
